(** * Hierarchical file/folder management of the drive backend

    A shallow embedding of [src/models/File.js] (the File schema and its
    method [getFolderStructure]) and of the request handlers of
    [src/routes/files.js] (list, list by path, search, create folder, delete,
    upload, download URL), with the properties of the storage-quota
    accounting, the soft-delete cascade, the listings and the error
    responses.

    Conventions of the embedding:
    - JavaScript numbers that hold byte counts are integers below 2^53 and are
      modelled as [Z]; [Math.max] is [Z.max].
    - JavaScript strings are modelled as [string], sequences of characters
      with the codes 0 to 255; [String.prototype.trim] (which also removes the
      no-break space, code 160) and the regular-expression matcher are
      modelled on that alphabet.
    - MongoDB ObjectIds are modelled as [nat]; a collection is the list of its
      documents in insertion order.  The ids in the path and in the body of a
      request are well-formed ObjectIds, and [req.user.id] is the id the auth
      middleware has set; the parentFolder parameter of the listing is
      modelled as it is sent, well-formed or not.
    - the values of a filter are cast with the schema before the query is
      sent: the [trim] setter applies to a [name] given in a filter.
    - every [await] of a handler is one operation of a small program type
      [Prog]; the interpreter [run] threads the database and the log of
      external effects through the operations, and [runN] stops after a given
      number of operations (an interrupted request).
    - an operation throws where the source can be seen to throw: a failed
      schema validation on [save], a pattern the database rejects, a failed
      call of the object store, a property access on a [null] user.  Other
      input/output errors of the database are not modelled.
    - the listings sort by [type] descending and [name] ascending, strings
      in the order of their character codes (the database's simple
      collation); [populate] looks the parents up by id.
    - not modelled: the [errors] array of the validation response, the
      [createdAt]/[updatedAt] time stamps, console output, and the routes of
      the accounts (register, login, password reset), whose model
      [models/User.js] is not part of the sources.  The clock of a request
      is one value [now]. *)

From Stdlib Require Import ZArith List String Ascii Bool Arith Lia DecimalString.
From Stdlib Require Import Sorted Permutation.
From Stdlib Require DecimalNat DecimalFacts.
Import ListNotations.
Local Open Scope string_scope.
Local Open Scope Z_scope.

Set Implicit Arguments.

(** ** Strings *)

Module Str.

(** [s.startsWith(p)]. *)
Fixpoint startsWith (p s : string) : bool :=
  match p, s with
  | EmptyString, _ => true
  | String a p', String b s' => Ascii.eqb a b && startsWith p' s'
  | String _ _, EmptyString => false
  end.

(** White space removed by [String.prototype.trim] and by the [\s] of
    express-validator's [trim()], among the characters with codes 0 to 255:
    TAB, LF, VT, FF, CR, SPACE and NO-BREAK SPACE (code 160). *)
Definition isSpace (c : ascii) : bool :=
  let n := nat_of_ascii c in
  (Nat.eqb n 32 || (Nat.leb 9 n && Nat.leb n 13) || Nat.eqb n 160)%bool.

Fixpoint trimStart (s : string) : string :=
  match s with
  | EmptyString => EmptyString
  | String c s' => if isSpace c then trimStart s' else s
  end.

Fixpoint trimEnd (s : string) : string :=
  match s with
  | EmptyString => EmptyString
  | String c s' =>
      match trimEnd s' with
      | EmptyString => if isSpace c then EmptyString else String c EmptyString
      | r => String c r
      end
  end.

Definition trim (s : string) : string := trimEnd (trimStart s).

Definition isEmpty (s : string) : bool :=
  match s with EmptyString => true | _ => false end.

End Str.

(** ** Regular expressions of the [$regex] query operator

    The handlers build the pattern [^<path>/] by string interpolation and hand
    it to the database's matcher.  An engine maps a pattern to [None] when the
    pattern is rejected (the query throws) and otherwise to the test
    "the pattern matches somewhere in the subject".  The handlers are
    parametrised by the engine; [Regex.compile] below is the engine used for
    concrete runs.  It implements the anchored fragment made of literal
    characters, [.] (any character but LF), backslash-escaped punctuation and
    the postfix quantifiers [*], [+], [?]; it rejects every pattern outside
    that fragment. *)

Module Regex.

Inductive Atom : Type :=
| Lit (c : ascii)
| AnyChar.

Inductive Quant : Type := One | Star | Plus | Opt.

Definition Item : Type := (Atom * Quant)%type.

Definition isAlnum (c : ascii) : bool :=
  let n := nat_of_ascii c in
  ((Nat.leb 48 n && Nat.leb n 57) || (Nat.leb 65 n && Nat.leb n 90)
   || (Nat.leb 97 n && Nat.leb n 122))%bool.

(** Characters with a special meaning in a pattern. *)
Definition isMeta (c : ascii) : bool :=
  existsb (Ascii.eqb c)
    (list_ascii_of_string ".*+?()[]{}|^$\").

Definition isQuant (c : ascii) : option Quant :=
  if Ascii.eqb c "*" then Some Star
  else if Ascii.eqb c "+" then Some Plus
  else if Ascii.eqb c "?" then Some Opt
  else None.

(** Reads one atom from the front of the pattern. *)
Definition parseAtom (p : string) : option (Atom * string) :=
  match p with
  | EmptyString => None
  | String c p' =>
      if Ascii.eqb c "\" then
        match p' with
        | String d p'' => if isAlnum d then None else Some (Lit d, p'')
        | EmptyString => None
        end
      else if Ascii.eqb c "." then Some (AnyChar, p')
      else if isMeta c then None
      else Some (Lit c, p')
  end.

(** Parses the pattern after the leading anchor.  [fuel] bounds the number of
    atoms and is taken as the length of the pattern. *)
Fixpoint parseItems (fuel : nat) (p : string) : option (list Item) :=
  match p with
  | EmptyString => Some []
  | _ =>
      match fuel with
      | O => None
      | S fuel' =>
          match parseAtom p with
          | None => None
          | Some (a, rest) =>
              match rest with
              | String q rest' =>
                  match isQuant q with
                  | Some qu =>
                      match rest' with
                      | String q' _ =>
                          match isQuant q' with
                          | Some _ => None
                          | None =>
                              option_map (cons (a, qu)) (parseItems fuel' rest')
                          end
                      | EmptyString => Some [(a, qu)]
                      end
                  | None => option_map (cons (a, One)) (parseItems fuel' rest)
                  end
              | EmptyString => Some [(a, One)]
              end
          end
      end
  end.

Definition atomMatch (a : Atom) (c : ascii) : bool :=
  match a with
  | Lit d => Ascii.eqb d c
  | AnyChar => negb (Ascii.eqb c "010")
  end.

(** Does some prefix of [s] match the items (backtracking matcher)? *)
Fixpoint matchItems (items : list Item) (s : string) : bool :=
  match items with
  | [] => true
  | (a, q) :: rest =>
      let star :=
        fix star (s : string) : bool :=
          matchItems rest s
          || match s with
             | String c s' => atomMatch a c && star s'
             | EmptyString => false
             end in
      match q with
      | One =>
          match s with
          | String c s' => atomMatch a c && matchItems rest s'
          | EmptyString => false
          end
      | Opt =>
          matchItems rest s
          || match s with
             | String c s' => atomMatch a c && matchItems rest s'
             | EmptyString => false
             end
      | Star => star s
      | Plus =>
          match s with
          | String c s' => atomMatch a c && star s'
          | EmptyString => false
          end
      end
  end.

(** The engine of the concrete runs: anchored patterns of the fragment, on
    which it agrees with the database's matcher.  It is partial: the [None]
    it answers to a pattern outside the fragment (a class, a group, an
    alternation, [$], a pattern without the anchor) says nothing about the
    database.  The statements that name it keep to the fragment or to
    patterns every matcher rejects (an unbalanced parenthesis); the other
    statements hold for every engine. *)
Definition compile (pattern : string) : option (string -> bool) :=
  match pattern with
  | String c body =>
      if Ascii.eqb c "^" then
        option_map matchItems (parseItems (String.length body) body)
      else None
  | EmptyString => None
  end.

(** A string without any character that is special in a pattern. *)
Fixpoint noMeta (s : string) : bool :=
  match s with
  | EmptyString => true
  | String c s' => negb (isMeta c) && noMeta s'
  end.

End Regex.

(** The type of regular-expression engines. *)
Definition RegexEngine : Type := string -> option (string -> bool).

(** ** The data model *)

Definition ObjectId : Type := nat.

(** [ObjectId.prototype.toString], rendered in decimal. *)
Definition idString (id : ObjectId) : string :=
  NilZero.string_of_uint (Nat.to_uint id).

(** The [type] enumeration of the File schema: ['file'] or ['folder']. *)
Inductive EntryType : Type := type_file | type_folder.

Definition EntryType_eqb (a b : EntryType) : bool :=
  match a, b with
  | type_file, type_file | type_folder, type_folder => true
  | _, _ => false
  end.

Definition option_eqb {A} (eqb : A -> A -> bool) (x y : option A) : bool :=
  match x, y with
  | None, None => true
  | Some a, Some b => eqb a b
  | _, _ => false
  end.

(** [src/models/File.js]: a document of the File collection. *)
Module File.

Record t : Type := mk {
  _id : ObjectId;
  name : string;
  originalName : option string;
  type : EntryType;
  mimeType : option string;
  size : Z;
  path : string;
  s3Key : option string;
  parentFolder : option ObjectId;
  owner : ObjectId;
  isDeleted : bool;
  deletedAt : option Z
}.

(** The schema's setters: [trim: true] on [name], [originalName], [path]. *)
Definition applySetters (f : t) : t :=
  mk (_id f) (Str.trim (name f)) (option_map Str.trim (originalName f))
     (type f) (mimeType f) (size f) (Str.trim (path f)) (s3Key f)
     (parentFolder f) (owner f) (isDeleted f) (deletedAt f).

Definition withId (id : ObjectId) (f : t) : t :=
  mk id (name f) (originalName f) (type f) (mimeType f) (size f) (path f)
     (s3Key f) (parentFolder f) (owner f) (isDeleted f) (deletedAt f).

(** [new File(fields)] with the generated [_id]. *)
Definition construct (id : ObjectId) (fields : t) : t :=
  applySetters (withId id fields).

(** [doc.isDeleted = true; doc.deletedAt = new Date()]. *)
Definition markDeleted (now : Z) (f : t) : t :=
  mk (_id f) (name f) (originalName f) (type f) (mimeType f) (size f) (path f)
     (s3Key f) (parentFolder f) (owner f) true (Some now).

Definition requiredString (s : option string) : bool :=
  match s with
  | Some v => negb (Str.isEmpty v)
  | None => false
  end.

(** The schema's validators: [name] required, at most 255 characters;
    [originalName] and [mimeType] required when [type] is ['file'];
    [size] at least 0; [path] required. *)
Definition validate (f : t) : bool :=
  (negb (Str.isEmpty (name f))
   && Nat.leb (String.length (name f)) 255
   && match type f with
      | type_file => requiredString (originalName f) && requiredString (mimeType f)
      | type_folder => true
      end
   && (0 <=? size f)
   && negb (Str.isEmpty (path f)))%bool.

End File.

(** The User collection, reduced to what the file routes use. *)
Module User.

(** Modelled from the spec: the schema [models/User.js] is not part of the
    sources; a user document holds the integer counter [storageUsed] (the
    specification's "usedBytes"), a number that is never undefined. *)
Record t : Type := mk {
  _id : ObjectId;
  storageUsed : Z
}.

Definition withStorageUsed (v : Z) (u : t) : t := mk (_id u) v.

End User.

(** A filter document of [File.find], [File.findOne] and [File.updateMany].
    An absent field does not constrain the match; a present field is
    compared with the stored value after the cast of the schema. *)
Module Query.

Record t : Type := mk {
  name : option string;
  type : option EntryType;
  parentFolder : option (option ObjectId);
  owner : option ObjectId;
  pathRegex : option string;
  isDeleted : option bool
}.

Definition field {A} (eqb : A -> A -> bool) (q : option A) (v : A) : bool :=
  match q with
  | Some x => eqb x v
  | None => true
  end.

(** The fields other than the regular expression.  Mongoose casts the
    values of a filter with the schema before it sends the query, so the
    [trim] setter of [name] applies to the name the handler gave (a [$regex]
    pattern is sent as it is). *)
Definition plain (q : t) (f : File.t) : bool :=
  (field String.eqb (option_map Str.trim (name q)) (File.name f)
   && field EntryType_eqb (type q) (File.type f)
   && field (option_eqb Nat.eqb) (parentFolder q) (File.parentFolder f)
   && field Nat.eqb (owner q) (File.owner f)
   && field Bool.eqb (isDeleted q) (File.isDeleted f))%bool.

(** The predicate of a filter, or [None] when the engine rejects its
    pattern. *)
Definition compile (engine : RegexEngine) (q : t) : option (File.t -> bool) :=
  match pathRegex q with
  | None => Some (plain q)
  | Some pattern =>
      match engine pattern with
      | Some m => Some (fun f => plain q f && m (File.path f))%bool
      | None => None
      end
  end.

End Query.

(** ** External effects and the database *)

(** What a request does to the outside world, in the order it happens:
    writes to the collections and calls of [src/config/aws.js]. *)
Inductive Event : Type :=
| EvFileSave (doc : File.t)
| EvFileUpdateMany (q : Query.t)
| EvUserSave (u : User.t)
| EvS3Put (key : string)
| EvS3Delete (key : string)
| EvS3Sign (key : string).

Record Db : Type := mkDb {
  files : list File.t;
  users : list User.t;
  nextId : ObjectId;
  log : list Event
}.

(** The environment of a request: the regular-expression engine of the
    database, the behaviour of the object store (which calls succeed, given
    the events so far and the key), the random part of a new key and the
    presigner. *)
Record Env : Type := mkEnv {
  regex : RegexEngine;
  randomHex : string;
  s3PutOk : list Event -> string -> bool;
  s3DeleteOk : list Event -> string -> bool;
  signedUrl : string -> option string
}.

(** [req.file] as multer provides it. *)
Module Multer.

Record file : Type := mkFile {
  originalname : string;
  mimetype : string;
  size : Z
}.

(** [limits.fileSize] of the upload middleware (files.js, line 17). *)
Definition fileSize : Z := 100 * 1024 * 1024.

End Multer.

(** ** Programs: one node per [await] *)

Inductive Op : Type -> Type :=
| File_findById (id : ObjectId) : Op (option File.t)
| File_findOne (q : Query.t) : Op (option File.t)
| File_find (q : Query.t) : Op (list File.t)
| File_new (fields : File.t) : Op File.t
| File_save (doc : File.t) : Op unit
| File_updateMany (q : Query.t) (now : Z) : Op unit
| User_findById (id : ObjectId) : Op (option User.t)
| User_save (u : User.t) : Op unit
| uploadFileToS3 (f : Multer.file) (userId : ObjectId) : Op string
| getSignedDownloadUrl (s3Key : option string) : Op string
| deleteFileFromS3 (s3Key : string) : Op bool.

(** [Await op k e]: perform [op]; continue with [k] on its result, or with
    [e] when it throws. *)
Inductive Prog (A : Type) : Type :=
| Ret (a : A)
| Throw
| Await (R : Type) (op : Op R) (k : R -> Prog A) (e : Prog A).

Arguments Ret {A} a.
Arguments Throw {A}.
Arguments Await {A R} op k e.

Definition call {R} (op : Op R) : Prog R := Await op Ret Throw.

Fixpoint bind {A B} (p : Prog A) (f : A -> Prog B) : Prog B :=
  match p with
  | Ret a => f a
  | Throw => Throw
  | Await op k e => Await op (fun r => bind (k r) f) (bind e f)
  end.

(** [try { p } catch { h }]. *)
Fixpoint tryCatch {A} (p : Prog A) (h : Prog A) : Prog A :=
  match p with
  | Ret a => Ret a
  | Throw => h
  | Await op k e => Await op (fun r => tryCatch (k r) h) (tryCatch e h)
  end.

Notation "x <- p ;; k" := (bind p (fun x => k))
  (at level 61, p at next level, right associativity).
Notation "p ;;; k" := (bind p (fun _ => k))
  (at level 61, right associativity).

(** [try { await p } catch (e) { console.error(e) }]. *)
Definition attempt {A} (p : Prog A) : Prog unit :=
  tryCatch (p ;;; Ret tt) (Ret tt).

(** [for (const x of xs) { body }]. *)
Fixpoint forEach {A} (xs : list A) (body : A -> Prog unit) : Prog unit :=
  match xs with
  | [] => Ret tt
  | x :: xs' => body x ;;; forEach xs' body
  end.

(** ** The interpreter *)

Definition logEvent (ev : Event) (db : Db) : Db :=
  mkDb (files db) (users db) (nextId db) (log db ++ [ev]).

Definition hasFile (id : ObjectId) (fs : list File.t) : bool :=
  existsb (fun f => Nat.eqb (File._id f) id) fs.

(** [doc.save()] on the File collection: a document whose [_id] is stored is
    overwritten (no validator runs again on its unmodified paths); a new one
    is appended. *)
Definition saveFile (doc : File.t) (fs : list File.t) : list File.t :=
  if hasFile (File._id doc) fs
  then map (fun f => if Nat.eqb (File._id f) (File._id doc) then doc else f) fs
  else fs ++ [doc].

Definition saveUser (u : User.t) (us : list User.t) : list User.t :=
  if existsb (fun v => Nat.eqb (User._id v) (User._id u)) us
  then map (fun v => if Nat.eqb (User._id v) (User._id u) then u else v) us
  else us ++ [u].

(** The key [uploadFileToS3] builds: [`${userId}/${random}-${originalname}`]. *)
Definition s3KeyOf (env : Env) (f : Multer.file) (userId : ObjectId) : string :=
  idString userId ++ "/" ++ randomHex env ++ "-" ++ Multer.originalname f.

Definition perform (env : Env) {R} (op : Op R) (db : Db) : Db * option R :=
  match op in Op R return Db * option R with
  | File_findById id =>
      (db, Some (find (fun f => Nat.eqb (File._id f) id) (files db)))
  | File_findOne q =>
      match Query.compile (regex env) q with
      | Some m => (db, Some (find m (files db)))
      | None => (db, None)
      end
  | File_find q =>
      match Query.compile (regex env) q with
      | Some m => (db, Some (filter m (files db)))
      | None => (db, None)
      end
  | File_new fields =>
      (mkDb (files db) (users db) (S (nextId db)) (log db),
       Some (File.construct (nextId db) fields))
  | File_save doc =>
      if (hasFile (File._id doc) (files db) || File.validate doc)%bool
      then (mkDb (saveFile doc (files db)) (users db) (nextId db)
                 (log db ++ [EvFileSave doc]), Some tt)
      else (db, None)
  | File_updateMany q now =>
      match Query.compile (regex env) q with
      | Some m =>
          (mkDb (map (fun f => if m f then File.markDeleted now f else f) (files db))
                (users db) (nextId db) (log db ++ [EvFileUpdateMany q]), Some tt)
      | None => (db, None)
      end
  | User_findById id =>
      (db, Some (find (fun u => Nat.eqb (User._id u) id) (users db)))
  | User_save u =>
      (mkDb (files db) (saveUser u (users db)) (nextId db)
            (log db ++ [EvUserSave u]), Some tt)
  | uploadFileToS3 f userId =>
      let key := s3KeyOf env f userId in
      (logEvent (EvS3Put key) db,
       if s3PutOk env (log db) key then Some key else None)
  | getSignedDownloadUrl s3Key =>
      match s3Key with
      | Some key => (logEvent (EvS3Sign key) db, signedUrl env key)
      | None => (db, None)
      end
  | deleteFileFromS3 key =>
      (logEvent (EvS3Delete key) db,
       if s3DeleteOk env (log db) key then Some true else None)
  end.

(** Runs a program to completion; [None] is an uncaught exception. *)
Fixpoint run (env : Env) {A} (p : Prog A) (db : Db) : Db * option A :=
  match p with
  | Ret a => (db, Some a)
  | Throw => (db, None)
  | Await op k e =>
      match perform env op db with
      | (db', Some r) => run env (k r) db'
      | (db', None) => run env e db'
      end
  end.

(** The database after the first [n] operations of a program: the state an
    interruption after [n] completed awaits leaves behind. *)
Fixpoint runN (env : Env) {A} (n : nat) (p : Prog A) (db : Db) : Db :=
  match n, p with
  | S n', Await op k e =>
      match perform env op db with
      | (db', Some r) => runN env n' (k r) db'
      | (db', None) => runN env n' e db'
      end
  | _, _ => db
  end.

(** ** Responses *)

Inductive Payload : Type :=
| NoPayload
| PStorage (storageUsed : Z)
| PFolder (folder : File.t)
| PFile (file : File.t) (storageUsed : Z)
| PDownload (downloadUrl : string) (fileName : option string).

(** [res.status(status).json({ success, message, ... })]. *)
Record Response : Type := json {
  status : nat;
  success : bool;
  message : string;
  payload : Payload
}.

(** The error kinds of the specification, as the routes render them. *)
Definition NotFound (r : Response) : Prop := status r = 404%nat.
Definition Forbidden (r : Response) : Prop := status r = 403%nat.
Definition Conflict (r : Response) : Prop :=
  status r = 400%nat /\
  (message r = "A folder with this name already exists in this location"
   \/ message r = "A file with this name already exists in this location").
Definition InvalidKind (r : Response) : Prop :=
  status r = 400%nat /\ message r = "Cannot download folders".
Definition QuotaExceeded (r : Response) : Prop :=
  status r = 400%nat /\ message r = "Storage limit exceeded (15GB)".

(** ** The handlers of [src/routes/files.js] *)

(** [x || 0] on a number. *)
Definition orZero (x : Z) : Z := if x =? 0 then 0 else x.

(** Truthiness of an optional string field. *)
Definition truthy (s : option string) : bool :=
  match s with
  | Some v => negb (Str.isEmpty v)
  | None => false
  end.

Definition isFile (f : File.t) : bool := EntryType_eqb (File.type f) type_file.
Definition isFolder (f : File.t) : bool := EntryType_eqb (File.type f) type_folder.

(** "Build path" (lines 93-100 and 300-307): the parent's path is used only
    when the parent is found and owned by the requester. *)
Definition buildPath (userId : ObjectId) (parentFolder : option ObjectId)
    (name : string) : Prog string :=
  match parentFolder with
  | Some pid =>
      parent <- call (File_findById pid) ;;
      match parent with
      | Some parent =>
          if Nat.eqb (File.owner parent) userId
          then Ret (File.path parent ++ "/" ++ name)
          else Ret ("/" ++ name)
      | None => Ret ("/" ++ name)
      end
  | None => Ret ("/" ++ name)
  end.

(** The sibling query of the collision checks (lines 78-84 and 285-291). *)
Definition siblingQuery (userId : ObjectId) (parentFolder : option ObjectId)
    (name : string) (ty : EntryType) : Query.t :=
  Query.mk (Some name) (Some ty) (Some parentFolder) (Some userId) None (Some false).

(** The fields given to [new File({...})] for a folder (lines 102-108); the
    fields left out take the schema's defaults. *)
Definition folderFields (userId : ObjectId) (name path : string)
    (parentFolder : option ObjectId) : File.t :=
  File.mk 0%nat name None type_folder None 0 path None parentFolder userId false None.

(** The fields given to [new File({...})] for an upload (lines 313-323). *)
Definition fileFields (userId : ObjectId) (reqFile : Multer.file)
    (fileName filePath s3Key : string) (parentFolder : option ObjectId) : File.t :=
  File.mk 0%nat fileName (Some (Multer.originalname reqFile)) type_file
          (Some (Multer.mimetype reqFile)) (Multer.size reqFile) filePath
          (Some s3Key) parentFolder userId false None.

(** POST /api/files/folder (lines 52-124).  [rawName] is [req.body.name];
    [parentFolder] is [req.body.parentFolder] after the sanitising of lines
    72-75 ([None] for null, the empty string and ['null']). *)
Definition createFolder (userId : ObjectId) (rawName : string)
    (parentFolder : option ObjectId) : Prog Response :=
  tryCatch
    (let name := Str.trim rawName in
     if Str.isEmpty name then Ret (json 400 false "Validation errors" NoPayload)
     else
       existingFolder <- call (File_findOne (siblingQuery userId parentFolder name type_folder)) ;;
       match existingFolder with
       | Some _ =>
           Ret (json 400 false
                  "A folder with this name already exists in this location" NoPayload)
       | None =>
           path <- buildPath userId parentFolder name ;;
           folder <- call (File_new (folderFields userId name path parentFolder)) ;;
           call (File_save folder) ;;;
           Ret (json 201 true "Folder created successfully" (PFolder folder))
       end)
    (Ret (json 500 false "Server error while creating folder" NoPayload)).

(** The filter of the cascade (lines 198-202 and 217-221): the owner's
    non-deleted documents whose path matches [^<path>/]. *)
Definition cascadeQuery (userId : ObjectId) (path : string) : Query.t :=
  Query.mk None None None (Some userId) (Some ("^" ++ path ++ "/")) (Some false).

(** [try { await deleteFileFromS3(doc.s3Key) } catch { ... }] behind its
    guard [doc.type === 'file' && doc.s3Key]. *)
Definition deleteBlob (doc : File.t) : Prog unit :=
  if (isFile doc && truthy (File.s3Key doc))%bool
  then match File.s3Key doc with
       | Some key => attempt (call (deleteFileFromS3 key))
       | None => Ret tt
       end
  else Ret tt.

(** [childFiles.reduce((acc, curr) => acc + (curr.size || 0), 0)]. *)
Definition totalSizeOf (childFiles : list File.t) : Z :=
  fold_left (fun acc curr => acc + orZero (File.size curr)) childFiles 0.

(** [const user = await User.findById(id)] followed by a property access,
    which throws on [null]. *)
Definition loadUser (userId : ObjectId) : Prog User.t :=
  user <- call (User_findById userId) ;;
  match user with
  | Some user => Ret user
  | None => Throw
  end.

(** DELETE /api/files/:id (lines 153-256). *)
Definition deleteEntry (userId : ObjectId) (id : ObjectId) (now : Z) : Prog Response :=
  tryCatch
    (found <- call (File_findById id) ;;
     match found with
     | None => Ret (json 404 false "File or folder not found" NoPayload)
     | Some found =>
         if negb (Nat.eqb (File.owner found) userId)
         then Ret (json 403 false "Access denied" NoPayload)
         else
           let file := File.markDeleted now found in
           call (File_save file) ;;;
           updated1 <-
             (if isFile file then
                user <- loadUser userId ;;
                let user := User.withStorageUsed
                              (Z.max 0 (User.storageUsed user - File.size file)) user in
                call (User_save user) ;;;
                Ret (User.storageUsed user)
              else Ret 0) ;;
           deleteBlob file ;;;
           updated2 <-
             (if isFolder file then
                childFiles <- call (File_find (cascadeQuery userId (File.path file))) ;;
                forEach childFiles deleteBlob ;;;
                call (File_updateMany (cascadeQuery userId (File.path file)) now) ;;;
                let totalSize := totalSizeOf childFiles in
                user <- loadUser userId ;;
                user <- (if 0 <? totalSize then
                           let user := User.withStorageUsed
                                         (Z.max 0 (User.storageUsed user - totalSize)) user in
                           call (User_save user) ;;; Ret user
                         else Ret user) ;;
                Ret (User.storageUsed user)
              else Ret updated1) ;;
           updated3 <-
             (if ((updated2 =? 0) && negb (isFile file))%bool then
                user <- loadUser userId ;;
                Ret (User.storageUsed user)
              else Ret updated2) ;;
           Ret (json 200 true "File/folder deleted successfully" (PStorage updated3))
     end)
    (Ret (json 500 false "Server error while deleting file" NoPayload)).

(** [const fileName = name || req.file.originalname] (line 282). *)
Definition uploadName (reqFile : Multer.file) (bodyName : option string) : string :=
  if truthy bodyName
  then match bodyName with
       | Some n => n
       | None => Multer.originalname reqFile
       end
  else Multer.originalname reqFile.

(** [MAX_STORAGE] (line 271): 15 GB in bytes. *)
Definition MAX_STORAGE : Z := 15 * 1024 * 1024 * 1024.

(** The handler of POST /api/files/upload (lines 260-351), after the upload
    middleware.  [bodyName] is [req.body.name]. *)
Definition uploadFile (userId : ObjectId) (reqFile : option Multer.file)
    (bodyName : option string) (parentFolder : option ObjectId) : Prog Response :=
  tryCatch
    (match reqFile with
     | None => Ret (json 400 false "No file uploaded" NoPayload)
     | Some reqFile =>
         user <- loadUser userId ;;
         if MAX_STORAGE <? User.storageUsed user + Multer.size reqFile
         then Ret (json 400 false "Storage limit exceeded (15GB)" NoPayload)
         else
           let fileName := uploadName reqFile bodyName in
           existingFile <- call (File_findOne (siblingQuery userId parentFolder fileName type_file)) ;;
           match existingFile with
           | Some _ =>
               Ret (json 400 false
                      "A file with this name already exists in this location" NoPayload)
           | None =>
               filePath <- buildPath userId parentFolder fileName ;;
               s3Key <- call (uploadFileToS3 reqFile userId) ;;
               file <- call (File_new
                         (fileFields userId reqFile fileName filePath s3Key parentFolder)) ;;
               call (File_save file) ;;;
               let user := User.withStorageUsed
                             (orZero (User.storageUsed user) + Multer.size reqFile) user in
               call (User_save user) ;;;
               Ret (json 201 true "File uploaded successfully"
                      (PFile file (User.storageUsed user)))
           end
     end)
    (Ret (json 500 false "Server error during file upload" NoPayload)).

(** GET /api/files/:id/download (lines 355-395). *)
Definition getDownloadUrl (userId : ObjectId) (id : ObjectId) : Prog Response :=
  tryCatch
    (found <- call (File_findById id) ;;
     match found with
     | None => Ret (json 404 false "File not found" NoPayload)
     | Some file =>
         if negb (Nat.eqb (File.owner file) userId)
         then Ret (json 403 false "Access denied" NoPayload)
         else if isFolder file
         then Ret (json 400 false "Cannot download folders" NoPayload)
         else
           downloadUrl <- call (getSignedDownloadUrl (File.s3Key file)) ;;
           Ret (json 200 true "" (PDownload downloadUrl (File.originalName file)))
     end)
    (Ret (json 500 false "Server error while generating download URL" NoPayload)).

(** The route POST /api/files/upload: [upload.single('file')] runs before the
    handler and passes an error to the error middleware, without calling the
    handler, when the file is larger than [limits.fileSize]. *)
Inductive Outcome : Type :=
| Responded (r : Response)
| NextError (code : string)
| Uncaught.

Definition uploadSingle (reqFile : option Multer.file) : string + option Multer.file :=
  match reqFile with
  | Some f => if Multer.fileSize <? Multer.size f
              then inl "LIMIT_FILE_SIZE"
              else inr (Some f)
  | None => inr None
  end.

Definition uploadRoute (env : Env) (userId : ObjectId) (reqFile : option Multer.file)
    (bodyName : option string) (parentFolder : option ObjectId) (db : Db)
    : Db * Outcome :=
  match uploadSingle reqFile with
  | inl code => (db, NextError code)
  | inr reqFile' =>
      match run env (uploadFile userId reqFile' bodyName parentFolder) db with
      | (db', Some r) => (db', Responded r)
      | (db', None) => (db', Uncaught)
      end
  end.

(** ** Observations on the database *)

(** An entry is visible to the normal queries when it is not soft-deleted. *)
Definition visible (f : File.t) : bool := negb (File.isDeleted f).

(** The sum of [size] over the non-deleted File entries of a user. *)
Definition liveBytes (userId : ObjectId) (fs : list File.t) : Z :=
  fold_right
    (fun f acc =>
       if (Nat.eqb (File.owner f) userId && isFile f && visible f)%bool
       then File.size f + acc else acc)
    0 fs.

(** The user's counter, when the user document is stored. *)
Definition usedBytes (userId : ObjectId) (db : Db) : option Z :=
  option_map User.storageUsed
    (find (fun u => Nat.eqb (User._id u) userId) (users db)).

Definition findFile (id : ObjectId) (db : Db) : option File.t :=
  find (fun f => Nat.eqb (File._id f) id) (files db).

(** A run that ends in a response of the given kind. *)
Definition answers (K : Response -> Prop) (res : Db * option Response) : Prop :=
  exists r, snd res = Some r /\ K r.

(** A response that reports a failure. *)
Definition Failure (r : Response) : Prop := success r = false.

(** The status of a response and the path of the entry it reports. *)
Definition createdPath (res : Db * option Response) : option (nat * option string) :=
  option_map
    (fun r => (status r,
               match payload r with
               | PFolder f | PFile f _ => Some (File.path f)
               | _ => None
               end))
    (snd res).

(** ** Sequences of requests *)

Inductive Request : Type :=
| ReqCreateFolder (userId : ObjectId) (rawName : string) (parentFolder : option ObjectId)
| ReqUpload (userId : ObjectId) (reqFile : option Multer.file)
    (bodyName : option string) (parentFolder : option ObjectId)
| ReqDelete (userId : ObjectId) (id : ObjectId) (now : Z)
| ReqDownload (userId : ObjectId) (id : ObjectId).

(** The database a request leaves behind. *)
Definition serve (env : Env) (db : Db) (r : Request) : Db :=
  match r with
  | ReqCreateFolder userId rawName parentFolder =>
      fst (run env (createFolder userId rawName parentFolder) db)
  | ReqUpload userId reqFile bodyName parentFolder =>
      fst (uploadRoute env userId reqFile bodyName parentFolder db)
  | ReqDelete userId id now =>
      fst (run env (deleteEntry userId id now) db)
  | ReqDownload userId id =>
      fst (run env (getDownloadUrl userId id) db)
  end.

(** Requests served one after the other: each starts in the quiescent state
    the previous one has left. *)
Definition serveAll (env : Env) (rs : list Request) (db : Db) : Db :=
  fold_left (serve env) rs db.

(** ** Creating entries: readings of the database *)

(** The path "Build path" computes, read off the database: the parent's path
    is used when the parent is stored and owned by the requester. *)
Definition resolvedPath (db : Db) (userId : ObjectId) (parentFolder : option ObjectId)
    (name : string) : string :=
  match parentFolder with
  | Some pid =>
      match findFile pid db with
      | Some parent =>
          if Nat.eqb (File.owner parent) userId
          then File.path parent ++ "/" ++ name
          else "/" ++ name
      | None => "/" ++ name
      end
  | None => "/" ++ name
  end.

(** A non-deleted entry with the given owner, parent, name and kind. *)
Definition isSibling (userId : ObjectId) (parentFolder : option ObjectId)
    (name : string) (ty : EntryType) (f : File.t) : bool :=
  (String.eqb (File.name f) name
   && EntryType_eqb (File.type f) ty
   && option_eqb Nat.eqb (File.parentFolder f) parentFolder
   && Nat.eqb (File.owner f) userId
   && visible f)%bool.

Definition hasSibling (db : Db) (userId : ObjectId) (parentFolder : option ObjectId)
    (name : string) (ty : EntryType) : bool :=
  existsb (isSibling userId parentFolder name ty) (files db).

(** What the schema's validators ask of an upload. *)
Definition validUpload (reqFile : Multer.file) (bodyName : option string) : Prop :=
  Str.isEmpty (Str.trim (uploadName reqFile bodyName)) = false
  /\ (String.length (Str.trim (uploadName reqFile bodyName)) <= 255)%nat
  /\ Str.isEmpty (Str.trim (Multer.originalname reqFile)) = false
  /\ Str.isEmpty (Multer.mimetype reqFile) = false
  /\ 0 <= Multer.size reqFile.

(** A string with a character that [trim] keeps. *)
Fixpoint hasInk (s : string) : bool :=
  match s with
  | EmptyString => false
  | String c s' => negb (Str.isSpace c) || hasInk s'
  end.

(** ** The scope of a delete *)

(** The entries the cascade filter of a folder [target] selects, whatever
    their deleted flag: the requester's entries whose path matches
    [^<target.path>/]. *)
Definition cascadeMatch (env : Env) (userId : ObjectId) (target f : File.t) : bool :=
  match regex env ("^" ++ File.path target ++ "/") with
  | Some m => (Nat.eqb (File.owner f) userId && m (File.path f))%bool
  | None => false
  end.

(** The target and, for a folder, the entries of its cascade. *)
Definition inScope (env : Env) (userId : ObjectId) (target f : File.t) : bool :=
  (Nat.eqb (File._id f) (File._id target)
   || (isFolder target && cascadeMatch env userId target f))%bool.

(** No entry in scope is visible. *)
Definition scopeDeleted (env : Env) (userId : ObjectId) (target : File.t)
    (db : Db) : Prop :=
  forall f, In f (files db) -> inScope env userId target f = true ->
            File.isDeleted f = true.

(** The sum of the sizes of the files in scope: the target when it is a
    file, the visible files of the cascade when it is a folder. *)
Definition scopeBytes (env : Env) (userId : ObjectId) (target : File.t)
    (db : Db) : Z :=
  if isFile target then File.size target
  else fold_right
         (fun f acc =>
            if (visible f && isFile f && cascadeMatch env userId target f)%bool
            then File.size f + acc else acc)
         0 (files db).

(** The object-store call [deleteBlob] makes for a document. *)
Definition blobLog (doc : File.t) : list Event :=
  if (isFile doc && truthy (File.s3Key doc))%bool
  then match File.s3Key doc with
       | Some key => [EvS3Delete key]
       | None => []
       end
  else [].

(** The environment with another behaviour of the object store's delete. *)
Definition withDeleteOk (env : Env) (deleteOk : list Event -> string -> bool) : Env :=
  mkEnv (regex env) (randomHex env) (s3PutOk env) deleteOk (signedUrl env).

(** ** Interrupted requests *)

(** The number of writes of a user document in a log. *)
Fixpoint userSaves (l : list Event) : nat :=
  match l with
  | [] => O
  | EvUserSave _ :: l' => S (userSaves l')
  | _ :: l' => userSaves l'
  end.

(** [always env Inv p db]: [Inv] holds of the database before every
    operation of the run of [p] from [db], and at its end; so it holds of
    the state every interruption of the run leaves behind. *)
Fixpoint always (env : Env) (Inv : Db -> Prop) {A} (p : Prog A) (db : Db) : Prop :=
  Inv db /\
  match p with
  | Await op k e =>
      match perform env op db with
      | (db', Some r) => always env Inv (k r) db'
      | (db', None) => always env Inv e db'
      end
  | _ => True
  end.

(** The states a run of blob deletions passes through differ from its first
    state by calls of the object store's delete at the end of the log. *)
Definition blobEvents (l : list Event) : Prop :=
  Forall (fun ev => match ev with EvS3Delete _ => True | _ => False end) l.

Definition logExt (Inv : Db -> Prop) (db : Db) : Prop :=
  forall l, blobEvents l ->
            Inv (mkDb (files db) (users db) (nextId db) (log db ++ l)).

(** The invariant of an interrupted delete started in [db]: once the log
    shows a write of a user document, no entry in scope is visible. *)
Definition releasedImpliesMarked (env : Env) (db : Db) (userId : ObjectId)
    (found : File.t) (s : Db) : Prop :=
  (userSaves (log db) < userSaves (log s))%nat ->
  scopeDeleted env userId found s.

(** A user document changes only through a logged write. *)
Definition usersLogged (s s' : Db) : Prop :=
  (userSaves (log s) <= userSaves (log s'))%nat
  /\ (userSaves (log s') = userSaves (log s) -> users s' = users s).

(** ** Invariants of the stored state and accounting *)

(** Ids are unique. *)
Fixpoint uniqueIds (fs : list File.t) : bool :=
  match fs with
  | [] => true
  | f :: fs' => negb (hasFile (File._id f) fs') && uniqueIds fs'
  end.

(** Sizes are not negative (the schema's [min: 0]) and folders have the
    default size 0. *)
Definition sizesOk (fs : list File.t) : bool :=
  forallb (fun f => (0 <=? File.size f)
                    && (if isFolder f then File.size f =? 0 else true))%bool fs.

Definition wellFormed (db : Db) : bool :=
  (uniqueIds (files db) && sizesOk (files db))%bool.

(** Every stored id is below the next id to be generated. *)
Definition idsBelow (db : Db) : bool :=
  forallb (fun f => Nat.ltb (File._id f) (nextId db)) (files db).

(** The counter of every stored user is the sum of the sizes of the user's
    non-deleted files. *)
Definition quotaInv (db : Db) : Prop :=
  forall u used, usedBytes u db = Some used -> used = liveBytes u (files db).

Definition goodDb (db : Db) : Prop :=
  wellFormed db = true /\ idsBelow db = true /\ quotaInv db.

(** A request that is not a delete of an already deleted file. *)
Definition admissible (db : Db) (r : Request) : Prop :=
  match r with
  | ReqDelete _ id _ =>
      forall found, findFile id db = Some found -> isFile found = true ->
                    File.isDeleted found = false
  | _ => True
  end.

Fixpoint admissibleAll (env : Env) (db : Db) (rs : list Request) : Prop :=
  match rs with
  | [] => True
  | r :: rs' => admissible db r /\ admissibleAll env (serve env db r) rs'
  end.

(** Marks the selected entries as deleted. *)
Definition markWhere (sel : File.t -> bool) (now : Z) (fs : list File.t) : list File.t :=
  map (fun f => if sel f then File.markDeleted now f else f) fs.

(** The bytes of a user's visible files among the selected entries. *)
Definition markedBytes (u : ObjectId) (sel : File.t -> bool) (fs : list File.t) : Z :=
  fold_right
    (fun f acc =>
       if (sel f && Nat.eqb (File.owner f) u && isFile f && visible f)%bool
       then File.size f + acc else acc)
    0 fs.

(** ** The listing routes of [src/routes/files.js] *)

(** The [type] of an entry as the string the database stores and sorts. *)
Definition typeString (ty : EntryType) : string :=
  match ty with
  | type_file => "file"
  | type_folder => "folder"
  end.

(** The order of [.sort({ type: -1, name: 1 })]: [type] descending, then
    [name] ascending; strings compare by their character codes. *)
Definition sortCompare (a b : File.t) : comparison :=
  match String.compare (typeString (File.type b)) (typeString (File.type a)) with
  | Eq => String.compare (File.name a) (File.name b)
  | c => c
  end.

Definition sortLeb (a b : File.t) : bool :=
  match sortCompare a b with
  | Gt => false
  | _ => true
  end.

Fixpoint insertSorted (d : File.t) (l : list File.t) : list File.t :=
  match l with
  | [] => [d]
  | x :: l' => if sortLeb d x then d :: l else x :: insertSorted d l'
  end.

(** The sort of the query.  Documents with equal keys keep the order of the
    collection; the database promises no order among them, and no property
    below depends on it. *)
Definition sortDocs (l : list File.t) : list File.t :=
  fold_right insertSorted [] l.

(** A document as [populate('parentFolder', 'name')] returns it: the
    reference is replaced by the [_id] and [name] of the referenced document,
    or by null when there is none. *)
Module Listed.

Record t : Type := mk {
  doc : File.t;
  parentFolder : option (ObjectId * string)
}.

End Listed.

(** [populate('parentFolder', 'name')]: the referenced documents are looked
    up by id, whatever their deleted flag (here one lookup per document). *)
Fixpoint populate (docs : list File.t) : Prog (list Listed.t) :=
  match docs with
  | [] => Ret []
  | d :: rest =>
      p <- match File.parentFolder d with
           | Some pid =>
               parent <- call (File_findById pid) ;;
               Ret (option_map (fun p => (File._id p, File.name p)) parent)
           | None => Ret None
           end ;;
      ps <- populate rest ;;
      Ret (Listed.mk d p :: ps)
  end.

(** [File.find(q).populate('parentFolder', 'name').sort({ type: -1, name: 1 })]. *)
Definition findListing (q : Query.t) : Prog (list Listed.t) :=
  docs <- call (File_find q) ;;
  populate (sortDocs docs).

(** The responses of the listing routes: [res.json({ success: true, files })]
    or [res.status(status).json({ success: false, message })]. *)
Inductive Listing : Type :=
| Files (files : list Listed.t)
| ListingError (status : nat) (message : string).

(** The filter of GET /api/files (lines 31-35). *)
Definition listQuery (userId : ObjectId) (parentFolder : option ObjectId) : Query.t :=
  Query.mk None None (Some parentFolder) (Some userId) None (Some false).

(** A request parameter that is to name an entry: the text of a well-formed
    ObjectId, given by the id it denotes, or any other text. *)
Inductive IdParam : Type :=
| WellFormed (id : ObjectId)
| Malformed (text : string).

(** [param === 'null']. *)
Definition isNullText (p : IdParam) : bool :=
  match p with
  | Malformed text => String.eqb text "null"
  | WellFormed _ => false
  end.

(** The cast of a filter value to an ObjectId; it fails on a text that is no
    well-formed id. *)
Definition castId (p : IdParam) : option ObjectId :=
  match p with
  | WellFormed id => Some id
  | Malformed _ => None
  end.

(** GET /api/files (lines 27-48).  [parentFolder] is [req.query.parentFolder],
    a string when it is given.  The parameter defaults to null (line 29) and
    the text ['null'] stands for null (line 33); any other text goes into the
    filter, whose cast makes [File.find] throw when the text is no
    well-formed id. *)
Definition listFiles (userId : ObjectId) (parentFolder : option IdParam)
    : Prog Listing :=
  tryCatch
    (match parentFolder with
     | None =>
         files <- findListing (listQuery userId None) ;;
         Ret (Files files)
     | Some p =>
         if isNullText p then
           files <- findListing (listQuery userId None) ;;
           Ret (Files files)
         else
           match castId p with
           | Some id =>
               files <- findListing (listQuery userId (Some id)) ;;
               Ret (Files files)
           | None => Throw
           end
     end)
    (Ret (ListingError 500 "Server error while fetching files")).

(** GET /api/files/path/* (lines 128-149).  [param] is [req.params[0]]; the
    filter (lines 132-136) is the one of the cascade of a delete. *)
Definition listByPath (userId : ObjectId) (param : string) : Prog Listing :=
  tryCatch
    (let path := "/" ++ param in
     files <- findListing (cascadeQuery userId path) ;;
     Ret (Files files))
    (Ret (ListingError 500 "Server error while fetching files")).

(** The filter of the search without its condition on [name]. *)
Definition ownedQuery (userId : ObjectId) : Query.t :=
  Query.mk None None None (Some userId) None (Some false).

(** GET /api/files/search (lines 399-427).  [q] is [req.query.q], a string
    when it is given; [engineI] is the database's matcher for
    [{ $regex: q, $options: 'i' }].  A pattern the matcher rejects makes the
    query throw; the condition on [name] is applied to the documents the two
    other conditions of the filter select. *)
Definition searchFiles (engineI : RegexEngine) (userId : ObjectId)
    (q : option string) : Prog Listing :=
  tryCatch
    (match q with
     | Some pattern =>
         if Str.isEmpty pattern
         then Ret (ListingError 400 "Search query is required")
         else
           match engineI pattern with
           | Some m =>
               docs <- call (File_find (ownedQuery userId)) ;;
               files <- populate (sortDocs (filter (fun f => m (File.name f)) docs)) ;;
               Ret (Files files)
           | None => Throw
           end
     | None => Ret (ListingError 400 "Search query is required")
     end)
    (Ret (ListingError 500 "Server error while searching files")).

(** [fileSchema.methods.getFolderStructure] of [src/models/File.js] (lines
    74-82): null for a file, the populated children of a folder. *)
Definition getFolderStructure (this : File.t) : Prog (option (list Listed.t)) :=
  if negb (isFolder this) then Ret None
  else
    docs <- call (File_find (listQuery (File.owner this) (Some (File._id this)))) ;;
    children <- populate docs ;;
    Ret (Some children).

(** ** Readings of a listing *)

(** A document with its parent as the database resolves the reference. *)
Definition populated (db : Db) (d : File.t) : Listed.t :=
  Listed.mk d
    match File.parentFolder d with
    | Some pid => option_map (fun p => (File._id p, File.name p)) (findFile pid db)
    | None => None
    end.

(** The documents a listing shows; none when the route answers an error. *)
Definition listedDocs (res : Db * option Listing) : list File.t :=
  match snd res with
  | Some (Files l) => map Listed.doc l
  | _ => []
  end.

(** The folder a listing is asked for: the root ([Some None]) when the
    parameter is absent or ['null'], the folder of a well-formed id, and
    [None] for any other text. *)
Definition requestedFolder (parentFolder : option IdParam)
    : option (option ObjectId) :=
  match parentFolder with
  | None => Some None
  | Some p => if isNullText p then Some None else option_map Some (castId p)
  end.

(** A visible entry of the user with the given parent. *)
Definition inFolder (userId : ObjectId) (parentFolder : option ObjectId)
    (f : File.t) : bool :=
  (Nat.eqb (File.owner f) userId
   && option_eqb Nat.eqb (File.parentFolder f) parentFolder
   && visible f)%bool.

(** A visible entry of the user. *)
Definition ownVisible (userId : ObjectId) (f : File.t) : bool :=
  (Nat.eqb (File.owner f) userId && visible f)%bool.

(** The order a listing shows: folders before files, and within a kind the
    names in ascending order of their character codes. *)
Definition listedBefore (a b : File.t) : Prop :=
  (isFolder a = true /\ isFile b = true)
  \/ (File.type a = File.type b
      /\ String.leb (File.name a) (File.name b) = true).

(** ** The effect of a request on the collections *)

(** The user a request is made by ([req.user.id]). *)
Definition requester (r : Request) : ObjectId :=
  match r with
  | ReqCreateFolder userId _ _ => userId
  | ReqUpload userId _ _ _ => userId
  | ReqDelete userId _ _ => userId
  | ReqDownload userId _ => userId
  end.

(** Ids are unique and below the next id, sizes are not negative. *)
Definition structured (db : Db) : Prop :=
  wellFormed db = true /\ idsBelow db = true.

(** What a request of [userId] can do to the collections: nothing; insert
    one folder; insert one file and add its size to the requester's
    counter; mark entries of the requester as deleted; or mark entries and
    lower the requester's counter, not below 0. *)
(** The object store accepted a put of [key]: the log shows the call, and
    the store's answer to it was a success. *)
Definition wasPut (env : Env) (l : list Event) (key : string) : Prop :=
  exists before after,
    l = (before ++ EvS3Put key :: after)%list
    /\ s3PutOk env before key = true.

Inductive Effect (env : Env) (userId : ObjectId) (db db' : Db) : Prop :=
| Quiet :
    files db' = files db -> users db' = users db ->
    (nextId db <= nextId db')%nat ->
    Effect env userId db db'
| FolderInserted (doc : File.t) :
    files db' = (files db ++ [doc])%list -> users db' = users db ->
    nextId db' = S (nextId db) ->
    File._id doc = nextId db -> File.owner doc = userId ->
    File.isDeleted doc = false -> isFolder doc = true ->
    File.size doc = 0 -> File.s3Key doc = None ->
    Effect env userId db db'
| FileInserted (doc : File.t) (user : User.t) (key : string) :
    files db' = (files db ++ [doc])%list ->
    find (fun u => Nat.eqb (User._id u) userId) (users db) = Some user ->
    users db'
    = saveUser (User.withStorageUsed (User.storageUsed user + File.size doc) user)
        (users db) ->
    nextId db' = S (nextId db) ->
    File._id doc = nextId db -> File.owner doc = userId ->
    File.isDeleted doc = false -> isFile doc = true ->
    0 <= File.size doc ->
    User.storageUsed user + File.size doc <= MAX_STORAGE ->
    File.s3Key doc = Some key -> wasPut env (log db') key ->
    Effect env userId db db'
| Marked (sel : File.t -> bool) (now : Z) :
    files db' = markWhere sel now (files db) -> users db' = users db ->
    nextId db' = nextId db ->
    (forall f, In f (files db) -> sel f = true -> File.owner f = userId) ->
    Effect env userId db db'
| MarkedReleased (sel : File.t -> bool) (now : Z) (user : User.t) (x : Z) :
    files db' = markWhere sel now (files db) ->
    find (fun u => Nat.eqb (User._id u) userId) (users db) = Some user ->
    users db'
    = saveUser (User.withStorageUsed (Z.max 0 (User.storageUsed user - x)) user)
        (users db) ->
    nextId db' = nextId db ->
    (forall f, In f (files db) -> sel f = true -> File.owner f = userId) ->
    0 <= x ->
    Effect env userId db db'.

(** Every stored counter lies between 0 and the quota. *)
Definition withinQuota (db : Db) : Prop :=
  Forall (fun u => 0 <= User.storageUsed u <= MAX_STORAGE) (users db).

(** An entry without its deletion mark. *)
Definition undeleted (f : File.t) : File.t :=
  File.mk (File._id f) (File.name f) (File.originalName f) (File.type f)
          (File.mimeType f) (File.size f) (File.path f) (File.s3Key f)
          (File.parentFolder f) (File.owner f) false None.

(** The entries of the users other than [userId]. *)
Definition othersFiles (userId : ObjectId) (db : Db) : list File.t :=
  filter (fun f => negb (Nat.eqb (File.owner f) userId)) (files db).

(** Every key a stored entry refers to was put to the object store, and the
    store accepted the put. *)
Definition blobBacked (env : Env) (db : Db) : Prop :=
  forall f key, In f (files db) -> File.s3Key f = Some key ->
                wasPut env (log db) key.

(** Every entry of [db] is still stored in [db'], the same apart from its
    deletion mark, and deleted there when it was deleted in [db]. *)
Definition keeps (db db' : Db) : Prop :=
  forall f, In f (files db) ->
  exists f', In f' (files db')
             /\ undeleted f' = undeleted f
             /\ (File.isDeleted f = true -> File.isDeleted f' = true).

(** The invariant of an interrupted upload started in [db] with the key
    [key]: the requester's counter is written only when the new entry (the
    one with the next id of [db]) is stored, and the entry is stored only
    when the object store has accepted the put of the content under [key]. *)
Definition storedBeforeCounted (env : Env) (db : Db) (key : string) (s : Db)
    : Prop :=
  ((userSaves (log db) < userSaves (log s))%nat ->
   hasFile (nextId db) (files s) = true)
  /\ (hasFile (nextId db) (files s) = true -> wasPut env (log s) key).

(** A string without the separator of the keys. *)
Fixpoint noSlash (s : string) : bool :=
  match s with
  | EmptyString => true
  | String c s' => negb (Ascii.eqb c "/") && noSlash s'
  end.

(** ** A concrete deployment for the examples *)

(** The environment of the concrete runs: the engine [Regex.compile] and an
    object store whose calls all succeed. *)
Definition env0 : Env :=
  mkEnv Regex.compile "r" (fun _ _ => true) (fun _ _ => true)
        (fun key => Some ("https://s3/" ++ key)).

Definition alice : ObjectId := 1%nat.
Definition bob : ObjectId := 2%nat.

(** No entry yet; the next id is 100. *)
Definition db_start : Db :=
  mkDb [] [User.mk alice 0; User.mk bob 0] 100%nat [].

Definition report_pdf : Multer.file := Multer.mkFile "report.pdf" "application/pdf" 1000.
Definition notes_txt : Multer.file := Multer.mkFile "notes.txt" "text/plain" 500.

(** An upload of one byte more than the middleware's limit. *)
Definition big_bin : Multer.file :=
  Multer.mkFile "big.bin" "application/octet-stream" 104857601.

(** Alice's folder /Docs (id 100), her file /notes.txt (id 101) and Bob's
    folder /Bobs (id 102). *)
Definition db_three : Db :=
  serveAll env0
    [ReqCreateFolder alice "Docs" None;
     ReqUpload alice (Some notes_txt) None None;
     ReqCreateFolder bob "Bobs" None]
    db_start.

(** Alice's files /report.pdf (id 100, 1000 bytes) and /notes.txt (id 101,
    500 bytes). *)
Definition two_uploads : list Request :=
  [ReqUpload alice (Some report_pdf) None None;
   ReqUpload alice (Some notes_txt) None None].

Definition db_two : Db := serveAll env0 two_uploads db_start.

(** The same after /report.pdf was deleted once. *)
Definition db_two_deleted : Db := serve env0 db_two (ReqDelete alice 100%nat 7).

(** Alice's folders /a.b (id 100) and /aXb (id 101), and her file
    /aXb/notes.txt (id 102). *)
Definition db_dot : Db :=
  serveAll env0
    [ReqCreateFolder alice "a.b" None;
     ReqCreateFolder alice "aXb" None;
     ReqUpload alice (Some notes_txt) None (Some 101%nat)]
    db_start.

(** Alice's folder /a+b (id 100) and her file /a+b/notes.txt (id 101). *)
Definition db_plus : Db :=
  serveAll env0
    [ReqCreateFolder alice "a+b" None;
     ReqUpload alice (Some notes_txt) None (Some 100%nat)]
    db_start.

(** The scenario of the specification: Alice's folder /Docs (id 100), her
    files /Docs/report.pdf (id 101, 1000 bytes) and /notes.txt (id 102,
    500 bytes). *)
Definition db_scenario : Db :=
  serveAll env0
    [ReqCreateFolder alice "Docs" None;
     ReqUpload alice (Some report_pdf) None (Some 100%nat);
     ReqUpload alice (Some notes_txt) None None]
    db_start.

(** The folder /Docs as it is stored in [db_scenario]. *)
Definition docs_entry : File.t :=
  File.mk 100%nat "Docs" None type_folder None 0 "/Docs" None None alice false None.

(** Alice's folder /a(b (id 100) and her file /a(b/notes.txt (id 101): the
    pattern of the folder's cascade is rejected by [Regex.compile]. *)
Definition db_paren : Db :=
  serveAll env0
    [ReqCreateFolder alice "a(b" None;
     ReqUpload alice (Some notes_txt) None (Some 100%nat)]
    db_start.

(** The no-break space (code 160). *)
Definition nbsp : string := String (ascii_of_nat 160) EmptyString.

(** Alice's file /a.pdf (id 100, 1000 bytes). *)
Definition db_pdf : Db :=
  serve env0 db_start (ReqUpload alice (Some report_pdf) (Some "a.pdf") None).

(** ** Laws of the interpreter *)

Lemma run_bind env A B (p : Prog A) (f : A -> Prog B) db :
  run env (bind p f) db =
  match run env p db with
  | (db', Some a) => run env (f a) db'
  | (db', None) => (db', None)
  end.
Proof.
  revert db; induction p as [a| |R op k IHk e IHe]; intros db; simpl; auto.
  destruct (perform env op db) as [db' [r|]]; auto.
Qed.

Lemma run_tryCatch env A (p h : Prog A) db :
  run env (tryCatch p h) db =
  match run env p db with
  | (db', Some a) => (db', Some a)
  | (db', None) => run env h db'
  end.
Proof.
  revert db; induction p as [a| |R op k IHk e IHe]; intros db; simpl.
  - reflexivity.
  - destruct (run env h db) as [db' [a|]]; reflexivity.
  - destruct (perform env op db) as [db' [r|]]; auto.
Qed.

Lemma run_call env R (op : Op R) db :
  run env (call op) db = perform env op db.
Proof.
  unfold call; simpl. destruct (perform env op db) as [db' [r|]]; auto.
Qed.

Lemma run_loadUser env userId db :
  run env (loadUser userId) db =
  (db, find (fun u => Nat.eqb (User._id u) userId) (users db)).
Proof.
  unfold loadUser; simpl.
  destruct (find _ (users db)); reflexivity.
Qed.

(** Every handler ends in a response: its outer [catch] answers 500. *)
Lemma tryCatch_responds env A (p : Prog A) (r : A) db :
  exists db' a, run env (tryCatch p (Ret r)) db = (db', Some a).
Proof.
  rewrite run_tryCatch. destruct (run env p db) as [db' [a|]]; simpl; eauto.
Qed.

Lemma runN_enough env A (p : Prog A) db :
  exists n0, forall n, (n0 <= n)%nat -> runN env n p db = fst (run env p db).
Proof.
  revert db. induction p as [a| |R op k IHk e IHe]; intros db.
  - exists 0%nat. intros [|n] _; reflexivity.
  - exists 0%nat. intros [|n] _; reflexivity.
  - cbn [run].
    destruct (perform env op db) as [db' [r|]] eqn:Hop.
    + destruct (IHk r db') as [n0 Hn0]. exists (S n0).
      intros [|n] Hle; [lia|]. cbn [runN]. rewrite Hop. apply Hn0. lia.
    + destruct (IHe db') as [n0 Hn0]. exists (S n0).
      intros [|n] Hle; [lia|]. cbn [runN]. rewrite Hop. apply Hn0. lia.
Qed.

(** ** Invariants of every prefix of a run *)

Lemma always_here env Inv A (p : Prog A) db : always env Inv p db -> Inv db.
Proof. destruct p; simpl; tauto. Qed.

Lemma always_runN env Inv A (p : Prog A) db n :
  always env Inv p db -> Inv (runN env n p db).
Proof.
  revert n db. induction p as [a| |R op k IHk e IHe]; intros n db H.
  - destruct n; apply H.
  - destruct n; apply H.
  - destruct n as [|n]; [apply H|]. simpl in *. destruct H as [_ H].
    destruct (perform env op db) as [db' [r|]]; auto.
Qed.

Lemma always_final env Inv A (p : Prog A) db :
  always env Inv p db -> Inv (fst (run env p db)).
Proof.
  revert db. induction p as [a| |R op k IHk e IHe]; intros db H; simpl in *;
    try tauto.
  destruct H as [_ H].
  destruct (perform env op db) as [db' [r|]]; auto.
Qed.

Lemma always_bind env Inv A B (p : Prog A) (f : A -> Prog B) db :
  always env Inv p db ->
  (forall db' a, run env p db = (db', Some a) -> always env Inv (f a) db') ->
  always env Inv (bind p f) db.
Proof.
  revert db. induction p as [a| |R op k IHk e IHe]; intros db H Hf; simpl in *.
  - apply Hf. reflexivity.
  - exact H.
  - destruct H as [HI H]. split; [exact HI|].
    destruct (perform env op db) as [db' [r|]]; auto.
Qed.

Lemma always_tryCatch env Inv A (p h : Prog A) db :
  always env Inv p db ->
  (forall db', run env p db = (db', None) -> always env Inv h db') ->
  always env Inv (tryCatch p h) db.
Proof.
  revert db. induction p as [a| |R op k IHk e IHe]; intros db H Hh; simpl in *.
  - exact H.
  - apply Hh. reflexivity.
  - destruct H as [HI H]. split; [exact HI|].
    destruct (perform env op db) as [db' [r|]]; auto.
Qed.

Lemma always_tryCatch_ret env Inv A (p : Prog A) (r : A) db :
  always env Inv p db -> always env Inv (tryCatch p (Ret r)) db.
Proof.
  intros H. apply always_tryCatch; [exact H|].
  intros db' Hrun. simpl. split; [|exact Logic.I]. 
  pose proof (@always_final _ _ _ _ _ H) as Hf. now rewrite Hrun in Hf.
Qed.

Lemma always_ret env Inv A (a : A) db : Inv db -> always env Inv (Ret a) db.
Proof. intros H. simpl. auto. Qed.

Lemma always_call env Inv R (op : Op R) db :
  Inv db -> Inv (fst (perform env op db)) -> always env Inv (call op) db.
Proof.
  intros H H'. unfold call. simpl. split; [exact H|].
  destruct (perform env op db) as [db' [r|]]; simpl in *; auto.
Qed.

Lemma always_loadUser env Inv userId db :
  Inv db -> always env Inv (loadUser userId) db.
Proof.
  intros H. unfold loadUser. simpl. split; [exact H|].
  destruct (find _ (users db)); simpl; auto.
Qed.

Lemma userSaves_app l1 l2 :
  userSaves (l1 ++ l2) = (userSaves l1 + userSaves l2)%nat.
Proof.
  induction l1 as [|ev l1 IH]; simpl; [reflexivity|].
  destruct ev; simpl; now rewrite IH.
Qed.

Lemma userSaves_blobEvents l : blobEvents l -> userSaves l = 0%nat.
Proof.
  induction 1 as [|ev l Hev _ IH]; simpl; [reflexivity|].
  destruct ev; try contradiction. exact IH.
Qed.

Lemma usersLogged_refl s : usersLogged s s.
Proof. split; auto. Qed.

Lemma usersLogged_trans s1 s2 s3 :
  usersLogged s1 s2 -> usersLogged s2 s3 -> usersLogged s1 s3.
Proof.
  intros [H1 H1'] [H2 H2']. split; [lia|].
  intros H. rewrite H2', H1' by lia. reflexivity.
Qed.

Lemma usersLogged_perform env R (op : Op R) s :
  usersLogged s (fst (perform env op s)).
Proof.
  destruct op; cbn [perform];
    repeat match goal with
           | |- context [match ?x with _ => _ end] => destruct x
           end;
    unfold usersLogged; simpl; split; rewrite ?userSaves_app; simpl;
    auto; try lia; intros; exfalso; lia.
Qed.

Lemma usersLogged_runN env A (p : Prog A) n s :
  usersLogged s (runN env n p s).
Proof.
  revert n s. induction p as [a| |R op k IHk e IHe]; intros n s;
    try (destruct n; apply usersLogged_refl).
  destruct n as [|n]; [apply usersLogged_refl|]. cbn [runN].
  pose proof (usersLogged_perform env op s) as Hop.
  destruct (perform env op s) as [s' [r|]]; cbn [fst] in Hop;
    eapply usersLogged_trans; eauto.
Qed.

(** ** Strings and patterns *)

Lemma hasInk_app a b : hasInk (a ++ b) = (hasInk a || hasInk b)%bool.
Proof. induction a as [|c a IH]; simpl; [reflexivity|]. now rewrite IH, orb_assoc. Qed.

Lemma trimEnd_ink s : hasInk s = true -> Str.isEmpty (Str.trimEnd s) = false.
Proof.
  induction s as [|c s IH]; simpl; [discriminate|].
  intros H. destruct (Str.trimEnd s) eqn:Hs; [|reflexivity].
  destruct (Str.isSpace c); [|reflexivity].
  simpl in H. specialize (IH H). discriminate.
Qed.

Lemma trimStart_ink s : hasInk s = true -> hasInk (Str.trimStart s) = true.
Proof.
  induction s as [|c s IH]; simpl; [discriminate|].
  destruct (Str.isSpace c) eqn:Hc; simpl; [exact IH|].
  now rewrite Hc.
Qed.

Lemma trim_ink s : hasInk s = true -> Str.isEmpty (Str.trim s) = false.
Proof. intros H. apply trimEnd_ink, trimStart_ink, H. Qed.

Lemma trimEnd_idem s : Str.trimEnd (Str.trimEnd s) = Str.trimEnd s.
Proof.
  induction s as [|c s IH]; simpl; [reflexivity|].
  destruct (Str.trimEnd s) as [|d r] eqn:Hs.
  - destruct (Str.isSpace c) eqn:Hc; simpl; [reflexivity|now rewrite Hc].
  - change (Str.trimEnd (String c (String d r)))
      with (match Str.trimEnd (String d r) with
            | EmptyString => if Str.isSpace c then EmptyString else String c EmptyString
            | r' => String c r'
            end).
    now rewrite IH.
Qed.

Lemma trimStart_head s :
  match Str.trimStart s with
  | EmptyString => True
  | String c _ => Str.isSpace c = false
  end.
Proof.
  induction s as [|c s IH]; simpl; [exact I|].
  destruct (Str.isSpace c) eqn:Hc; [exact IH|exact Hc].
Qed.

Lemma trim_idem s : Str.trim (Str.trim s) = Str.trim s.
Proof.
  unfold Str.trim. pose proof (trimStart_head s) as Hh.
  destruct (Str.trimStart s) as [|c t]; [reflexivity|].
  assert (Hs : Str.trimStart (Str.trimEnd (String c t)) = Str.trimEnd (String c t)).
  { change (Str.trimEnd (String c t))
      with (match Str.trimEnd t with
            | EmptyString => if Str.isSpace c then EmptyString else String c EmptyString
            | r' => String c r'
            end).
    destruct (Str.trimEnd t); rewrite ?Hh; simpl; now rewrite Hh. }
  rewrite Hs. apply trimEnd_idem.
Qed.

(** On a pattern without special characters the engine is the prefix test. *)
Lemma parseItems_plain s :
  Regex.noMeta s = true ->
  Regex.parseItems (String.length s) s
  = Some (map (fun c => (Regex.Lit c, Regex.One)) (list_ascii_of_string s)).
Proof.
  induction s as [|c s IH]; [reflexivity|].
  cbn [Regex.noMeta]. intros H. apply andb_true_iff in H as [Hc Hs].
  apply negb_true_iff in Hc. specialize (IH Hs).
  assert (Hatom : Regex.parseAtom (String c s) = Some (Regex.Lit c, s)).
  { unfold Regex.parseAtom.
    destruct (Ascii.eqb c "\") eqn:E1.
    { apply Ascii.eqb_eq in E1. subst c. discriminate Hc. }
    destruct (Ascii.eqb c ".") eqn:E2.
    { apply Ascii.eqb_eq in E2. subst c. discriminate Hc. }
    now rewrite Hc. }
  cbn [String.length Regex.parseItems]. rewrite Hatom.
  destruct s as [|d s']; [reflexivity|].
  assert (Hq : Regex.isQuant d = None).
  { cbn [Regex.noMeta] in Hs. apply andb_true_iff in Hs as [Hd _].
    apply negb_true_iff in Hd. unfold Regex.isQuant.
    destruct (Ascii.eqb d "*") eqn:E1.
    { apply Ascii.eqb_eq in E1. subst d. discriminate Hd. }
    destruct (Ascii.eqb d "+") eqn:E2.
    { apply Ascii.eqb_eq in E2. subst d. discriminate Hd. }
    destruct (Ascii.eqb d "?") eqn:E3.
    { apply Ascii.eqb_eq in E3. subst d. discriminate Hd. }
    reflexivity. }
  rewrite Hq, IH. reflexivity.
Qed.

Lemma matchItems_plain p s :
  Regex.matchItems (map (fun c => (Regex.Lit c, Regex.One)) (list_ascii_of_string p)) s
  = Str.startsWith p s.
Proof.
  revert s. induction p as [|c p IH]; intros s; [reflexivity|].
  cbn [list_ascii_of_string map Regex.matchItems Str.startsWith].
  destruct s as [|d s]; [reflexivity|].
  cbn [Regex.atomMatch]. now rewrite IH.
Qed.

Lemma compile_plain p :
  Regex.noMeta p = true ->
  exists m, Regex.compile ("^" ++ p) = Some m
            /\ forall s, m s = Str.startsWith p s.
Proof.
  intros H. unfold Regex.compile. cbn [append].
  change (Ascii.eqb "^" "^") with true. cbv iota.
  rewrite (parseItems_plain _ H). cbn [option_map].
  eexists. split; [reflexivity|]. apply matchItems_plain.
Qed.

Lemma noMeta_app a b :
  Regex.noMeta (a ++ b) = (Regex.noMeta a && Regex.noMeta b)%bool.
Proof.
  induction a as [|c a IH]; [reflexivity|].
  cbn [append Regex.noMeta]. now rewrite IH, andb_assoc.
Qed.

(** ** Collections: lookups, saves and queries *)

Lemma orZero_id (x : Z) : orZero x = x.
Proof. unfold orZero. destruct (Z.eqb_spec x 0); congruence. Qed.

Lemma find_ext A (p q : A -> bool) l :
  (forall x, p x = q x) -> find p l = find q l.
Proof. intros H; induction l as [|x l IH]; simpl; [|rewrite H, IH]; reflexivity. Qed.

Lemma find_none_existsb A (p : A -> bool) l :
  find p l = None <-> existsb p l = false.
Proof.
  induction l as [|x l IH]; simpl; [tauto|].
  destruct (p x); simpl; [split; discriminate|exact IH].
Qed.

Lemma find_saveUser (u : User.t) (us : list User.t) :
  find (fun v => Nat.eqb (User._id v) (User._id u)) (saveUser u us) = Some u.
Proof.
  unfold saveUser.
  destruct (existsb _ us) eqn:Hex.
  - induction us as [|v us IH]; simpl in *; [discriminate|].
    destruct (Nat.eqb (User._id v) (User._id u)) eqn:Hv; simpl.
    + now rewrite Nat.eqb_refl.
    + rewrite Hv. apply IH. exact Hex.
  - induction us as [|v us IH]; simpl in *.
    + now rewrite Nat.eqb_refl.
    + apply orb_false_iff in Hex as [Hv Hex]. rewrite Hv. now apply IH.
Qed.

Lemma find_saveUser_id userId (u : User.t) us :
  User._id u = userId ->
  find (fun v => Nat.eqb (User._id v) userId) (saveUser u us) = Some u.
Proof. intros <-. apply find_saveUser. Qed.

Lemma find_saveUser_other (u : User.t) id us :
  User._id u <> id ->
  find (fun v => Nat.eqb (User._id v) id) (saveUser u us)
  = find (fun v => Nat.eqb (User._id v) id) us.
Proof.
  intros Hne. apply Nat.eqb_neq in Hne. unfold saveUser.
  destruct (existsb _ us).
  - induction us as [|v us IH]; [reflexivity|]. cbn [map find].
    destruct (Nat.eqb (User._id v) (User._id u)) eqn:Hv.
    + rewrite Hne. apply Nat.eqb_eq in Hv. rewrite Hv, Hne. exact IH.
    + destruct (Nat.eqb (User._id v) id); [reflexivity|exact IH].
  - induction us as [|v us IH]; cbn [app find]; [now rewrite Hne|].
    destruct (Nat.eqb (User._id v) id); [reflexivity|exact IH].
Qed.

Lemma find_user_id (id : ObjectId) (us : list User.t) (u : User.t) :
  find (fun v => Nat.eqb (User._id v) id) us = Some u -> User._id u = id.
Proof.
  intros H. apply find_some in H as [_ H]. now apply Nat.eqb_eq.
Qed.

Lemma usedBytes_saveUser userId (u : User.t) fs us n l :
  User._id u = userId ->
  usedBytes userId (mkDb fs (saveUser u us) n l) = Some (User.storageUsed u).
Proof.
  intros <-. unfold usedBytes; simpl. now rewrite find_saveUser.
Qed.

Lemma usedBytes_saveUser_other (u : User.t) id fs us n l :
  User._id u <> id ->
  usedBytes id (mkDb fs (saveUser u us) n l)
  = option_map User.storageUsed (find (fun v => Nat.eqb (User._id v) id) us).
Proof. intros H. unfold usedBytes. cbn [users]. now rewrite find_saveUser_other. Qed.

Lemma usedBytes_find userId db used :
  usedBytes userId db = Some used ->
  exists user, find (fun u => Nat.eqb (User._id u) userId) (users db) = Some user
               /\ User.storageUsed user = used.
Proof.
  unfold usedBytes. destruct (find _ (users db)) as [user|]; [|discriminate].
  simpl. intros [= <-]. now exists user.
Qed.

Lemma find_hasFile id fs found :
  find (fun f => Nat.eqb (File._id f) id) fs = Some found ->
  File._id found = id /\ hasFile id fs = true.
Proof.
  intros H. apply find_some in H as [Hin Hid]. apply Nat.eqb_eq in Hid.
  split; [exact Hid|]. apply existsb_exists. exists found. split; [exact Hin|].
  now apply Nat.eqb_eq.
Qed.

Lemma hasFile_false id fs f :
  hasFile id fs = false -> In f fs -> Nat.eqb (File._id f) id = false.
Proof.
  intros Hhas Hin. destruct (Nat.eqb (File._id f) id) eqn:E; [|reflexivity].
  assert (hasFile id fs = true)
    by (apply existsb_exists; exists f; now split).
  congruence.
Qed.

Lemma hasFile_app id fs gs : hasFile id (fs ++ gs) = (hasFile id fs || hasFile id gs)%bool.
Proof. unfold hasFile. apply existsb_app. Qed.

Lemma In_saveFile doc fs : In doc (saveFile doc fs).
Proof.
  unfold saveFile. destruct (hasFile (File._id doc) fs) eqn:H.
  - unfold hasFile in H. apply existsb_exists in H as (f & Hin & Hid).
    apply in_map_iff. exists f. now rewrite Hid.
  - apply in_or_app. right. now left.
Qed.

Lemma saveFile_same_id doc fs f :
  In f (saveFile doc fs) -> File._id f = File._id doc -> f = doc.
Proof.
  unfold saveFile. destruct (hasFile (File._id doc) fs) eqn:Hhas; intros Hin Hid.
  - apply in_map_iff in Hin as (g & Hg & _).
    destruct (Nat.eqb (File._id g) (File._id doc)) eqn:Hgd; [congruence|].
    subst g. apply Nat.eqb_neq in Hgd. contradiction.
  - apply in_app_or in Hin as [Hin|[Heq|[]]]; [|congruence].
    unfold hasFile in Hhas.
    assert (Hex : existsb (fun g => Nat.eqb (File._id g) (File._id doc)) fs = true).
    { apply existsb_exists. exists f. split; [exact Hin|]. now apply Nat.eqb_eq. }
    congruence.
Qed.

Lemma saveFile_stored doc fs :
  hasFile (File._id doc) fs = true ->
  saveFile doc fs
  = map (fun f => if Nat.eqb (File._id f) (File._id doc) then doc else f) fs.
Proof. intros H. unfold saveFile. now rewrite H. Qed.

Lemma uniqueIds_same fs f g :
  uniqueIds fs = true -> In f fs -> In g fs -> File._id f = File._id g -> f = g.
Proof.
  induction fs as [|h fs IH]; simpl; [tauto|].
  intros Hu Hf Hg Hid. apply andb_true_iff in Hu as [Hh Hu].
  apply negb_true_iff in Hh.
  assert (Hno : forall x, In x fs -> File._id x <> File._id h).
  { intros x Hx Hxh. unfold hasFile in Hh.
    assert (existsb (fun y => Nat.eqb (File._id y) (File._id h)) fs = true).
    { apply existsb_exists. exists x. split; [exact Hx|]. now apply Nat.eqb_eq. }
    congruence. }
  destruct Hf as [<-|Hf], Hg as [<-|Hg]; auto.
  - exfalso. apply (Hno g Hg). congruence.
  - exfalso. apply (Hno f Hf). congruence.
Qed.

Lemma isFile_isFolder f : isFolder f = negb (isFile f).
Proof. unfold isFile, isFolder. now destruct (File.type f). Qed.

Lemma EntryType_eqb_sym a b : EntryType_eqb a b = EntryType_eqb b a.
Proof. now destruct a, b. Qed.

Lemma option_eqb_nat_sym (x y : option nat) :
  option_eqb Nat.eqb x y = option_eqb Nat.eqb y x.
Proof. destruct x, y; simpl; auto using Nat.eqb_sym. Qed.

Lemma siblingQuery_isSibling userId parentFolder name ty f :
  Query.plain (siblingQuery userId parentFolder name ty) f
  = isSibling userId parentFolder (Str.trim name) ty f.
Proof.
  unfold Query.plain, siblingQuery, isSibling, Query.field, visible; simpl.
  rewrite (String.eqb_sym (Str.trim name)), (EntryType_eqb_sym ty),
    (option_eqb_nat_sym parentFolder), (Nat.eqb_sym userId).
  now destruct (File.isDeleted f).
Qed.

Lemma findOne_sibling env db userId parentFolder name ty :
  perform env (File_findOne (siblingQuery userId parentFolder name ty)) db
  = (db, Some (find (isSibling userId parentFolder (Str.trim name) ty) (files db))).
Proof.
  simpl. f_equal. f_equal. apply find_ext, siblingQuery_isSibling.
Qed.

Lemma cascadeQuery_plain userId path f :
  Query.plain (cascadeQuery userId path) f
  = (Nat.eqb (File.owner f) userId && visible f)%bool.
Proof.
  unfold Query.plain, cascadeQuery, Query.field, visible; simpl.
  rewrite (Nat.eqb_sym userId). now destruct (File.isDeleted f).
Qed.

Lemma totalSizeOf_cons f l :
  totalSizeOf (f :: l) = File.size f + totalSizeOf l.
Proof.
  unfold totalSizeOf. simpl. rewrite orZero_id.
  generalize (File.size f). induction l as [|g l IH]; intros a; simpl; [lia|].
  rewrite IH, (IH (orZero (File.size g))). lia.
Qed.

Lemma validate_size f : File.validate f = true -> 0 <= File.size f.
Proof.
  unfold File.validate. intros H.
  apply andb_true_iff in H as [H _]. apply andb_true_iff in H as [_ H].
  now apply Z.leb_le.
Qed.

Lemma uploadName_some reqFile name :
  Str.isEmpty name = false -> uploadName reqFile (Some name) = name.
Proof. intros H. unfold uploadName, truthy. now rewrite H. Qed.

Lemma resolvedPath_ink db userId parentFolder name :
  hasInk (resolvedPath db userId parentFolder name) = true.
Proof.
  unfold resolvedPath.
  destruct parentFolder as [pid|]; [|reflexivity].
  destruct (findFile pid db) as [parent|]; [|reflexivity].
  destruct (Nat.eqb (File.owner parent) userId); [|reflexivity].
  rewrite hasInk_app. simpl. apply orb_true_r.
Qed.

(** ** The handlers in closed form *)

Lemma run_buildPath env db userId parentFolder name :
  run env (buildPath userId parentFolder name) db =
  (db, Some (resolvedPath db userId parentFolder name)).
Proof.
  unfold buildPath, resolvedPath, findFile.
  destruct parentFolder as [pid|]; simpl; [|reflexivity].
  destruct (find _ (files db)) as [parent|]; simpl; [|reflexivity].
  destruct (Nat.eqb (File.owner parent) userId); reflexivity.
Qed.

Lemma run_createFolder_conflict env db userId rawName parentFolder :
  Str.isEmpty (Str.trim rawName) = false ->
  hasSibling db userId parentFolder (Str.trim rawName) type_folder = true ->
  run env (createFolder userId rawName parentFolder) db =
  (db, Some (json 400 false
               "A folder with this name already exists in this location" NoPayload)).
Proof.
  intros Hn Hsib. unfold createFolder. rewrite Hn.
  rewrite run_tryCatch, run_bind, run_call, findOne_sibling, trim_idem.
  unfold hasSibling in Hsib.
  destruct (find _ (files db)) eqn:Hf; [reflexivity|].
  apply find_none_existsb in Hf. congruence.
Qed.

Lemma run_createFolder_fresh env db userId rawName parentFolder :
  Str.isEmpty (Str.trim rawName) = false ->
  (String.length (Str.trim rawName) <= 255)%nat ->
  hasSibling db userId parentFolder (Str.trim rawName) type_folder = false ->
  let name := Str.trim rawName in
  let folder := File.construct (nextId db)
     (folderFields userId name (resolvedPath db userId parentFolder name)
        parentFolder) in
  run env (createFolder userId rawName parentFolder) db =
  (mkDb (saveFile folder (files db)) (users db) (S (nextId db))
        (log db ++ [EvFileSave folder]),
   Some (json 201 true "Folder created successfully" (PFolder folder))).
Proof.
  intros Hn Hl Hsib name folder. unfold createFolder. rewrite Hn.
  rewrite run_tryCatch, run_bind, run_call, findOne_sibling, trim_idem.
  unfold hasSibling in Hsib. apply find_none_existsb in Hsib. rewrite Hsib.
  rewrite run_bind, run_buildPath.
  rewrite run_bind, run_call. cbn [perform]. cbv beta iota.
  rewrite run_bind, run_call. cbn [perform logEvent nextId files users log].
  fold name. fold folder.
  assert (Hv : File.validate folder = true).
  { unfold File.validate, folder, name; simpl.
    rewrite trim_idem, Hn, trim_ink by apply resolvedPath_ink.
    apply Nat.leb_le in Hl. now rewrite Hl. }
  rewrite Hv, orb_true_r. reflexivity.
Qed.

Lemma run_uploadFile_conflict env db userId reqFile bodyName parentFolder user :
  find (fun u => Nat.eqb (User._id u) userId) (users db) = Some user ->
  User.storageUsed user + Multer.size reqFile <= MAX_STORAGE ->
  hasSibling db userId parentFolder (Str.trim (uploadName reqFile bodyName)) type_file
  = true ->
  run env (uploadFile userId (Some reqFile) bodyName parentFolder) db =
  (db, Some (json 400 false
               "A file with this name already exists in this location" NoPayload)).
Proof.
  intros Hfind Hfit Hsib.
  unfold uploadFile. rewrite run_tryCatch, run_bind, run_loadUser, Hfind.
  destruct (MAX_STORAGE <? _) eqn:Hlt; [apply Z.ltb_lt in Hlt; lia|].
  rewrite run_bind, run_call, findOne_sibling.
  unfold hasSibling in Hsib.
  destruct (find _ (files db)) eqn:Hf; [reflexivity|].
  apply find_none_existsb in Hf. congruence.
Qed.

Lemma run_uploadFile_fresh env db userId reqFile bodyName parentFolder user :
  find (fun u => Nat.eqb (User._id u) userId) (users db) = Some user ->
  User.storageUsed user + Multer.size reqFile <= MAX_STORAGE ->
  hasSibling db userId parentFolder (Str.trim (uploadName reqFile bodyName)) type_file
  = false ->
  s3PutOk env (log db) (s3KeyOf env reqFile userId) = true ->
  validUpload reqFile bodyName ->
  let key := s3KeyOf env reqFile userId in
  let file := File.construct (nextId db)
     (fileFields userId reqFile (uploadName reqFile bodyName)
        (resolvedPath db userId parentFolder (uploadName reqFile bodyName))
        key parentFolder) in
  let user' := User.withStorageUsed (User.storageUsed user + Multer.size reqFile) user in
  run env (uploadFile userId (Some reqFile) bodyName parentFolder) db =
  (mkDb (saveFile file (files db)) (saveUser user' (users db)) (S (nextId db))
        (log db ++ [EvS3Put key; EvFileSave file; EvUserSave user']),
   Some (json 201 true "File uploaded successfully"
           (PFile file (User.storageUsed user + Multer.size reqFile)))).
Proof.
  intros Hfind Hfit Hsib Hput (Hn & Hl & Ho & Hm & Hs) key file user'.
  unfold uploadFile. rewrite run_tryCatch, run_bind, run_loadUser, Hfind.
  destruct (MAX_STORAGE <? _) eqn:Hlt; [apply Z.ltb_lt in Hlt; lia|].
  rewrite run_bind, run_call, findOne_sibling.
  unfold hasSibling in Hsib. apply find_none_existsb in Hsib. rewrite Hsib.
  rewrite run_bind, run_buildPath.
  rewrite run_bind, run_call. cbn [perform]. rewrite Hput. fold key.
  cbv beta iota.
  rewrite run_bind, run_call. cbn [perform]. cbv beta iota.
  rewrite run_bind, run_call. cbn [perform logEvent nextId files users log].
  fold file.
  assert (Hv : File.validate file = true).
  { unfold File.validate, file; simpl.
    rewrite Hn, Ho, Hm, trim_ink by apply resolvedPath_ink.
    apply Nat.leb_le in Hl. rewrite Hl. apply Z.leb_le in Hs. rewrite Hs.
    reflexivity. }
  rewrite Hv, orb_true_r.
  rewrite run_bind, run_call. simpl. rewrite orZero_id. fold user'.
  rewrite <- !app_assoc. reflexivity.
Qed.

Lemma run_deleteBlob env doc db :
  run env (deleteBlob doc) db =
  (mkDb (files db) (users db) (nextId db) (log db ++ blobLog doc), Some tt).
Proof.
  unfold deleteBlob, blobLog.
  destruct (isFile doc && truthy (File.s3Key doc))%bool;
    [destruct (File.s3Key doc) as [key|]|]; simpl.
  - destruct (s3DeleteOk env (log db) key); reflexivity.
  - rewrite app_nil_r. now destruct db.
  - rewrite app_nil_r. now destruct db.
Qed.

Lemma run_forEach_deleteBlob env l db :
  run env (forEach l deleteBlob) db =
  (mkDb (files db) (users db) (nextId db) (log db ++ flat_map blobLog l), Some tt).
Proof.
  revert db. induction l as [|doc l IH]; intros db; simpl.
  - rewrite app_nil_r. now destruct db.
  - rewrite run_bind, run_deleteBlob, IH. simpl. now rewrite app_assoc.
Qed.

Lemma run_deleteEntry_absent env db userId id now :
  findFile id db = None ->
  run env (deleteEntry userId id now) db =
  (db, Some (json 404 false "File or folder not found" NoPayload)).
Proof.
  intros H. unfold deleteEntry, findFile in *.
  rewrite run_tryCatch, run_bind, run_call. cbn [perform]. now rewrite H.
Qed.

Lemma run_deleteEntry_foreign env db userId id now found :
  findFile id db = Some found ->
  File.owner found <> userId ->
  run env (deleteEntry userId id now) db =
  (db, Some (json 403 false "Access denied" NoPayload)).
Proof.
  intros H Hown. unfold deleteEntry, findFile in *.
  rewrite run_tryCatch, run_bind, run_call. cbn [perform]. rewrite H.
  apply Nat.eqb_neq in Hown. now rewrite Hown.
Qed.

Lemma run_deleteEntry_file env db userId id now found user :
  findFile id db = Some found ->
  File.owner found = userId ->
  isFile found = true ->
  find (fun u => Nat.eqb (User._id u) userId) (users db) = Some user ->
  let file := File.markDeleted now found in
  let user' := User.withStorageUsed
                 (Z.max 0 (User.storageUsed user - File.size found)) user in
  run env (deleteEntry userId id now) db =
  (mkDb (saveFile file (files db)) (saveUser user' (users db)) (nextId db)
        (log db ++ [EvFileSave file; EvUserSave user'] ++ blobLog file),
   Some (json 200 true "File/folder deleted successfully"
           (PStorage (Z.max 0 (User.storageUsed user - File.size found))))).
Proof.
  intros Hfound Hown Hfile Huser file user'.
  unfold findFile in Hfound. destruct (@find_hasFile _ _ _ Hfound) as [Hid Hhas].
  unfold deleteEntry.
  rewrite run_tryCatch, run_bind, run_call. cbn [perform]. rewrite Hfound.
  apply Nat.eqb_eq in Hown. rewrite Hown. cbn [negb].
  fold file.
  rewrite run_bind, run_call. cbn [perform].
  assert (Hid' : File._id file = id) by exact Hid.
  rewrite Hid', Hhas. cbn [orb].
  assert (Hf : isFile file = true) by exact Hfile.
  rewrite Hf.
  cbv beta iota.
  rewrite !run_bind, run_loadUser. cbn [users]. rewrite Huser.
  cbv beta iota. rewrite run_bind, run_call. cbn [perform files users nextId log].
  cbv beta iota. cbn [run].
  rewrite run_bind, run_deleteBlob. cbn [files users nextId log].
  rewrite isFile_isFolder, Hf. cbn [negb andb].
  cbn [run bind]. rewrite andb_false_r. cbn [run bind].
  rewrite <- !app_assoc. reflexivity.
Qed.

Lemma run_deleteEntry_file_nouser env db userId id now found :
  findFile id db = Some found ->
  File.owner found = userId ->
  isFile found = true ->
  find (fun u => Nat.eqb (User._id u) userId) (users db) = None ->
  let file := File.markDeleted now found in
  run env (deleteEntry userId id now) db =
  (mkDb (saveFile file (files db)) (users db) (nextId db)
        (log db ++ [EvFileSave file]),
   Some (json 500 false "Server error while deleting file" NoPayload)).
Proof.
  intros Hfound Hown Hfile Huser file.
  unfold findFile in Hfound. destruct (@find_hasFile _ _ _ Hfound) as [Hid Hhas].
  unfold deleteEntry.
  rewrite run_tryCatch, run_bind, run_call. cbn [perform]. rewrite Hfound.
  apply Nat.eqb_eq in Hown. rewrite Hown. cbn [negb].
  fold file.
  rewrite run_bind, run_call. cbn [perform].
  assert (Hid' : File._id file = id) by exact Hid.
  rewrite Hid', Hhas. cbn [orb].
  assert (Hf : isFile file = true) by exact Hfile.
  rewrite Hf. cbv beta iota.
  rewrite !run_bind, run_loadUser. cbn [users]. rewrite Huser. reflexivity.
Qed.

Lemma run_deleteEntry_folder env db userId id now found user m :
  findFile id db = Some found ->
  File.owner found = userId ->
  isFolder found = true ->
  regex env ("^" ++ File.path found ++ "/") = Some m ->
  find (fun u => Nat.eqb (User._id u) userId) (users db) = Some user ->
  let file := File.markDeleted now found in
  let q := fun f => (Query.plain (cascadeQuery userId (File.path found)) f
                     && m (File.path f))%bool in
  let fs1 := saveFile file (files db) in
  let childFiles := filter q fs1 in
  let total := totalSizeOf childFiles in
  let user' := User.withStorageUsed (Z.max 0 (User.storageUsed user - total)) user in
  run env (deleteEntry userId id now) db =
  (mkDb (map (fun f => if q f then File.markDeleted now f else f) fs1)
        (if 0 <? total then saveUser user' (users db) else users db)
        (nextId db)
        (log db ++ [EvFileSave file] ++ flat_map blobLog childFiles
           ++ [EvFileUpdateMany (cascadeQuery userId (File.path found))]
           ++ (if 0 <? total then [EvUserSave user'] else [])),
   Some (json 200 true "File/folder deleted successfully"
           (PStorage (if 0 <? total then Z.max 0 (User.storageUsed user - total)
                      else User.storageUsed user)))).
Proof.
  intros Hfound Hown Hfolder Hre Huser file q fs1 childFiles total user'.
  unfold findFile in Hfound. destruct (@find_hasFile _ _ _ Hfound) as [Hid Hhas].
  unfold deleteEntry.
  rewrite run_tryCatch, run_bind, run_call. cbn [perform]. rewrite Hfound.
  apply Nat.eqb_eq in Hown. rewrite Hown. cbn [negb].
  fold file.
  rewrite run_bind, run_call. cbn [perform].
  assert (Hid' : File._id file = id) by exact Hid.
  rewrite Hid', Hhas. cbn [orb].
  assert (Hf : isFolder file = true) by exact Hfolder.
  assert (Hf' : isFile file = false).
  { rewrite isFile_isFolder in Hf. now destruct (isFile file). }
  rewrite Hf, Hf'.
  cbv beta iota. cbn [run bind].
  rewrite run_bind. unfold deleteBlob at 1. rewrite Hf'. cbn [andb run].
  rewrite !run_bind, run_call. cbn [perform Query.compile cascadeQuery Query.pathRegex regex files].
  change (File.path file) with (File.path found). rewrite Hre.
  cbv beta iota. fold q. fold fs1. fold childFiles. fold total.
  rewrite run_bind, run_forEach_deleteBlob. cbn [files users nextId log].
  rewrite run_bind, run_call.
  cbn [perform Query.compile cascadeQuery Query.pathRegex regex files users nextId log].
  rewrite Hre. cbv beta iota. fold q.
  rewrite run_bind, run_loadUser. cbn [users]. rewrite Huser.
  destruct (0 <? total) eqn:Htot.
  - rewrite !run_bind, run_call. cbn [perform files users nextId log run].
    fold user'.
    destruct (User.storageUsed user' =? 0) eqn:Hz; cbn [andb negb].
    + rewrite run_bind. rewrite run_bind, run_loadUser. cbn [users].
      assert (Hu : User._id user' = userId)
        by (apply (@find_user_id _ _ _ Huser)).
      rewrite (@find_saveUser_id _ _ _ Hu). cbn [run].
      rewrite <- !app_assoc. reflexivity.
    + cbn [run bind]. rewrite <- !app_assoc. reflexivity.
  - cbn [run bind].
    destruct (User.storageUsed user =? 0) eqn:Hz; cbn [andb negb].
    + rewrite run_bind. rewrite run_bind, run_loadUser. cbn [users]. rewrite Huser. cbn [run].
      rewrite <- !app_assoc. rewrite app_nil_r. reflexivity.
    + cbn [run bind]. rewrite <- !app_assoc. rewrite app_nil_r. reflexivity.
Qed.

Lemma run_deleteEntry_folder_rejected env db userId id now found :
  findFile id db = Some found ->
  File.owner found = userId ->
  isFolder found = true ->
  regex env ("^" ++ File.path found ++ "/") = None ->
  let file := File.markDeleted now found in
  run env (deleteEntry userId id now) db =
  (mkDb (saveFile file (files db)) (users db) (nextId db)
        (log db ++ [EvFileSave file]),
   Some (json 500 false "Server error while deleting file" NoPayload)).
Proof.
  intros Hfound Hown Hfolder Hre file.
  unfold findFile in Hfound. destruct (@find_hasFile _ _ _ Hfound) as [Hid Hhas].
  unfold deleteEntry.
  rewrite run_tryCatch, run_bind, run_call. cbn [perform]. rewrite Hfound.
  apply Nat.eqb_eq in Hown. rewrite Hown. cbn [negb].
  fold file.
  rewrite run_bind, run_call. cbn [perform].
  assert (Hid' : File._id file = id) by exact Hid.
  rewrite Hid', Hhas. cbn [orb].
  assert (Hf : isFolder file = true) by exact Hfolder.
  assert (Hf' : isFile file = false).
  { rewrite isFile_isFolder in Hf. now destruct (isFile file). }
  rewrite Hf, Hf'.
  cbv beta iota. cbn [run bind].
  rewrite run_bind. unfold deleteBlob at 1. rewrite Hf'. cbn [andb run].
  rewrite !run_bind, run_call.
  cbn [perform Query.compile cascadeQuery Query.pathRegex regex files].
  change (File.path file) with (File.path found). rewrite Hre. reflexivity.
Qed.

Lemma run_deleteEntry_folder_nouser env db userId id now found m :
  findFile id db = Some found ->
  File.owner found = userId ->
  isFolder found = true ->
  regex env ("^" ++ File.path found ++ "/") = Some m ->
  find (fun u => Nat.eqb (User._id u) userId) (users db) = None ->
  let file := File.markDeleted now found in
  let q := fun f => (Query.plain (cascadeQuery userId (File.path found)) f
                     && m (File.path f))%bool in
  let fs1 := saveFile file (files db) in
  run env (deleteEntry userId id now) db =
  (mkDb (map (fun f => if q f then File.markDeleted now f else f) fs1)
        (users db) (nextId db)
        (log db ++ [EvFileSave file] ++ flat_map blobLog (filter q fs1)
           ++ [EvFileUpdateMany (cascadeQuery userId (File.path found))]),
   Some (json 500 false "Server error while deleting file" NoPayload)).
Proof.
  intros Hfound Hown Hfolder Hre Huser file q fs1.
  unfold findFile in Hfound. destruct (@find_hasFile _ _ _ Hfound) as [Hid Hhas].
  unfold deleteEntry.
  rewrite run_tryCatch, run_bind, run_call. cbn [perform]. rewrite Hfound.
  apply Nat.eqb_eq in Hown. rewrite Hown. cbn [negb].
  fold file.
  rewrite run_bind, run_call. cbn [perform].
  assert (Hid' : File._id file = id) by exact Hid.
  rewrite Hid', Hhas. cbn [orb].
  assert (Hf : isFolder file = true) by exact Hfolder.
  assert (Hf' : isFile file = false).
  { rewrite isFile_isFolder in Hf. now destruct (isFile file). }
  rewrite Hf, Hf'.
  cbv beta iota. cbn [run bind].
  rewrite run_bind. unfold deleteBlob at 1. rewrite Hf'. cbn [andb run].
  rewrite !run_bind, run_call.
  cbn [perform Query.compile cascadeQuery Query.pathRegex regex files].
  change (File.path file) with (File.path found). rewrite Hre.
  cbv beta iota. fold q. fold fs1.
  rewrite run_bind, run_forEach_deleteBlob. cbn [files users nextId log].
  rewrite run_bind, run_call.
  cbn [perform Query.compile cascadeQuery Query.pathRegex regex files users nextId log].
  rewrite Hre. cbv beta iota. fold q.
  rewrite run_bind, run_loadUser. cbn [users]. rewrite Huser.
  cbn [run]. rewrite <- !app_assoc. reflexivity.
Qed.

(** The answers of the download route.  The deleted flag of the entry is
    never read. *)
Lemma run_getDownloadUrl env db userId id :
  run env (getDownloadUrl userId id) db =
  match findFile id db with
  | None => (db, Some (json 404 false "File not found" NoPayload))
  | Some file =>
      if negb (Nat.eqb (File.owner file) userId)
      then (db, Some (json 403 false "Access denied" NoPayload))
      else if isFolder file
      then (db, Some (json 400 false "Cannot download folders" NoPayload))
      else match File.s3Key file with
           | Some key =>
               (logEvent (EvS3Sign key) db,
                Some match signedUrl env key with
                     | Some url => json 200 true "" (PDownload url (File.originalName file))
                     | None => json 500 false "Server error while generating download URL"
                                 NoPayload
                     end)
           | None =>
               (db, Some (json 500 false "Server error while generating download URL"
                            NoPayload))
           end
  end.
Proof.
  unfold getDownloadUrl, findFile.
  rewrite run_tryCatch, run_bind, run_call. cbn [perform].
  destruct (find _ (files db)) as [file|]; [|reflexivity].
  destruct (negb (Nat.eqb (File.owner file) userId)); [reflexivity|].
  destruct (isFolder file); [reflexivity|].
  rewrite run_bind, run_call. cbn [perform].
  destruct (File.s3Key file) as [key|]; [|reflexivity].
  destruct (signedUrl env key); reflexivity.
Qed.

(** ** The upload middleware *)

(** C10: an upload whose content exceeds 100 * 1024 * 1024 bytes is rejected
    by the upload middleware before the handler runs: the route passes the
    error [LIMIT_FILE_SIZE] on and leaves the database and the log of
    external calls as they were (no entry, no blob, the same counter). *)
Theorem upload_over_fileSize_rejected env userId (reqFile : Multer.file)
    bodyName parentFolder db :
  Multer.fileSize < Multer.size reqFile ->
  Multer.fileSize = 104857600 /\
  uploadRoute env userId (Some reqFile) bodyName parentFolder db
    = (db, NextError "LIMIT_FILE_SIZE").
Proof.
  intros Hbig. split; [reflexivity|].
  unfold uploadRoute, uploadSingle.
  apply Z.ltb_lt in Hbig. now rewrite Hbig.
Qed.

Lemma upload_over_fileSize_rejected_witness :
  Multer.fileSize < Multer.size big_bin
  /\ Multer.fileSize = 104857600
  /\ uploadRoute env0 alice (Some big_bin) None None db_start
     = (db_start, NextError "LIMIT_FILE_SIZE").
Proof.
  split; [reflexivity|].
  apply (@upload_over_fileSize_rejected env0 alice big_bin None None db_start).
  reflexivity.
Defined.

(** A file within the limit reaches the handler. *)
Lemma uploadRoute_within_limit env userId (reqFile : Multer.file)
    bodyName parentFolder db :
  Multer.size reqFile <= Multer.fileSize ->
  uploadRoute env userId (Some reqFile) bodyName parentFolder db =
  match run env (uploadFile userId (Some reqFile) bodyName parentFolder) db with
  | (db', Some r) => (db', Responded r)
  | (db', None) => (db', Uncaught)
  end.
Proof.
  intros Hfit. unfold uploadRoute, uploadSingle.
  destruct (Multer.fileSize <? Multer.size reqFile) eqn:Hlt;
    [apply Z.ltb_lt in Hlt; lia|reflexivity].
Qed.

(** ** The quota check of the upload *)

(** C4: when the user's counter plus the size of the upload exceeds
    MAX_STORAGE (15 * 2^30 bytes), the handler answers "Storage limit
    exceeded" and leaves the database and the log untouched (no call of the
    object store, the same counter); otherwise the answer is not that error
    and, on success, the counter has grown by exactly the size. *)
Theorem uploadFile_quota env db userId (reqFile : Multer.file) bodyName
    parentFolder used :
  usedBytes userId db = Some used ->
  MAX_STORAGE = 15 * 2 ^ 30 /\
  (MAX_STORAGE < used + Multer.size reqFile ->
   exists r,
     run env (uploadFile userId (Some reqFile) bodyName parentFolder) db = (db, Some r)
     /\ QuotaExceeded r) /\
  (used + Multer.size reqFile <= MAX_STORAGE ->
   exists db' r,
     run env (uploadFile userId (Some reqFile) bodyName parentFolder) db = (db', Some r)
     /\ ~ QuotaExceeded r
     /\ (success r = true ->
         usedBytes userId db' = Some (used + Multer.size reqFile))).
Proof.
  intros Hused. split; [reflexivity|].
  unfold usedBytes in Hused.
  destruct (find _ (users db)) as [user|] eqn:Hfind; [|discriminate].
  simpl in Hused. injection Hused as Hused.
  split.
  - intros Hover.
    eexists. unfold uploadFile. rewrite run_tryCatch, run_bind, run_loadUser, Hfind.
    rewrite Hused. apply Z.ltb_lt in Hover. rewrite Hover. simpl.
    split; [reflexivity|]. split; reflexivity.
  - intros Hfit.
    unfold uploadFile. rewrite run_tryCatch, run_bind, run_loadUser, Hfind.
    rewrite Hused.
    destruct (MAX_STORAGE <? used + Multer.size reqFile) eqn:Hlt;
      [apply Z.ltb_lt in Hlt; lia|].
    rewrite run_bind, run_call. simpl perform.
    destruct (find _ (files db)) as [existing|] eqn:Hex.
    + simpl. do 2 eexists. split; [reflexivity|]. split.
      * intros [_ Hm]. discriminate Hm.
      * discriminate.
    + rewrite run_bind, run_buildPath.
      rewrite run_bind, run_call. simpl perform.
      destruct (s3PutOk env (log db) _); cbv beta iota.
      * rewrite run_bind, run_call. simpl perform. cbv beta iota.
        rewrite run_bind, run_call. simpl perform.
        match goal with |- context [if ?c then _ else _] => destruct c end.
        -- rewrite run_bind, run_call. simpl.
           do 2 eexists. split; [reflexivity|]. split.
           ++ intros [Hs _]. discriminate Hs.
           ++ intros _. rewrite orZero_id.
              apply usedBytes_saveUser. simpl. eapply find_user_id; eauto.
        -- simpl. do 2 eexists. split; [reflexivity|]. split.
           ++ intros [Hs _]. discriminate Hs.
           ++ discriminate.
      * simpl. do 2 eexists. split; [reflexivity|]. split.
        -- intros [Hs _]. discriminate Hs.
        -- discriminate.
Qed.

Lemma uploadFile_quota_witness :
  usedBytes alice db_three = Some 500
  /\ exists db' r,
       run env0 (uploadFile alice (Some report_pdf) None None) db_three = (db', Some r)
       /\ ~ QuotaExceeded r
       /\ (success r = true -> usedBytes alice db' = Some 1500).
Proof.
  split; [reflexivity|].
  destruct (@uploadFile_quota env0 db_three alice report_pdf None None 500 eq_refl)
    as (_ & _ & Hfit).
  apply Hfit. vm_compute; discriminate.
Defined.

(** ** Name collisions *)



(** The two collision answers are the [Conflict] of the specification. *)
Lemma collision_answers_Conflict :
  Conflict (json 400 false
              "A folder with this name already exists in this location" NoPayload)
  /\ Conflict (json 400 false
                 "A file with this name already exists in this location" NoPayload).
Proof. split; (split; [reflexivity|]); [left|right]; reflexivity. Qed.

(** ** The parent of a new entry *)

(** The claim of C5 fails at three parents of Alice's new folder "x": an id
    that is not stored, Bob's folder and her own file.  None of the requests
    fails: each answers 201, with the path "/x" in the first two cases and
    "/notes.txt/x" under the file; an upload under the missing parent is
    stored as "/report.pdf". *)
Lemma create_parent_counterexample :
  (findFile 999%nat db_three = None
   /\ ~ answers NotFound (run env0 (createFolder alice "x" (Some 999%nat)) db_three)
   /\ createdPath (run env0 (createFolder alice "x" (Some 999%nat)) db_three)
      = Some (201%nat, Some "/x"))
  /\
  (option_map File.owner (findFile 102%nat db_three) = Some bob
   /\ ~ answers Forbidden (run env0 (createFolder alice "x" (Some 102%nat)) db_three)
   /\ createdPath (run env0 (createFolder alice "x" (Some 102%nat)) db_three)
      = Some (201%nat, Some "/x"))
  /\
  (option_map File.type (findFile 101%nat db_three) = Some type_file
   /\ ~ answers Failure (run env0 (createFolder alice "x" (Some 101%nat)) db_three)
   /\ createdPath (run env0 (createFolder alice "x" (Some 101%nat)) db_three)
      = Some (201%nat, Some "/notes.txt/x"))
  /\
  (~ answers NotFound
       (run env0 (uploadFile alice (Some report_pdf) None (Some 999%nat)) db_three)
   /\ createdPath
        (run env0 (uploadFile alice (Some report_pdf) None (Some 999%nat)) db_three)
      = Some (201%nat, Some "/report.pdf")).
Proof.
  repeat split;
    intros (r & Hr & Hk); vm_compute in Hr; injection Hr as <-; discriminate Hk.
Qed.

Lemma createFolder_on_success env db userId rawName parentFolder db' r :
  run env (createFolder userId rawName parentFolder) db = (db', Some r) ->
  ~ NotFound r /\ ~ Forbidden r
  /\ (success r = true ->
      exists folder,
        payload r = PFolder folder
        /\ In folder (files db')
        /\ File.parentFolder folder = parentFolder
        /\ File.path folder
           = Str.trim (resolvedPath db userId parentFolder (Str.trim rawName))).
Proof.
  unfold createFolder.
  destruct (Str.isEmpty (Str.trim rawName)).
  { intros [= <- <-]. repeat split; discriminate. }
  rewrite run_tryCatch, run_bind, run_call, findOne_sibling, trim_idem.
  destruct (find _ (files db)).
  { intros [= <- <-]. repeat split; discriminate. }
  rewrite run_bind, run_buildPath.
  rewrite run_bind, run_call. cbn [perform]. cbv beta iota.
  rewrite run_bind, run_call. cbn [perform logEvent nextId files users log].
  match goal with |- context [if ?c then _ else _] => destruct c end.
  - cbn [run]. intros [= <- <-]. repeat split; try discriminate.
    intros _. eexists. split; [reflexivity|]. cbn [files].
    split; [apply In_saveFile|]. split; reflexivity.
  - cbn [run]. intros [= <- <-]. repeat split; discriminate.
Qed.

Lemma uploadFile_on_success env db userId reqFile bodyName parentFolder db' r :
  run env (uploadFile userId reqFile bodyName parentFolder) db = (db', Some r) ->
  ~ NotFound r /\ ~ Forbidden r
  /\ (success r = true ->
      exists f file used,
        reqFile = Some f
        /\ payload r = PFile file used
        /\ In file (files db')
        /\ File.parentFolder file = parentFolder
        /\ File.path file
           = Str.trim (resolvedPath db userId parentFolder (uploadName f bodyName))).
Proof.
  unfold uploadFile. destruct reqFile as [f|].
  2:{ intros [= <- <-]. repeat split; discriminate. }
  rewrite run_tryCatch, run_bind, run_loadUser.
  destruct (find _ (users db)) as [user|].
  2:{ intros [= <- <-]. repeat split; discriminate. }
  destruct (MAX_STORAGE <? _).
  { intros [= <- <-]. repeat split; discriminate. }
  rewrite run_bind, run_call, findOne_sibling.
  destruct (find _ (files db)).
  { intros [= <- <-]. repeat split; discriminate. }
  rewrite run_bind, run_buildPath.
  rewrite run_bind, run_call. cbn [perform].
  destruct (s3PutOk env (log db) _); cbv beta iota.
  2:{ cbn [run]. intros [= <- <-]. repeat split; discriminate. }
  rewrite run_bind, run_call. cbn [perform]. cbv beta iota.
  rewrite run_bind, run_call. cbn [perform logEvent nextId files users log].
  match goal with |- context [if ?c then _ else _] => destruct c end.
  - rewrite run_bind, run_call. cbn [perform run].
    intros [= <- <-]. repeat split; try discriminate.
    intros _. do 3 eexists. split; [reflexivity|]. split; [reflexivity|].
    cbn [files]. split; [apply In_saveFile|]. split; reflexivity.
  - cbn [run]. intros [= <- <-]. repeat split; discriminate.
Qed.

(** C5, amended: the parent never makes a create fail.  No create answers
    404 or 403, whatever its parent id; on success the new entry's path is
    the schema's trim of parent.path + "/" + name when the parent is stored
    and owned by the requester (whatever its kind and deleted flag), and of
    "/" + name when the parent id is null, is not stored, or belongs to
    another user; and for every value of the parent id a create with a valid
    name and no same-kind sibling does succeed. *)
Theorem create_resolves_path env db userId parentFolder :
  (forall rawName db' r,
     run env (createFolder userId rawName parentFolder) db = (db', Some r) ->
     ~ NotFound r /\ ~ Forbidden r
     /\ (success r = true ->
         exists folder,
           payload r = PFolder folder
           /\ In folder (files db')
           /\ File.parentFolder folder = parentFolder
           /\ File.path folder
              = Str.trim (resolvedPath db userId parentFolder (Str.trim rawName))))
  /\
  (forall reqFile bodyName db' r,
     run env (uploadFile userId reqFile bodyName parentFolder) db = (db', Some r) ->
     ~ NotFound r /\ ~ Forbidden r
     /\ (success r = true ->
         exists f file used,
           reqFile = Some f
           /\ payload r = PFile file used
           /\ In file (files db')
           /\ File.parentFolder file = parentFolder
           /\ File.path file
              = Str.trim (resolvedPath db userId parentFolder (uploadName f bodyName))))
  /\
  (forall name,
     (parentFolder = None -> resolvedPath db userId parentFolder name = "/" ++ name)
     /\ (forall pid, parentFolder = Some pid -> findFile pid db = None ->
                     resolvedPath db userId parentFolder name = "/" ++ name)
     /\ (forall pid parent,
           parentFolder = Some pid -> findFile pid db = Some parent ->
           File.owner parent <> userId ->
           resolvedPath db userId parentFolder name = "/" ++ name)
     /\ (forall pid parent,
           parentFolder = Some pid -> findFile pid db = Some parent ->
           File.owner parent = userId ->
           resolvedPath db userId parentFolder name
           = File.path parent ++ "/" ++ name))
  /\
  (forall rawName (reqFile : Multer.file) used,
     Str.isEmpty (Str.trim rawName) = false ->
     (String.length (Str.trim rawName) <= 255)%nat ->
     usedBytes userId db = Some used ->
     used + Multer.size reqFile <= MAX_STORAGE ->
     Str.isEmpty (Str.trim (Multer.originalname reqFile)) = false ->
     Str.isEmpty (Multer.mimetype reqFile) = false ->
     0 <= Multer.size reqFile ->
     s3PutOk env (log db) (s3KeyOf env reqFile userId) = true ->
     (hasSibling db userId parentFolder (Str.trim rawName) type_folder = false ->
      exists db' folder,
        run env (createFolder userId rawName parentFolder) db =
        (db', Some (json 201 true "Folder created successfully" (PFolder folder))))
     /\
     (hasSibling db userId parentFolder (Str.trim rawName) type_file = false ->
      exists db' file,
        run env (uploadFile userId (Some reqFile) (Some (Str.trim rawName))
                   parentFolder) db =
        (db', Some (json 201 true "File uploaded successfully"
                      (PFile file (used + Multer.size reqFile)))))).
Proof.
  split; [intros; eapply createFolder_on_success; eassumption|].
  split; [intros; eapply uploadFile_on_success; eassumption|].
  split.
  - intros name. unfold resolvedPath. repeat split.
    + intros ->. reflexivity.
    + intros pid -> Hnone. now rewrite Hnone.
    + intros pid parent -> Hsome Hown. rewrite Hsome.
      apply Nat.eqb_neq in Hown. now rewrite Hown.
    + intros pid parent -> Hsome Hown. rewrite Hsome.
      apply Nat.eqb_eq in Hown. now rewrite Hown.
  - intros rawName reqFile used Hn Hl Hused Hfit Ho Hm Hs Hput.
    destruct (@usedBytes_find _ _ _ Hused) as (user & Hfind & Hu). subst used.
    pose proof (@uploadName_some reqFile _ Hn) as Hname.
    split.
    + intros Hsib. do 2 eexists. now apply run_createFolder_fresh.
    + intros Hsib. do 2 eexists.
      apply run_uploadFile_fresh with (user := user); auto.
      * now rewrite Hname, trim_idem.
      * unfold validUpload. rewrite Hname, trim_idem. auto.
Qed.

(** Alice's folder [" x "] under her own file /notes.txt is created with the
    path "/notes.txt/x". *)
Lemma create_resolves_path_witness :
  option_map File.type (findFile 101%nat db_three) = Some type_file
  /\ (exists db' folder,
        run env0 (createFolder alice " x " (Some 101%nat)) db_three =
        (db', Some (json 201 true "Folder created successfully" (PFolder folder))))
  /\ (forall db' r,
        run env0 (createFolder alice " x " (Some 101%nat)) db_three = (db', Some r) ->
        success r = true ->
        exists folder, payload r = PFolder folder
                       /\ File.path folder = "/notes.txt/x").
Proof.
  split; [reflexivity|].
  destruct (@create_resolves_path env0 db_three alice (Some 101%nat))
    as (Hpath & _ & _ & Hok).
  split.
  - destruct (Hok " x " report_pdf 500) as (Hfolder & _);
      [reflexivity | simpl; lia | reflexivity | vm_compute; discriminate
      | reflexivity | reflexivity | vm_compute; discriminate | reflexivity | ].
    exact (Hfolder eq_refl).
  - intros db' r Hrun Hsucc.
    destruct (Hpath " x " db' r Hrun) as (_ & _ & Hp).
    destruct (Hp Hsucc) as (folder & Hpay & _ & _ & Hfp).
    exists folder. split; [exact Hpay|]. rewrite Hfp. reflexivity.
Defined.

(** ** Requests on soft-deleted entries *)

(** C2 at the failing input: after Alice's /report.pdf (1000 bytes) was
    deleted, deleting it again does not answer 404: it answers 200 and
    releases the 1000 bytes a second time, which takes the counter from 500
    to 0 while /notes.txt (500 bytes) is still stored. *)
Theorem deleteEntry_twice :
  option_map File.isDeleted (findFile 100%nat db_two_deleted) = Some true
  /\ usedBytes alice db_two_deleted = Some 500
  /\ snd (run env0 (deleteEntry alice 100%nat 8) db_two_deleted)
     = Some (json 200 true "File/folder deleted successfully" (PStorage 0))
  /\ ~ answers NotFound (run env0 (deleteEntry alice 100%nat 8) db_two_deleted)
  /\ usedBytes alice (fst (run env0 (deleteEntry alice 100%nat 8) db_two_deleted))
     = Some 0.
Proof.
  repeat split.
  intros (r & Hr & Hk); vm_compute in Hr; injection Hr as <-; discriminate Hk.
Qed.

(** C6 at the failing input: the download of the soft-deleted /report.pdf
    does not answer 404: it answers 200 with a signed URL for the blob key
    that the delete has already removed from the object store. *)
Theorem getDownloadUrl_of_deleted :
  option_map File.isDeleted (findFile 100%nat db_two_deleted) = Some true
  /\ In (EvS3Delete "1/r-report.pdf") (log db_two_deleted)
  /\ snd (run env0 (getDownloadUrl alice 100%nat) db_two_deleted)
     = Some (json 200 true ""
               (PDownload "https://s3/1/r-report.pdf" (Some "report.pdf")))
  /\ ~ answers NotFound (run env0 (getDownloadUrl alice 100%nat) db_two_deleted).
Proof.
  repeat split.
  - vm_compute. tauto.
  - intros (r & Hr & Hk); vm_compute in Hr; injection Hr as <-; discriminate Hk.
Qed.

(** The parts of the error claims that hold on the code: an absent target
    is answered 404 and a target of another owner 403, in both cases without
    any change; the download of a folder is answered 400. *)
Lemma deleteEntry_error_kinds env db userId id now :
  (findFile id db = None ->
   answers NotFound (run env (deleteEntry userId id now) db)
   /\ fst (run env (deleteEntry userId id now) db) = db)
  /\
  (forall found, findFile id db = Some found -> File.owner found <> userId ->
   answers Forbidden (run env (deleteEntry userId id now) db)
   /\ fst (run env (deleteEntry userId id now) db) = db).
Proof.
  split.
  - intros H. rewrite (@run_deleteEntry_absent env _ userId _ now H).
    split; [|reflexivity]. eexists. split; reflexivity.
  - intros found H Hown.
    rewrite (@run_deleteEntry_foreign env _ _ _ now _ H Hown).
    split; [|reflexivity]. eexists. split; reflexivity.
Qed.

Lemma getDownloadUrl_error_kinds env db userId id :
  (findFile id db = None ->
   answers NotFound (run env (getDownloadUrl userId id) db))
  /\
  (forall found, findFile id db = Some found -> File.owner found <> userId ->
   answers Forbidden (run env (getDownloadUrl userId id) db))
  /\
  (forall found, findFile id db = Some found -> File.owner found = userId ->
   isFolder found = true ->
   answers InvalidKind (run env (getDownloadUrl userId id) db))
  /\
  (forall found key url, findFile id db = Some found -> File.owner found = userId ->
   isFolder found = false -> File.s3Key found = Some key ->
   signedUrl env key = Some url ->
   snd (run env (getDownloadUrl userId id) db)
   = Some (json 200 true "" (PDownload url (File.originalName found)))).
Proof.
  rewrite run_getDownloadUrl. repeat split.
  - intros ->. eexists. split; reflexivity.
  - intros found -> Hown. apply Nat.eqb_neq in Hown. rewrite Hown.
    eexists. split; reflexivity.
  - intros found -> Hown Hfolder. apply Nat.eqb_eq in Hown.
    rewrite Hown, Hfolder. eexists. split; [reflexivity|]. split; reflexivity.
  - intros found key url -> Hown Hfolder Hkey Hurl. apply Nat.eqb_eq in Hown.
    now rewrite Hown, Hfolder, Hkey, Hurl.
Qed.

(** ** The cascade of a folder delete *)

(** C3 at two failing inputs.  Deleting the folder /a.b also soft-deletes
    /aXb/notes.txt, whose path does not start with "/a.b/", and releases its
    500 bytes; deleting the folder /a+b leaves /a+b/notes.txt visible,
    although its path starts with "/a+b/". *)
Theorem cascade_pattern_not_escaped :
  (let db' := fst (run env0 (deleteEntry alice 100%nat 7) db_dot) in
   option_map File.path (findFile 100%nat db_dot) = Some "/a.b"
   /\ option_map File.path (findFile 102%nat db_dot) = Some "/aXb/notes.txt"
   /\ Str.startsWith "/a.b/" "/aXb/notes.txt" = false
   /\ option_map visible (findFile 102%nat db_dot) = Some true
   /\ option_map visible (findFile 102%nat db') = Some false
   /\ usedBytes alice db' = Some 0)
  /\
  (let db' := fst (run env0 (deleteEntry alice 100%nat 7) db_plus) in
   option_map File.path (findFile 100%nat db_plus) = Some "/a+b"
   /\ option_map File.path (findFile 101%nat db_plus) = Some "/a+b/notes.txt"
   /\ Str.startsWith "/a+b/" "/a+b/notes.txt" = true
   /\ option_map visible (findFile 100%nat db') = Some false
   /\ option_map visible (findFile 101%nat db') = Some true
   /\ usedBytes alice db' = Some 500).
Proof. repeat split. Qed.

(** X1: where the folder's path has no character that is special in a
    pattern, the delete marks exactly the target and the requester's visible
    entries under the prefix path + "/". *)
Theorem cascade_exact_on_plain_paths env db userId id now found used :
  regex env = Regex.compile ->
  findFile id db = Some found ->
  File.owner found = userId ->
  isFolder found = true ->
  Regex.noMeta (File.path found) = true ->
  uniqueIds (files db) = true ->
  usedBytes userId db = Some used ->
  files (fst (run env (deleteEntry userId id now) db))
  = map (fun f =>
           if (Nat.eqb (File._id f) id
               || (Nat.eqb (File.owner f) userId && visible f
                   && Str.startsWith (File.path found ++ "/") (File.path f)))%bool
           then File.markDeleted now f else f)
        (files db).
Proof.
  intros Hengine Hfound Hown Hfolder Hplain Huniq Hused.
  destruct (@usedBytes_find _ _ _ Hused) as (user & Huser & _).
  destruct (@compile_plain (File.path found ++ "/")) as (m & Hm & Hprefix).
  { rewrite noMeta_app, Hplain. reflexivity. }
  assert (Hre : regex env ("^" ++ File.path found ++ "/") = Some m)
    by (now rewrite Hengine).
  rewrite (@run_deleteEntry_folder env _ _ _ now _ _ m Hfound Hown Hfolder Hre Huser).
  cbn [fst files].
  pose proof Hfound as Hfound'. unfold findFile in Hfound'.
  destruct (@find_hasFile _ _ _ Hfound') as [Hid Hhas].
  rewrite saveFile_stored
    by (cbn [File.markDeleted File._id]; now rewrite Hid).
  rewrite map_map. apply map_ext_in. intros f Hin.
  cbn [File.markDeleted File._id]. rewrite Hid.
  destruct (Nat.eqb (File._id f) id) eqn:Hfid.
  - apply Nat.eqb_eq in Hfid.
    assert (f = found).
    { apply find_some in Hfound' as [Hin' _].
      apply (@uniqueIds_same _ _ _ Huniq Hin Hin'). congruence. }
    subst f. rewrite cascadeQuery_plain. unfold visible at 1.
    cbn [File.markDeleted File.isDeleted negb andb orb].
    rewrite andb_false_r. reflexivity.
  - rewrite cascadeQuery_plain, Hprefix. cbn [orb]. reflexivity.
Qed.

(** ** Failures of the object store during a delete *)

Section Cascade.
Variables (env : Env) (userId id : ObjectId) (now : Z) (found : File.t)
          (m : string -> bool).
Hypothesis Hre : regex env ("^" ++ File.path found ++ "/") = Some m.
Hypothesis Hfolder : isFolder found = true.
Hypothesis Hid : File._id found = id.

Let file := File.markDeleted now found.
Let q := fun f => (Query.plain (cascadeQuery userId (File.path found)) f
                   && m (File.path f))%bool.

Lemma cascadeMatch_eq f :
  cascadeMatch env userId found f
  = (Nat.eqb (File.owner f) userId && m (File.path f))%bool.
Proof. unfold cascadeMatch. now rewrite Hre. Qed.

Lemma childFiles_bytes fs :
  (forall f, In f fs -> File._id f = id -> f = found) ->
  sizesOk fs = true ->
  totalSizeOf
    (filter q (map (fun f => if Nat.eqb (File._id f) (File._id file) then file else f) fs))
  = fold_right
      (fun f acc =>
         if (visible f && isFile f && cascadeMatch env userId found f)%bool
         then File.size f + acc else acc) 0 fs
  /\ 0 <= totalSizeOf
      (filter q (map (fun f => if Nat.eqb (File._id f) (File._id file) then file else f) fs)).
Proof.
  induction fs as [|f fs IH]; intros Huniq Hok; [split; [reflexivity|cbv; discriminate]|].
  simpl in Hok. apply andb_true_iff in Hok as [Hf Hok].
  apply andb_true_iff in Hf as [Hpos Hzero]. apply Z.leb_le in Hpos.
  destruct IH as [IH IH0]; [intros g Hg; apply Huniq; now right|exact Hok|].
  cbn [map filter fold_right].
  change (File._id file) with (File._id found). rewrite Hid.
  destruct (Nat.eqb (File._id f) id) eqn:Hfid.
  - apply Nat.eqb_eq in Hfid. rewrite (Huniq f (or_introl eq_refl) Hfid).
    assert (Hq : q file = false).
    { unfold q. rewrite cascadeQuery_plain. unfold visible. simpl.
      now rewrite andb_false_r. }
    rewrite Hq.
    assert (Hnf : isFile found = false).
    { rewrite isFile_isFolder in Hfolder. now destruct (isFile found). }
    rewrite Hnf, andb_false_r. cbn [andb].
    change (File._id file) with (File._id found) in IH, IH0.
    rewrite Hid in IH, IH0. auto.
  - change (File._id file) with (File._id found) in IH, IH0.
    rewrite Hid in IH, IH0.
    rewrite cascadeMatch_eq.
    destruct (q f) eqn:Hq; unfold q in Hq; rewrite cascadeQuery_plain in Hq.
    + apply andb_true_iff in Hq as [Hq Hm]. apply andb_true_iff in Hq as [Ho Hv].
      rewrite Ho, Hv, Hm, totalSizeOf_cons. cbn [andb].
      rewrite isFile_isFolder in Hzero.
      destruct (isFile f); cbn [negb andb] in *.
      * split; lia.
      * apply Z.eqb_eq in Hzero. split; lia.
    + assert (Hc : (visible f && isFile f
                    && (Nat.eqb (File.owner f) userId && m (File.path f)))%bool = false).
      { destruct (Nat.eqb (File.owner f) userId), (visible f), (m (File.path f)),
          (isFile f); simpl in *; congruence. }
      rewrite Hc. auto.
Qed.
End Cascade.

Lemma scopeDeleted_after_save env userId now found fs us n l :
  isFolder found = false ->
  scopeDeleted env userId found
    (mkDb (saveFile (File.markDeleted now found) fs) us n l).
Proof.
  intros Hnf f Hin Hscope. unfold inScope in Hscope. rewrite Hnf in Hscope.
  cbn [andb] in Hscope. rewrite orb_false_r in Hscope.
  apply Nat.eqb_eq in Hscope. cbn [files] in Hin.
  now rewrite (@saveFile_same_id _ _ _ Hin Hscope).
Qed.

Lemma scopeDeleted_after_cascade env userId now found m fs us n l :
  regex env ("^" ++ File.path found ++ "/") = Some m ->
  let q := fun f => (Query.plain (cascadeQuery userId (File.path found)) f
                     && m (File.path f))%bool in
  scopeDeleted env userId found
    (mkDb (map (fun f => if q f then File.markDeleted now f else f)
               (saveFile (File.markDeleted now found) fs)) us n l).
Proof.
  intros Hre q f' Hin Hscope. cbn [files] in Hin.
  apply in_map_iff in Hin as (f & <- & Hin).
  destruct (q f) eqn:Hq; [reflexivity|].
  unfold inScope in Hscope. apply orb_true_iff in Hscope as [Hsame|Hcasc].
  - apply Nat.eqb_eq in Hsame. now rewrite (@saveFile_same_id _ _ _ Hin Hsame).
  - apply andb_true_iff in Hcasc as [_ Hcasc].
    unfold cascadeMatch in Hcasc. rewrite Hre in Hcasc.
    apply andb_true_iff in Hcasc as [Ho Hm].
    unfold q in Hq. rewrite cascadeQuery_plain, Ho, Hm in Hq.
    unfold visible in Hq. now destruct (File.isDeleted f).
Qed.

(** C8: when the object store fails some or all of the delete calls of a
    delete request, the request still answers 200 "File/folder deleted
    successfully"; no entry in scope stays visible; the counter is released
    by the full sum of the sizes of the files in scope (with the floor 0 of
    the release, so by exactly that sum when the counter covers it); and the
    whole run is the one of the store that fails nothing. *)
Theorem deleteEntry_blob_failures_suppressed env db userId id now found used :
  findFile id db = Some found ->
  File.owner found = userId ->
  usedBytes userId db = Some used ->
  0 <= used ->
  wellFormed db = true ->
  (isFolder found = true -> regex env ("^" ++ File.path found ++ "/") <> None) ->
  let bytes := scopeBytes env userId found db in
  forall deleteOk,
  exists db',
    run (withDeleteOk env deleteOk) (deleteEntry userId id now) db =
    (db', Some (json 200 true "File/folder deleted successfully"
                  (PStorage (Z.max 0 (used - bytes)))))
    /\ scopeDeleted env userId found db'
    /\ usedBytes userId db' = Some (Z.max 0 (used - bytes))
    /\ (bytes <= used -> usedBytes userId db' = Some (used - bytes))
    /\ run (withDeleteOk env deleteOk) (deleteEntry userId id now) db
       = run env (deleteEntry userId id now) db.
Proof.
  intros Hfound Hown Hused Hpos Hwf Hre bytes deleteOk.
  destruct (@usedBytes_find _ _ _ Hused) as (user & Huser & Hu).
  pose proof Hfound as Hfound'. unfold findFile in Hfound'.
  destruct (@find_hasFile _ _ _ Hfound') as [Hid Hhas].
  destruct (isFile found) eqn:Hfile.
  - (* a file *)
    assert (Hnf : isFolder found = false) by (now rewrite isFile_isFolder, Hfile).
    assert (Hb : bytes = File.size found)
      by (unfold bytes, scopeBytes; now rewrite Hfile).
    rewrite (@run_deleteEntry_file (withDeleteOk env deleteOk) _ _ _ now _ _
               Hfound Hown Hfile Huser).
    rewrite (@run_deleteEntry_file env _ _ _ now _ _ Hfound Hown Hfile Huser).
    rewrite Hb, Hu. eexists. split; [reflexivity|].
    split; [now apply scopeDeleted_after_save|].
    assert (Hnew : usedBytes userId
              (mkDb (saveFile (File.markDeleted now found) (files db))
                    (saveUser (User.withStorageUsed (Z.max 0 (used - File.size found)) user)
                              (users db))
                    (nextId db)
                    (log db ++ [EvFileSave (File.markDeleted now found);
                                EvUserSave (User.withStorageUsed
                                              (Z.max 0 (used - File.size found)) user)]
                       ++ blobLog (File.markDeleted now found)))
            = Some (Z.max 0 (used - File.size found))).
    { apply usedBytes_saveUser. apply (@find_user_id _ _ _ Huser). }
    split; [exact Hnew|]. split; [|reflexivity].
    intros Hle. rewrite Hnew. f_equal. lia.
  - (* a folder *)
    assert (Hfolder : isFolder found = true) by (now rewrite isFile_isFolder, Hfile).
    destruct (regex env ("^" ++ File.path found ++ "/")) as [m|] eqn:Hm;
      [|now elim (Hre Hfolder)].
    unfold wellFormed in Hwf. apply andb_true_iff in Hwf as [Huniq Hsizes].
    assert (Hone : forall f, In f (files db) -> File._id f = id -> f = found).
    { intros f Hin Hfid. apply find_some in Hfound' as [Hin' _].
      apply (@uniqueIds_same _ _ _ Huniq Hin Hin'). congruence. }
    destruct (@childFiles_bytes env userId id now found m Hm Hfolder Hid
                (files db) Hone Hsizes) as [Hsum Hnonneg].
    assert (Hhas' : hasFile (File._id (File.markDeleted now found)) (files db) = true)
      by (cbn [File.markDeleted File._id]; now rewrite Hid).
    rewrite <- (@saveFile_stored _ _ Hhas') in Hsum, Hnonneg.
    assert (Hb : bytes = totalSizeOf
              (filter (fun f => (Query.plain (cascadeQuery userId (File.path found)) f
                                 && m (File.path f))%bool)
                      (saveFile (File.markDeleted now found) (files db)))).
    { unfold bytes, scopeBytes. rewrite Hfile. symmetry. exact Hsum. }
    rewrite (@run_deleteEntry_folder (withDeleteOk env deleteOk) _ _ _ now _ _ m
               Hfound Hown Hfolder Hm Huser).
    rewrite (@run_deleteEntry_folder env _ _ _ now _ _ m Hfound Hown Hfolder Hm Huser).
    rewrite <- Hb, Hu. rewrite <- Hb in Hnonneg.
    destruct (0 <? bytes) eqn:Hlt.
    + eexists. split; [reflexivity|].
      split; [now apply scopeDeleted_after_cascade|].
      assert (Hnew : forall fs l,
                usedBytes userId
                  (mkDb fs (saveUser (User.withStorageUsed (Z.max 0 (used - bytes)) user)
                                     (users db)) (nextId db) l)
                = Some (Z.max 0 (used - bytes))).
      { intros. apply usedBytes_saveUser. apply (@find_user_id _ _ _ Huser). }
      split; [apply Hnew|]. split; [|reflexivity].
      intros Hle. rewrite Hnew. f_equal. lia.
    + apply Z.ltb_ge in Hlt. assert (bytes = 0) by lia.
      assert (Hmax : Z.max 0 (used - bytes) = used) by lia.
      rewrite Hmax. eexists. split; [reflexivity|].
      split; [now apply scopeDeleted_after_cascade|].
      assert (Hsame : forall fs l, usedBytes userId (mkDb fs (users db) (nextId db) l)
                                   = Some used).
      { intros. unfold usedBytes. cbn [users]. now rewrite Huser, <- Hu. }
      split; [apply Hsame|]. split; [|reflexivity].
      intros _. rewrite Hsame. f_equal. lia.
Qed.

Lemma deleteEntry_blob_failures_suppressed_witness :
  exists db',
    run (withDeleteOk env0 (fun _ _ => false)) (deleteEntry alice 100%nat 7) db_scenario =
    (db', Some (json 200 true "File/folder deleted successfully" (PStorage 500)))
    /\ scopeDeleted env0 alice docs_entry db'
    /\ usedBytes alice db' = Some 500.
Proof.
  destruct (@deleteEntry_blob_failures_suppressed env0 db_scenario alice 100%nat 7
              docs_entry 1500 eq_refl eq_refl eq_refl)
    with (deleteOk := fun (_ : list Event) (_ : string) => false)
    as (db' & Hrun & Hscope & Hused & _);
    [lia | reflexivity | discriminate | ].
  exists db'. split; [exact Hrun|]. split; [exact Hscope|exact Hused].
Defined.

(** ** Interrupted deletes: the marks come before the release *)

Lemma logExt_here Inv db : logExt Inv db -> Inv db.
Proof.
  intros H. specialize (H [] (Forall_nil _)). rewrite app_nil_r in H.
  now destruct db.
Qed.

Lemma logExt_app Inv db l :
  blobEvents l -> logExt Inv db ->
  logExt Inv (mkDb (files db) (users db) (nextId db) (log db ++ l)).
Proof.
  intros Hl H l' Hl'. cbn [files users nextId log]. rewrite <- app_assoc.
  apply H. apply Forall_app. now split.
Qed.

Lemma blobEvents_blobLog doc : blobEvents (blobLog doc).
Proof.
  unfold blobLog, blobEvents.
  destruct (isFile doc && truthy (File.s3Key doc))%bool;
    [destruct (File.s3Key doc)|]; repeat constructor.
Qed.

Lemma blobEvents_flat_map docs : blobEvents (flat_map blobLog docs).
Proof.
  induction docs as [|d ds IH]; simpl; [constructor|].
  apply Forall_app. split; [apply blobEvents_blobLog|exact IH].
Qed.

Lemma always_deleteBlob env Inv doc db :
  logExt Inv db -> always env Inv (deleteBlob doc) db.
Proof.
  intros H. pose proof (logExt_here H) as H0. unfold deleteBlob.
  destruct (isFile doc && truthy (File.s3Key doc))%bool;
    [destruct (File.s3Key doc) as [key|]|]; simpl; auto.
  split; [exact H0|].
  assert (H1 : Inv (logEvent (EvS3Delete key) db)).
  { apply H. repeat constructor. }
  destruct (s3DeleteOk env (log db) key); simpl; auto.
Qed.

Lemma always_forEach_deleteBlob env Inv docs db :
  logExt Inv db -> always env Inv (forEach docs deleteBlob) db.
Proof.
  revert db. induction docs as [|doc docs IH]; intros db H.
  - simpl. split; [now apply logExt_here|exact Logic.I].
  - cbn [forEach]. apply always_bind; [now apply always_deleteBlob|].
    intros db' a Hrun. rewrite run_deleteBlob in Hrun. injection Hrun as <- _.
    apply IH. apply logExt_app; [apply blobEvents_blobLog|exact H].
Qed.

Section MarksBeforeRelease.
Variables (env : Env) (db : Db) (userId id : ObjectId) (now : Z) (found : File.t).
Hypothesis Hfound : findFile id db = Some found.

Local Abbreviation Inv := (releasedImpliesMarked env db userId found).

Lemma Inv_quiet s : userSaves (log s) = userSaves (log db) -> Inv s.
Proof. intros H Hlt. lia. Qed.

Lemma Inv_done s : scopeDeleted env userId found s -> Inv s.
Proof. intros H _. exact H. Qed.

Lemma logExt_quiet s :
  userSaves (log s) = userSaves (log db) -> logExt Inv s.
Proof.
  intros H l Hl. apply Inv_quiet. cbn [log].
  rewrite userSaves_app, (userSaves_blobEvents Hl). lia.
Qed.

Lemma logExt_done s :
  scopeDeleted env userId found s -> logExt Inv s.
Proof. intros H l Hl. apply Inv_done. exact H. Qed.

Lemma always_deleteEntry : always env Inv (deleteEntry userId id now) db.
Proof.
  assert (H0 : Inv db) by (now apply Inv_quiet).
  unfold deleteEntry. apply always_tryCatch_ret.
  apply always_bind; [now apply always_call|].
  intros s0 a0 Hrun1. rewrite run_call in Hrun1. cbn [perform] in Hrun1.
  injection Hrun1 as <- <-.
  unfold findFile in Hfound. rewrite Hfound.
  destruct (negb (Nat.eqb (File.owner found) userId)); [now apply always_ret|].
  destruct (@find_hasFile _ _ _ Hfound) as [Hid Hhas].
  set (file := File.markDeleted now found).
  set (db1 := mkDb (saveFile file (files db)) (users db) (nextId db)
                   (log db ++ [EvFileSave file])).
  assert (Hsave : perform env (File_save file) db = (db1, Some tt)).
  { cbn [perform]. change (File._id file) with (File._id found).
    now rewrite Hid, Hhas. }
  assert (Hq1 : userSaves (log db1) = userSaves (log db)).
  { cbn [db1 log]. rewrite userSaves_app. simpl. lia. }
  apply always_bind.
  { apply always_call; [exact H0|]. rewrite Hsave. now apply Inv_quiet. }
  intros s1 a1 Hrun2. rewrite run_call, Hsave in Hrun2. injection Hrun2 as <- _.
  clear a1.
  destruct (isFile file) eqn:Hfile.
  - (* a file: the release follows the mark at once *)
    assert (Hnf : isFolder found = false).
    { rewrite isFile_isFolder. change (isFile found) with (isFile file).
      now rewrite Hfile. }
    assert (Hdone : forall us n l,
              scopeDeleted env userId found (mkDb (files db1) us n l)).
    { intros. now apply scopeDeleted_after_save. }
    apply always_bind.
    { apply always_bind; [apply always_loadUser; now apply Inv_quiet|].
      intros s2 user Hrun3. rewrite run_loadUser in Hrun3.
      injection Hrun3 as <- _.
      apply always_bind.
      - apply always_call; [now apply Inv_quiet|]. apply Inv_done, Hdone.
      - intros s3 a3 Hrun4. rewrite run_call in Hrun4. cbn [perform] in Hrun4.
        injection Hrun4 as <- _. apply always_ret, Inv_done, Hdone. }
    intros s updated1 Hrun5.
    assert (Hs : exists us l, s = mkDb (files db1) us (nextId db1) l).
    { rewrite run_bind, run_loadUser in Hrun5.
      destruct (find _ (users db1)) as [user|]; [|discriminate].
      rewrite run_bind, run_call in Hrun5. cbn [perform run] in Hrun5.
      injection Hrun5 as <- _. eauto. }
    destruct Hs as (us & l & ->).
    apply always_bind.
    { apply always_deleteBlob, logExt_done, Hdone. }
    intros s4 a4 Hrun6. rewrite run_deleteBlob in Hrun6. injection Hrun6 as <- _.
    cbn [files users nextId log].
    rewrite isFile_isFolder, Hfile. cbn [negb andb bind]. rewrite andb_false_r.
    cbn [bind]. apply always_ret, Inv_done, Hdone.
  - (* a folder: the cascade is marked before the release *)
    assert (Hfolder : isFolder file = true) by (now rewrite isFile_isFolder, Hfile).
    cbn [bind]. unfold deleteBlob at 1. rewrite Hfile, Hfolder. cbn [andb bind negb].
    change (File.path file) with (File.path found).
    set (pattern := "^" ++ File.path found ++ "/").
    set (cq := cascadeQuery userId (File.path found)).
    assert (Hcq : Query.compile (regex env) cq
                  = match regex env pattern with
                    | Some m => Some (fun f => (Query.plain cq f && m (File.path f))%bool)
                    | None => None
                    end) by reflexivity.
    destruct (regex env pattern) as [m|] eqn:Hre.
    2:{ (* the engine rejects the pattern: the find throws *)
        assert (Hthrow : perform env (File_find cq) db1 = (db1, None))
          by (cbn [perform]; now rewrite Hcq).
        apply always_bind.
        - apply always_bind.
          + apply always_call; [now apply Inv_quiet|].
            rewrite Hthrow. now apply Inv_quiet.
          + intros s2 a2 Hrun2. rewrite run_call, Hthrow in Hrun2. discriminate.
        - intros s2 a2 Hrun2. rewrite run_bind, run_call, Hthrow in Hrun2.
          discriminate. }
    set (q := fun f => (Query.plain cq f && m (File.path f))%bool) in *.
    set (childFiles := filter q (files db1)).
    set (fs2 := map (fun f => if q f then File.markDeleted now f else f) (files db1)).
    assert (Hfind : perform env (File_find cq) db1 = (db1, Some childFiles))
      by (cbn [perform]; now rewrite Hcq).
    assert (Hdone : forall us n l,
              scopeDeleted env userId found (mkDb fs2 us n l)).
    { intros. now apply scopeDeleted_after_cascade. }
    assert (Hupd : forall l,
              perform env (File_updateMany cq now)
                (mkDb (files db1) (users db1) (nextId db1) l)
              = (mkDb fs2 (users db1) (nextId db1) (l ++ [EvFileUpdateMany cq]),
                 Some tt))
      by (intros; cbn [perform]; now rewrite Hcq).
    apply always_bind.
    { apply always_bind.
      { apply always_call; [now apply Inv_quiet|].
        rewrite Hfind. now apply Inv_quiet. }
      intros s2 a2 Hrun2. rewrite run_call, Hfind in Hrun2.
      injection Hrun2 as <- <-.
      apply always_bind.
      { apply always_forEach_deleteBlob. now apply logExt_quiet. }
      intros s3 a3 Hrun3. rewrite run_forEach_deleteBlob in Hrun3.
      injection Hrun3 as <- _.
      apply always_bind.
      { apply always_call.
        - apply (@logExt_quiet db1 Hq1), blobEvents_flat_map.
        - rewrite Hupd. apply Inv_done, Hdone. }
      intros s4 a4 Hrun4. rewrite run_call, Hupd in Hrun4.
      injection Hrun4 as <- _.
      apply always_bind; [apply always_loadUser, Inv_done, Hdone|].
      intros s5 user Hrun5. rewrite run_loadUser in Hrun5.
      injection Hrun5 as <- _.
      apply always_bind; [|intros; apply always_ret].
      - destruct (0 <? totalSizeOf childFiles).
        + apply always_bind.
          * apply always_call; apply Inv_done, Hdone.
          * intros s6 a6 Hrun6. rewrite run_call in Hrun6.
            cbn [perform] in Hrun6. injection Hrun6 as <- _.
            apply always_ret, Inv_done, Hdone.
        + apply always_ret, Inv_done, Hdone.
      - match goal with H : run _ _ _ = (?s, Some _) |- _ =>
          assert (Hs : exists us l, s = mkDb fs2 us (nextId db1) l)
        end.
        { destruct (0 <? totalSizeOf childFiles).
          - rewrite run_bind, run_call in H. cbn [perform run] in H.
            injection H as <- _. eauto.
          - cbn [run] in H. injection H as <- _. eauto. }
        destruct Hs as (us & l & ->). apply Inv_done, Hdone. }
    intros s2 updated2 Hrun2.
    assert (Hs : exists us l, s2 = mkDb fs2 us (nextId db1) l).
    { rewrite run_bind, run_call, Hfind in Hrun2.
      rewrite run_bind, run_forEach_deleteBlob in Hrun2.
      rewrite run_bind, run_call, Hupd in Hrun2.
      rewrite run_bind, run_loadUser in Hrun2. cbn [users] in Hrun2.
      destruct (find _ (users db1)) as [user|]; [|discriminate].
      destruct (0 <? totalSizeOf childFiles).
      - rewrite !run_bind, run_call in Hrun2. cbn [perform run] in Hrun2.
        injection Hrun2 as <- _. eauto.
      - cbn [run bind] in Hrun2. injection Hrun2 as <- _. eauto. }
    destruct Hs as (us & l & ->).
    apply always_bind; [|intros; apply always_ret].
    + destruct ((updated2 =? 0) && true)%bool.
      * apply always_bind; [apply always_loadUser, Inv_done, Hdone|].
        intros s3 user Hrun3. rewrite run_loadUser in Hrun3.
        injection Hrun3 as <- _. apply always_ret, Inv_done, Hdone.
      * apply always_ret, Inv_done, Hdone.
    + match goal with H : run _ _ _ = (?s, Some _) |- _ =>
        assert (Hs : s = mkDb fs2 us (nextId db1) l)
      end.
      { destruct ((updated2 =? 0) && true)%bool.
        - rewrite run_bind, run_loadUser in H. cbn [users] in H.
          destruct (find _ us); [|discriminate].
          cbn [run] in H. now injection H as <- _.
        - cbn [run] in H. now injection H as <- _. }
      rewrite Hs. apply Inv_done, Hdone.
Qed.
End MarksBeforeRelease.

(** C9: at every interruption point of a delete request (after any number
    [n] of completed operations), if the release of the quota has been
    written (the log shows a new write of a user document, or the user's
    counter differs from its value at the start), then no entry in scope,
    the target and for a folder its cascade, is visible any more: the marks
    come before the release. *)
Theorem marks_before_release env db userId id now found n :
  findFile id db = Some found ->
  let db' := runN env n (deleteEntry userId id now) db in
  ((userSaves (log db) < userSaves (log db'))%nat ->
   scopeDeleted env userId found db')
  /\ (usedBytes userId db' <> usedBytes userId db ->
      scopeDeleted env userId found db').
Proof.
  intros Hfound db'.
  pose proof (@always_deleteEntry env db userId id now found Hfound) as Halways.
  pose proof (@always_runN env _ _ _ db n Halways) as Hinv. fold db' in Hinv.
  split; [exact Hinv|].
  intros Hused. apply Hinv.
  destruct (usersLogged_runN env (deleteEntry userId id now) n db) as [Hle Hsame].
  fold db' in Hle, Hsame.
  destruct (Nat.eq_dec (userSaves (log db')) (userSaves (log db))) as [Heq|Hne];
    [|lia].
  exfalso. apply Hused. unfold usedBytes. now rewrite (Hsame Heq).
Qed.

Lemma marks_before_release_witness :
  findFile 100%nat db_scenario = Some docs_entry
  /\ scopeDeleted env0 alice docs_entry
       (runN env0 7 (deleteEntry alice 100%nat 7) db_scenario).
Proof.
  split; [reflexivity|].
  apply (@marks_before_release env0 db_scenario alice 100%nat 7 docs_entry 7%nat
           eq_refl).
  vm_compute. discriminate.
Defined.

(** ** Accounting: the counter and the stored files *)

(** C1 at the failing input: after two uploads (1000 and 500 bytes) and two
    deletes of the first file, the counter is 0 while the non-deleted files
    of the user sum to 500. *)
Theorem usedBytes_drifts_on_second_delete :
  let db := serveAll env0
              (two_uploads ++ [ReqDelete alice 100%nat 7; ReqDelete alice 100%nat 8])
              db_start in
  usedBytes alice db = Some 0 /\ liveBytes alice (files db) = 500.
Proof. split; reflexivity. Qed.

Lemma hasFile_markWhere sel now id fs :
  hasFile id (markWhere sel now fs) = hasFile id fs.
Proof.
  unfold hasFile, markWhere. induction fs as [|f fs IH]; [reflexivity|].
  cbn [map existsb]. rewrite IH. now destruct (sel f).
Qed.

Lemma uniqueIds_markWhere sel now fs :
  uniqueIds (markWhere sel now fs) = uniqueIds fs.
Proof.
  induction fs as [|f fs IH]; [reflexivity|].
  change (markWhere sel now (f :: fs))
    with ((if sel f then File.markDeleted now f else f) :: markWhere sel now fs).
  cbn [uniqueIds]. rewrite IH, hasFile_markWhere. now destruct (sel f).
Qed.

Lemma sizesOk_markWhere sel now fs :
  sizesOk (markWhere sel now fs) = sizesOk fs.
Proof.
  unfold sizesOk, markWhere. induction fs as [|f fs IH]; [reflexivity|].
  cbn [map forallb]. rewrite IH. now destruct (sel f).
Qed.

Lemma forallb_markWhere (p : File.t -> bool) sel now fs :
  (forall f, p (File.markDeleted now f) = p f) ->
  forallb p (markWhere sel now fs) = forallb p fs.
Proof.
  intros Hp. unfold markWhere. induction fs as [|f fs IH]; [reflexivity|].
  cbn [map forallb]. rewrite IH. destruct (sel f); [now rewrite Hp|reflexivity].
Qed.

Lemma liveBytes_markWhere u sel now fs :
  liveBytes u (markWhere sel now fs) + markedBytes u sel fs = liveBytes u fs.
Proof.
  unfold markWhere. induction fs as [|f fs IH]; [reflexivity|].
  cbn [map liveBytes markedBytes fold_right].
  fold (liveBytes u (map (fun f => if sel f then File.markDeleted now f else f) fs)).
  fold (liveBytes u fs). fold (markedBytes u sel fs).
  destruct (sel f); cbn [andb].
  - unfold visible at 1. cbn [File.markDeleted File.isDeleted negb].
    rewrite andb_false_r.
    change (File.owner (File.markDeleted now f)) with (File.owner f).
    change (isFile (File.markDeleted now f)) with (isFile f).
    destruct (Nat.eqb (File.owner f) u && isFile f && visible f)%bool; lia.
  - destruct (Nat.eqb (File.owner f) u && isFile f && visible f)%bool; lia.
Qed.

Lemma liveBytes_nonneg u fs : sizesOk fs = true -> 0 <= liveBytes u fs.
Proof.
  unfold sizesOk. induction fs as [|f fs IH]; [cbn; lia|].
  cbn [forallb liveBytes fold_right]. intros H.
  apply andb_true_iff in H as [Hf H]. apply andb_true_iff in Hf as [Hpos _].
  apply Z.leb_le in Hpos. specialize (IH H). fold (liveBytes u fs).
  destruct (Nat.eqb (File.owner f) u && isFile f && visible f)%bool; lia.
Qed.

Lemma saveFile_mark_stored now found id fs :
  uniqueIds fs = true ->
  find (fun f => Nat.eqb (File._id f) id) fs = Some found ->
  saveFile (File.markDeleted now found) fs
  = markWhere (fun f => Nat.eqb (File._id f) id) now fs.
Proof.
  intros Huniq Hfound. destruct (@find_hasFile _ _ _ Hfound) as [Hid Hhas].
  rewrite saveFile_stored by (cbn [File.markDeleted File._id]; now rewrite Hid).
  apply map_ext_in. intros f Hin. cbn [File.markDeleted File._id]. rewrite Hid.
  destruct (Nat.eqb (File._id f) id) eqn:Hfid; [|reflexivity].
  apply Nat.eqb_eq in Hfid. apply find_some in Hfound as [Hin' _].
  rewrite (@uniqueIds_same _ _ _ Huniq Hin Hin'); congruence.
Qed.

Lemma markWhere_twice sel q now fs :
  (forall f, q (File.markDeleted now f) = false) ->
  markWhere q now (markWhere sel now fs)
  = markWhere (fun f => sel f || q f)%bool now fs.
Proof.
  intros Hq. unfold markWhere. rewrite map_map. apply map_ext. intros f.
  destruct (sel f); cbn [orb]; [now rewrite Hq|reflexivity].
Qed.

Lemma markedBytes_ext u sel sel' fs :
  (forall f, In f fs ->
     (sel f && Nat.eqb (File.owner f) u && isFile f && visible f
      = sel' f && Nat.eqb (File.owner f) u && isFile f && visible f)%bool) ->
  markedBytes u sel fs = markedBytes u sel' fs.
Proof.
  unfold markedBytes. induction fs as [|f fs IH]; intros H; [reflexivity|].
  cbn [fold_right]. rewrite (H f (or_introl eq_refl)), IH; [reflexivity|].
  intros g Hg. apply H. now right.
Qed.

Lemma markedBytes_none u sel fs :
  (forall f, In f fs ->
     (sel f && Nat.eqb (File.owner f) u && isFile f && visible f)%bool = false) ->
  markedBytes u sel fs = 0.
Proof.
  unfold markedBytes. induction fs as [|f fs IH]; intros H; [reflexivity|].
  cbn [fold_right]. rewrite (H f (or_introl eq_refl)). apply IH.
  intros g Hg. apply H. now right.
Qed.

Lemma markedBytes_one u id found fs :
  uniqueIds fs = true ->
  find (fun f => Nat.eqb (File._id f) id) fs = Some found ->
  markedBytes u (fun f => Nat.eqb (File._id f) id) fs
  = if (Nat.eqb (File.owner found) u && isFile found && visible found)%bool
    then File.size found else 0.
Proof.
  induction fs as [|f fs IH]; [discriminate|].
  cbn [uniqueIds find]. intros Hu Hfound.
  apply andb_true_iff in Hu as [Hf Hu]. apply negb_true_iff in Hf.
  unfold markedBytes. cbn [fold_right].
  fold (markedBytes u (fun f => Nat.eqb (File._id f) id) fs).
  destruct (Nat.eqb (File._id f) id) eqn:Hfid.
  - injection Hfound as ->. cbn [andb].
    apply Nat.eqb_eq in Hfid. rewrite Hfid in Hf.
    rewrite markedBytes_none.
    + destruct (Nat.eqb (File.owner found) u && isFile found && visible found)%bool; lia.
    + intros g Hg. now rewrite (@hasFile_false _ _ _ Hf Hg).
  - cbn [andb]. now apply IH.
Qed.

Lemma goodDb_mark db sel now us' l' userId :
  goodDb db ->
  (forall u, u <> userId -> markedBytes u sel (files db) = 0) ->
  (forall u, u <> userId ->
     usedBytes u (mkDb (files db) us' (nextId db) l') = usedBytes u db) ->
  (forall used', usedBytes userId (mkDb (files db) us' (nextId db) l') = Some used' ->
     used' = liveBytes userId (files db) - markedBytes userId sel (files db)) ->
  goodDb (mkDb (markWhere sel now (files db)) us' (nextId db) l').
Proof.
  intros (Hwf & Hids & Hquota) Hother Husers Hself.
  unfold goodDb, wellFormed, idsBelow. cbn [files nextId].
  rewrite uniqueIds_markWhere, sizesOk_markWhere, forallb_markWhere by reflexivity.
  repeat split; [exact Hwf|exact Hids|].
  intros u used Hused. cbn [files].
  pose proof (liveBytes_markWhere u sel now (files db)) as Hlive.
  destruct (Nat.eq_dec u userId) as [->|Hne].
  - specialize (Hself used Hused). lia.
  - rewrite (Hother u Hne) in Hlive.
    change (usedBytes u (mkDb (markWhere sel now (files db)) us' (nextId db) l'))
      with (usedBytes u (mkDb (files db) us' (nextId db) l')) in Hused.
    rewrite (Husers u Hne) in Hused. specialize (Hquota u used Hused). lia.
Qed.

Lemma markedBytes_cascade env userId id found m fs :
  regex env ("^" ++ File.path found ++ "/") = Some m ->
  isFolder found = true ->
  (forall f, In f fs -> File._id f = id -> f = found) ->
  markedBytes userId
    (fun f => Nat.eqb (File._id f) id
              || (Query.plain (cascadeQuery userId (File.path found)) f
                  && m (File.path f)))%bool fs
  = fold_right
      (fun f acc =>
         if (visible f && isFile f && cascadeMatch env userId found f)%bool
         then File.size f + acc else acc) 0 fs.
Proof.
  intros Hre Hfolder. unfold markedBytes.
  induction fs as [|f fs IH]; intros Hone; [reflexivity|].
  cbn [fold_right]. rewrite IH by (intros g Hg; apply Hone; now right).
  rewrite cascadeQuery_plain. unfold cascadeMatch. rewrite Hre.
  destruct (Nat.eqb (File._id f) id) eqn:Hfid.
  - apply Nat.eqb_eq in Hfid. rewrite (Hone f (or_introl eq_refl) Hfid).
    assert (Hnf : isFile found = false).
    { rewrite isFile_isFolder in Hfolder. now destruct (isFile found). }
    rewrite Hnf. rewrite !andb_false_r. cbn [andb]. reflexivity.
  - cbn [orb].
    destruct (Nat.eqb (File.owner f) userId), (visible f), (m (File.path f)),
      (isFile f); reflexivity.
Qed.

Lemma deleteEntry_preserves env db userId id now :
  goodDb db ->
  admissible db (ReqDelete userId id now) ->
  goodDb (fst (run env (deleteEntry userId id now) db)).
Proof.
  intros Hgood Hadm. cbn [admissible] in Hadm.
  destruct (findFile id db) as [found|] eqn:Hfound;
    [|now rewrite run_deleteEntry_absent].
  destruct (Nat.eq_dec (File.owner found) userId) as [Hown|Hown];
    [|now rewrite (@run_deleteEntry_foreign env _ _ _ now _ Hfound Hown)].
  pose proof Hgood as (Hwf & Hids & Hquota).
  unfold wellFormed in Hwf. apply andb_true_iff in Hwf as [Huniq Hsizes].
  pose proof Hfound as Hfound'. unfold findFile in Hfound'.
  destruct (@find_hasFile _ _ _ Hfound') as [Hid Hhas].
  assert (Hone : forall f, In f (files db) -> File._id f = id -> f = found).
  { intros f Hin Hfid. apply find_some in Hfound' as [Hin' _].
    apply (@uniqueIds_same _ _ _ Huniq Hin Hin'). congruence. }
  pose proof (@saveFile_mark_stored now _ _ _ Huniq Hfound') as Hsave.
  set (idsel := fun f : File.t => Nat.eqb (File._id f) id) in *.
  assert (Hother_id : forall u, u <> userId -> markedBytes u idsel (files db) = 0).
  { intros u Hne. unfold idsel. rewrite (@markedBytes_one u _ _ _ Huniq Hfound').
    rewrite Hown. apply not_eq_sym in Hne. apply Nat.eqb_neq in Hne.
    now rewrite Hne. }
  destruct (find (fun u => Nat.eqb (User._id u) userId) (users db)) as [user|] eqn:Huser.
  - (* the user document is stored *)
    assert (Hused : usedBytes userId db = Some (User.storageUsed user))
      by (unfold usedBytes; now rewrite Huser).
    pose proof (Hquota _ _ Hused) as Hlive.
    pose proof (@find_user_id _ _ _ Huser) as Huid.
    destruct (isFile found) eqn:Hfile.
    + rewrite (@run_deleteEntry_file env _ _ _ now _ _ Hfound Hown Hfile Huser).
      cbn [fst]. rewrite Hsave.
      apply goodDb_mark with (userId := userId); [exact Hgood|exact Hother_id| |].
      * intros u Hne. rewrite usedBytes_saveUser_other; [reflexivity|].
        cbn [User.withStorageUsed User._id]. congruence.
      * intros used' Hused'. rewrite usedBytes_saveUser in Hused' by exact Huid.
        injection Hused' as <-. cbn [User.withStorageUsed User.storageUsed].
        unfold idsel. rewrite (@markedBytes_one userId _ _ _ Huniq Hfound').
        apply Nat.eqb_eq in Hown. rewrite Hown, Hfile.
        unfold visible. rewrite (Hadm found eq_refl Hfile). cbn [negb andb].
        pose proof (liveBytes_markWhere userId idsel now (files db)) as Hsum.
        unfold idsel in Hsum.
        rewrite (@markedBytes_one userId _ _ _ Huniq Hfound'), Hown, Hfile in Hsum.
        unfold visible in Hsum. rewrite (Hadm found eq_refl Hfile) in Hsum.
        cbn [negb andb] in Hsum.
        assert (0 <= liveBytes userId
                       (markWhere (fun f => Nat.eqb (File._id f) id) now (files db))).
        { apply liveBytes_nonneg. now rewrite sizesOk_markWhere. }
        lia.
    + assert (Hfolder : isFolder found = true) by (now rewrite isFile_isFolder, Hfile).
      assert (Hzero : forall u, markedBytes u idsel (files db) = 0).
      { intros u. unfold idsel. rewrite (@markedBytes_one u _ _ _ Huniq Hfound').
        now rewrite Hfile, andb_false_r. }
      destruct (regex env ("^" ++ File.path found ++ "/")) as [m|] eqn:Hre.
      * rewrite (@run_deleteEntry_folder env _ _ _ now _ _ m
                   Hfound Hown Hfolder Hre Huser).
        cbn [fst]. rewrite Hsave.
        set (q := fun f => (Query.plain (cascadeQuery userId (File.path found)) f
                            && m (File.path f))%bool).
        change (map _ (markWhere idsel now (files db)))
          with (markWhere q now (markWhere idsel now (files db))).
        rewrite markWhere_twice.
        2:{ intros f. unfold q. rewrite cascadeQuery_plain. unfold visible.
            cbn [File.markDeleted File.isDeleted negb]. now rewrite andb_false_r. }
        destruct (@childFiles_bytes env userId id now found m Hre Hfolder Hid
                    (files db) Hone Hsizes) as [Hsum Hnonneg].
        assert (Hhas' : hasFile (File._id (File.markDeleted now found)) (files db) = true)
          by (cbn [File.markDeleted File._id]; now rewrite Hid).
        rewrite <- (@saveFile_stored _ _ Hhas'), Hsave in Hsum, Hnonneg.
        fold q in Hsum, Hnonneg.
        rewrite <- (@markedBytes_cascade env userId id found m _ Hre Hfolder Hone)
          in Hsum.
        fold idsel in Hsum. fold q in Hsum.
        set (total := totalSizeOf (filter q (markWhere idsel now (files db)))) in *.
        set (sel := fun f => (idsel f || q f)%bool) in *.
        apply goodDb_mark with (userId := userId); [exact Hgood| | |].
        -- intros u Hne. apply markedBytes_none. intros f Hin.
           unfold sel, idsel, q. rewrite cascadeQuery_plain.
           destruct (Nat.eqb (File._id f) id) eqn:Hfid.
           ++ apply Nat.eqb_eq in Hfid. rewrite (Hone f Hin Hfid), Hfile.
              now rewrite andb_false_r.
           ++ cbn [orb].
              destruct (Nat.eqb (File.owner f) userId) eqn:Ho; [|reflexivity].
              apply Nat.eqb_eq in Ho. rewrite Ho.
              apply not_eq_sym in Hne. apply Nat.eqb_neq in Hne. rewrite Hne.
              now rewrite !andb_false_r.
        -- intros u Hne. destruct (0 <? total).
           ++ rewrite usedBytes_saveUser_other; [reflexivity|].
              cbn [User.withStorageUsed User._id]. congruence.
           ++ reflexivity.
        -- intros used' Hused'.
           assert (Hsum' : total = markedBytes userId sel (files db)) by exact Hsum.
           assert (Hnonneg' : 0 <= total) by exact Hnonneg.
           pose proof (liveBytes_markWhere userId sel now (files db)) as Hlv.
           assert (0 <= liveBytes userId (markWhere sel now (files db))).
           { apply liveBytes_nonneg. now rewrite sizesOk_markWhere. }
           destruct (0 <? total) eqn:Htot.
           ++ rewrite usedBytes_saveUser in Hused' by exact Huid.
              injection Hused' as <-. cbn [User.withStorageUsed User.storageUsed].
              lia.
           ++ apply Z.ltb_ge in Htot.
              unfold usedBytes in Hused'. cbn [users] in Hused'.
              rewrite Huser in Hused'. cbn [option_map] in Hused'.
              injection Hused' as <-. lia.
      * rewrite (@run_deleteEntry_folder_rejected env _ _ _ now _
                   Hfound Hown Hfolder Hre).
        cbn [fst]. rewrite Hsave.
        apply goodDb_mark with (userId := userId); [exact Hgood|exact Hother_id| |].
        -- reflexivity.
        -- intros used' Hused'.
           change (usedBytes userId db = Some used') in Hused'.
           rewrite (Hzero userId). specialize (Hquota _ _ Hused'). lia.
  - (* no user document: the handler throws after the marks *)
    assert (Hnone : forall fs l used',
              usedBytes userId (mkDb fs (users db) (nextId db) l) = Some used' -> False).
    { intros fs l used' H. unfold usedBytes in H. cbn [users] in H.
      rewrite Huser in H. discriminate. }
    destruct (isFile found) eqn:Hfile.
    + rewrite (@run_deleteEntry_file_nouser env _ _ _ now _ Hfound Hown Hfile Huser).
      cbn [fst]. rewrite Hsave.
      apply goodDb_mark with (userId := userId); [exact Hgood|exact Hother_id| |].
      * reflexivity.
      * intros used' H. now elim (Hnone _ _ _ H).
    + assert (Hfolder : isFolder found = true) by (now rewrite isFile_isFolder, Hfile).
      destruct (regex env ("^" ++ File.path found ++ "/")) as [m|] eqn:Hre.
      * rewrite (@run_deleteEntry_folder_nouser env _ _ _ now _ m
                   Hfound Hown Hfolder Hre Huser).
        cbn [fst]. rewrite Hsave.
        set (q := fun f => (Query.plain (cascadeQuery userId (File.path found)) f
                            && m (File.path f))%bool).
        change (map _ (markWhere idsel now (files db)))
          with (markWhere q now (markWhere idsel now (files db))).
        rewrite markWhere_twice.
        2:{ intros f. unfold q. rewrite cascadeQuery_plain. unfold visible.
            cbn [File.markDeleted File.isDeleted negb]. now rewrite andb_false_r. }
        apply goodDb_mark with (userId := userId); [exact Hgood| | |].
        -- intros u Hne. apply markedBytes_none. intros f Hin.
           unfold idsel, q. rewrite cascadeQuery_plain.
           destruct (Nat.eqb (File._id f) id) eqn:Hfid.
           ++ apply Nat.eqb_eq in Hfid. rewrite (Hone f Hin Hfid), Hfile.
              now rewrite andb_false_r.
           ++ cbn [orb].
              destruct (Nat.eqb (File.owner f) userId) eqn:Ho; [|reflexivity].
              apply Nat.eqb_eq in Ho. rewrite Ho.
              apply not_eq_sym in Hne. apply Nat.eqb_neq in Hne. rewrite Hne.
              now rewrite !andb_false_r.
        -- reflexivity.
        -- intros used' H. now elim (Hnone _ _ _ H).
      * rewrite (@run_deleteEntry_folder_rejected env _ _ _ now _
                   Hfound Hown Hfolder Hre).
        cbn [fst]. rewrite Hsave.
        apply goodDb_mark with (userId := userId); [exact Hgood|exact Hother_id| |].
        -- reflexivity.
        -- intros used' H. now elim (Hnone _ _ _ H).
Qed.

Lemma idsBelow_fresh db :
  idsBelow db = true -> hasFile (nextId db) (files db) = false.
Proof.
  unfold idsBelow, hasFile. intros H.
  destruct (existsb _ (files db)) eqn:E; [|reflexivity].
  apply existsb_exists in E as (f & Hin & Hid).
  rewrite forallb_forall in H. specialize (H f Hin).
  apply Nat.eqb_eq in Hid. apply Nat.ltb_lt in H. lia.
Qed.

Lemma uniqueIds_snoc fs doc :
  uniqueIds fs = true -> hasFile (File._id doc) fs = false ->
  uniqueIds (fs ++ [doc]) = true.
Proof.
  induction fs as [|f fs IH]; intros Hu Hfresh; [reflexivity|].
  cbn [app uniqueIds] in *. apply andb_true_iff in Hu as [Hf Hu].
  unfold hasFile in Hfresh. cbn [existsb] in Hfresh.
  apply orb_false_iff in Hfresh as [Hfd Hfresh].
  rewrite hasFile_app, IH by assumption.
  apply negb_true_iff in Hf. rewrite Hf. unfold hasFile. cbn [existsb].
  rewrite Nat.eqb_sym, Hfd. reflexivity.
Qed.

Lemma liveBytes_snoc u fs doc :
  liveBytes u (fs ++ [doc])
  = liveBytes u fs
    + (if (Nat.eqb (File.owner doc) u && isFile doc && visible doc)%bool
       then File.size doc else 0).
Proof.
  unfold liveBytes. induction fs as [|f fs IH]; cbn [app fold_right].
  - destruct (Nat.eqb (File.owner doc) u && isFile doc && visible doc)%bool; lia.
  - rewrite IH.
    destruct (Nat.eqb (File.owner f) u && isFile f && visible f)%bool; lia.
Qed.

Lemma goodDb_same db n l :
  (nextId db <= n)%nat -> goodDb db ->
  goodDb (mkDb (files db) (users db) n l).
Proof.
  intros Hn (Hwf & Hids & Hquota). repeat split; [exact Hwf| |exact Hquota].
  unfold idsBelow in *. cbn [files nextId]. rewrite forallb_forall in *.
  intros f Hin. specialize (Hids f Hin). apply Nat.ltb_lt in Hids.
  apply Nat.ltb_lt. lia.
Qed.

Lemma goodDb_insert db doc us' l' :
  goodDb db ->
  File._id doc = nextId db ->
  0 <= File.size doc ->
  (isFolder doc = true -> File.size doc = 0) ->
  (forall u used',
     usedBytes u (mkDb (files db) us' (nextId db) l') = Some used' ->
     used' = liveBytes u (files db)
             + (if (Nat.eqb (File.owner doc) u && isFile doc && visible doc)%bool
                then File.size doc else 0)) ->
  goodDb (mkDb (files db ++ [doc]) us' (S (nextId db)) l').
Proof.
  intros (Hwf & Hids & Hquota) Hid Hpos Hzero Husers.
  unfold wellFormed in Hwf. apply andb_true_iff in Hwf as [Huniq Hsizes].
  pose proof (@idsBelow_fresh _ Hids) as Hfresh.
  repeat split.
  - unfold wellFormed. cbn [files]. rewrite uniqueIds_snoc; [|exact Huniq|now rewrite Hid].
    unfold sizesOk in *. rewrite forallb_app, Hsizes. cbn [forallb andb].
    apply Z.leb_le in Hpos. rewrite Hpos. cbn [andb].
    destruct (isFolder doc); [|reflexivity].
    rewrite (Hzero eq_refl). reflexivity.
  - unfold idsBelow in *. cbn [files nextId]. rewrite forallb_app.
    apply andb_true_iff. split.
    + rewrite forallb_forall in *. intros f Hin. specialize (Hids f Hin).
      apply Nat.ltb_lt in Hids. apply Nat.ltb_lt. lia.
    + cbn [forallb]. rewrite Hid, andb_true_r. apply Nat.ltb_lt. lia.
  - intros u used Hused. cbn [files]. rewrite liveBytes_snoc.
    apply Husers. exact Hused.
Qed.

Lemma saveFile_fresh doc db :
  idsBelow db = true -> File._id doc = nextId db ->
  saveFile doc (files db) = (files db ++ [doc])%list.
Proof.
  intros Hids Hid. unfold saveFile. now rewrite Hid, idsBelow_fresh.
Qed.

Lemma createFolder_preserves env db userId rawName parentFolder :
  goodDb db -> goodDb (fst (run env (createFolder userId rawName parentFolder) db)).
Proof.
  intros Hgood. pose proof Hgood as (Hwf & Hids & Hquota).
  unfold createFolder.
  destruct (Str.isEmpty (Str.trim rawName)); [exact Hgood|].
  rewrite run_tryCatch, run_bind, run_call, findOne_sibling, trim_idem.
  destruct (find _ (files db)); [exact Hgood|].
  rewrite run_bind, run_buildPath.
  rewrite run_bind, run_call. cbn [perform]. cbv beta iota.
  rewrite run_bind, run_call. cbn [perform logEvent nextId files users log].
  set (folder := File.construct (nextId db) _).
  assert (Hid : File._id folder = nextId db) by reflexivity.
  rewrite Hid, (@idsBelow_fresh _ Hids). cbn [orb].
  destruct (File.validate folder) eqn:Hv.
  - cbn [run fst]. rewrite (@saveFile_fresh _ _ Hids Hid).
    apply goodDb_insert; [exact Hgood|exact Hid|cbn; lia|reflexivity|].
    intros u used' Hused'.
    change (usedBytes u db = Some used') in Hused'.
    rewrite (Hquota _ _ Hused'). change (isFile folder) with false.
    rewrite andb_false_r. cbn [andb]. lia.
  - cbn [run fst]. apply goodDb_same; [lia|exact Hgood].
Qed.

Lemma uploadFile_preserves env db userId reqFile bodyName parentFolder :
  goodDb db ->
  goodDb (fst (run env (uploadFile userId reqFile bodyName parentFolder) db)).
Proof.
  intros Hgood. pose proof Hgood as (Hwf & Hids & Hquota).
  unfold uploadFile. destruct reqFile as [reqFile|]; [|exact Hgood].
  rewrite run_tryCatch, run_bind, run_loadUser.
  destruct (find _ (users db)) as [user|] eqn:Huser; [|exact Hgood].
  destruct (MAX_STORAGE <? _); [exact Hgood|].
  rewrite run_bind, run_call, findOne_sibling.
  destruct (find _ (files db)); [exact Hgood|].
  rewrite run_bind, run_buildPath.
  rewrite run_bind, run_call. cbn [perform].
  destruct (s3PutOk env (log db) _); cbv beta iota;
    [|cbn [run fst]; apply goodDb_same; [cbn; lia|exact Hgood]].
  rewrite run_bind, run_call. cbn [perform]. cbv beta iota.
  rewrite run_bind, run_call. cbn [perform logEvent nextId files users log].
  set (file := File.construct (nextId db) _).
  assert (Hid : File._id file = nextId db) by reflexivity.
  rewrite Hid, (@idsBelow_fresh _ Hids). cbn [orb].
  destruct (File.validate file) eqn:Hv;
    [|cbn [run fst]; apply goodDb_same; [lia|exact Hgood]].
  rewrite run_bind, run_call. cbn [perform run fst files users nextId log].
  rewrite (@saveFile_fresh _ _ Hids Hid), orZero_id.
  pose proof (@find_user_id _ _ _ Huser) as Huid.
  apply goodDb_insert; [exact Hgood|exact Hid|now apply validate_size|discriminate|].
  intros u used' Hused'.
  change (Nat.eqb (File.owner file) u) with (Nat.eqb userId u).
  change (isFile file) with true. change (visible file) with true.
  change (File.size file) with (Multer.size reqFile). cbn [andb].
  destruct (Nat.eqb userId u) eqn:Hu; cbn [andb].
  - apply Nat.eqb_eq in Hu. subst u.
    rewrite usedBytes_saveUser in Hused' by exact Huid.
    injection Hused' as <-. cbn [User.withStorageUsed User.storageUsed].
    assert (Hused : usedBytes userId db = Some (User.storageUsed user))
      by (unfold usedBytes; now rewrite Huser).
    rewrite (Hquota _ _ Hused). reflexivity.
  - apply Nat.eqb_neq in Hu.
    rewrite usedBytes_saveUser_other in Hused'
      by (cbn [User.withStorageUsed User._id]; congruence).
    change (usedBytes u db = Some used') in Hused'.
    rewrite (Hquota _ _ Hused'). lia.
Qed.

Lemma getDownloadUrl_preserves env db userId id :
  goodDb db -> goodDb (fst (run env (getDownloadUrl userId id) db)).
Proof.
  intros Hgood. rewrite run_getDownloadUrl.
  destruct (findFile id db) as [file|]; [|exact Hgood].
  destruct (negb _); [exact Hgood|].
  destruct (isFolder file); [exact Hgood|].
  destruct (File.s3Key file); [|exact Hgood].
  cbn [fst logEvent]. apply goodDb_same; [lia|exact Hgood].
Qed.

Lemma serve_preserves env db r :
  goodDb db -> admissible db r -> goodDb (serve env db r).
Proof.
  intros Hgood Hadm. destruct r as [u raw p|u reqFile body p|u id now|u id];
    cbn [serve].
  - now apply createFolder_preserves.
  - unfold uploadRoute. destruct (uploadSingle reqFile) as [code|reqFile'];
      [exact Hgood|].
    pose proof (uploadFile_preserves env u reqFile' body p Hgood) as H.
    destruct (run env (uploadFile u reqFile' body p) db) as [db' [r|]]; exact H.
  - now apply deleteEntry_preserves.
  - now apply getDownloadUrl_preserves.
Qed.

(** X2: the counter of every user equals the sum of the sizes of the
    user's non-deleted files after every sequence of requests in which no
    delete targets an already deleted file. *)
Theorem quota_invariant_preserved env rs db :
  goodDb db -> admissibleAll env db rs -> goodDb (serveAll env rs db).
Proof.
  revert db. induction rs as [|r rs IH]; intros db Hgood Hadm; [exact Hgood|].
  destruct Hadm as [Hr Hrs]. cbn [serveAll fold_left].
  apply IH; [now apply serve_preserves|exact Hrs].
Qed.

Lemma goodDb_start : goodDb db_start.
Proof.
  repeat split. intros u used. unfold usedBytes, db_start. cbn [users find].
  destruct (Nat.eqb _ u); [now intros [= <-]|].
  destruct (Nat.eqb _ u); [now intros [= <-]|discriminate].
Qed.

(** The scenario of the specification: after the folder /Docs, the upload of
    report.pdf (1000 bytes) under it and of notes.txt (500 bytes) at the
    root, the counter is 1500; deleting /Docs soft-deletes report.pdf, leaves
    notes.txt visible and takes the counter to 500. *)
Example scenario_of_the_specification :
  let db := serve env0 db_scenario (ReqDelete alice 100%nat 7) in
  usedBytes alice db_scenario = Some 1500
  /\ option_map File.path (findFile 101%nat db_scenario) = Some "/Docs/report.pdf"
  /\ usedBytes alice db = Some 500
  /\ option_map visible (findFile 100%nat db) = Some false
  /\ option_map visible (findFile 101%nat db) = Some false
  /\ option_map visible (findFile 102%nat db) = Some true.
Proof. repeat split. Qed.

(** The sequence of the scenario, with the delete of the folder, keeps the
    counters equal to the stored bytes. *)
Example scenario_keeps_the_invariant :
  goodDb (serve env0 db_scenario (ReqDelete alice 100%nat 7)).
Proof.
  apply serve_preserves.
  - apply quota_invariant_preserved; [apply goodDb_start|].
    repeat split.
  - intros found Hfound Hfile. vm_compute in Hfound.
    injection Hfound as <-. discriminate Hfile.
Defined.

(** ** The listing routes *)

Lemma run_populate env docs db :
  run env (populate docs) db = (db, Some (map (populated db) docs)).
Proof.
  induction docs as [|d rest IH]; simpl; auto.
  unfold populated at 1, findFile.
  destruct (File.parentFolder d) as [pid|]; simpl.
  - rewrite run_bind, IH. reflexivity.
  - rewrite run_bind, IH. reflexivity.
Qed.

Lemma ascii_compare_trans a b c o :
  Ascii.compare a b = o -> Ascii.compare b c = o -> Ascii.compare a c = o.
Proof.
  unfold Ascii.compare. intros H1 H2.
  destruct o.
  - apply N.compare_eq_iff in H1, H2. apply N.compare_eq_iff. congruence.
  - rewrite N.compare_lt_iff in *. lia.
  - rewrite N.compare_gt_iff in *. lia.
Qed.

Lemma string_compare_refl s : String.compare s s = Eq.
Proof.
  induction s as [|c s IH]; simpl; auto.
  unfold Ascii.compare. rewrite N.compare_refl. exact IH.
Qed.

Lemma string_compare_lt_trans a b c :
  String.compare a b = Lt -> String.compare b c = Lt -> String.compare a c = Lt.
Proof.
  revert b c. induction a as [|x a IH]; intros [|y b] [|z c]; simpl;
    try discriminate; auto.
  destruct (Ascii.compare x y) eqn:Hxy; try discriminate;
    destruct (Ascii.compare y z) eqn:Hyz; try discriminate; intros H1 H2.
  - rewrite (@ascii_compare_trans x y z Eq Hxy Hyz). eauto.
  - apply Ascii.compare_eq_iff in Hxy. subst y. rewrite Hyz. reflexivity.
  - apply Ascii.compare_eq_iff in Hyz. subst z. rewrite Hxy. reflexivity.
  - rewrite (@ascii_compare_trans x y z Lt Hxy Hyz). reflexivity.
Qed.

Lemma string_leb_trans a b c :
  String.leb a b = true -> String.leb b c = true -> String.leb a c = true.
Proof.
  unfold String.leb.
  destruct (String.compare a b) eqn:Hab; try discriminate;
    destruct (String.compare b c) eqn:Hbc; try discriminate; intros _ _.
  - apply String.compare_eq_iff in Hab, Hbc. subst. rewrite string_compare_refl.
    reflexivity.
  - apply String.compare_eq_iff in Hab. subst. rewrite Hbc. reflexivity.
  - apply String.compare_eq_iff in Hbc. subst. rewrite Hab. reflexivity.
  - rewrite (@string_compare_lt_trans a b c Hab Hbc). reflexivity.
Qed.

(** The sort key read as an order on entries. *)
Lemma sortLeb_listedBefore a b : sortLeb a b = true <-> listedBefore a b.
Proof.
  unfold sortLeb, sortCompare, listedBefore, isFolder, isFile.
  destruct (File.type a), (File.type b); simpl;
    fold (String.leb (File.name a) (File.name b));
    unfold String.leb; destruct (String.compare (File.name a) (File.name b));
    split; intros H; auto; try discriminate;
    try (destruct H as [[H1 H2]|[H1 H2]]; discriminate).
Qed.

Lemma listedBefore_total a b : listedBefore a b \/ listedBefore b a.
Proof.
  unfold listedBefore, isFolder, isFile.
  destruct (String.leb_total (File.name a) (File.name b)) as [H|H];
    destruct (File.type a), (File.type b); simpl; auto.
Qed.

Lemma listedBefore_trans a b c :
  listedBefore a b -> listedBefore b c -> listedBefore a c.
Proof.
  unfold listedBefore, isFolder, isFile.
  intros [[H1 H2]|[H1 H2]] [[H3 H4]|[H3 H4]];
    destruct (File.type a), (File.type b), (File.type c); simpl in *;
    try discriminate; auto;
    right; split; auto; eapply string_leb_trans; eauto.
Qed.

Lemma insertSorted_perm d l : Permutation (insertSorted d l) (d :: l).
Proof.
  induction l as [|x l IH]; simpl; auto.
  destruct (sortLeb d x); auto.
  rewrite IH. apply perm_swap.
Qed.

Lemma sortDocs_perm l : Permutation (sortDocs l) l.
Proof.
  induction l as [|d l IH]; simpl; auto.
  rewrite insertSorted_perm. auto.
Qed.

Lemma insertSorted_sorted d l :
  StronglySorted listedBefore l -> StronglySorted listedBefore (insertSorted d l).
Proof.
  induction 1 as [|x l Hs IH Hx]; simpl.
  - repeat constructor.
  - destruct (sortLeb d x) eqn:Hdx.
    + apply sortLeb_listedBefore in Hdx.
      constructor; [constructor; auto|].
      constructor; auto.
      eapply Forall_impl; [|exact Hx]. intros y Hy.
      eapply listedBefore_trans; eauto.
    + constructor; auto.
      eapply Permutation_Forall; [symmetry; apply insertSorted_perm|].
      constructor; auto.
      destruct (listedBefore_total d x) as [H|H]; auto.
      apply sortLeb_listedBefore in H. congruence.
Qed.

Lemma sortDocs_sorted l : StronglySorted listedBefore (sortDocs l).
Proof.
  induction l as [|d l IH]; simpl; [constructor|].
  apply insertSorted_sorted; auto.
Qed.

Lemma map_doc_populated db l : map Listed.doc (map (populated db) l) = l.
Proof. induction l as [|d l IH]; simpl; congruence. Qed.

Lemma run_findListing env q m db :
  Query.compile (regex env) q = Some m ->
  run env (findListing q) db
  = (db, Some (map (populated db) (sortDocs (filter m (files db))))).
Proof.
  intros Hq. unfold findListing.
  rewrite run_bind, run_call. cbn [perform]. rewrite Hq.
  apply run_populate.
Qed.

Lemma run_findListing_rejected env q db :
  Query.compile (regex env) q = None ->
  run env (findListing q) db = (db, None).
Proof.
  intros Hq. unfold findListing.
  rewrite run_bind, run_call. cbn [perform]. rewrite Hq. reflexivity.
Qed.

Lemma listQuery_inFolder userId parentFolder f :
  Query.plain (listQuery userId parentFolder) f = inFolder userId parentFolder f.
Proof.
  unfold Query.plain, listQuery, inFolder, visible, Query.field; simpl.
  rewrite (Nat.eqb_sym userId), (option_eqb_nat_sym parentFolder).
  destruct (Nat.eqb (File.owner f) userId),
    (option_eqb Nat.eqb (File.parentFolder f) parentFolder),
    (File.isDeleted f); reflexivity.
Qed.

Lemma run_listFiles env db userId parentFolder :
  run env (listFiles userId parentFolder) db
  = (db,
     Some match requestedFolder parentFolder with
          | Some folder =>
              Files (map (populated db)
                       (sortDocs (filter (inFolder userId folder) (files db))))
          | None => ListingError 500 "Server error while fetching files"
          end).
Proof.
  assert (Hlist : forall folder,
             run env
               (tryCatch
                  (files <- findListing (listQuery userId folder) ;;
                   Ret (Files files))
                  (Ret (ListingError 500 "Server error while fetching files"))) db
             = (db, Some (Files (map (populated db)
                           (sortDocs (filter (inFolder userId folder) (files db))))))).
  { intros folder. rewrite run_tryCatch, run_bind.
    rewrite (@run_findListing env (listQuery userId folder)
               (Query.plain (listQuery userId folder)) db eq_refl).
    simpl. rewrite (filter_ext _ _ (listQuery_inFolder userId folder)).
    reflexivity. }
  unfold listFiles, requestedFolder.
  destruct parentFolder as [p|]; [|apply Hlist].
  destruct (isNullText p); [apply Hlist|].
  destruct (castId p) as [id|]; [apply Hlist|reflexivity].
Qed.

(** X3: GET /api/files changes nothing in the database.  When the
    parentFolder parameter is absent, is the text 'null' or is a well-formed
    id, it lists, each entry once, exactly the requester's non-deleted
    entries whose parent is the requested folder (the root in the first two
    cases); for any other text the cast of the filter fails and the answer
    is 500. *)
Theorem listFiles_lists_the_folder env db userId parentFolder :
  match requestedFolder parentFolder with
  | Some folder =>
      exists l,
        run env (listFiles userId parentFolder) db = (db, Some (Files l))
        /\ Permutation (map Listed.doc l)
             (filter (inFolder userId folder) (files db))
  | None =>
      run env (listFiles userId parentFolder) db
      = (db, Some (ListingError 500 "Server error while fetching files"))
  end.
Proof.
  rewrite run_listFiles.
  destruct (requestedFolder parentFolder) as [folder|]; [|reflexivity].
  eexists. split; [reflexivity|].
  rewrite map_doc_populated. apply sortDocs_perm.
Qed.

Lemma run_listByPath env db userId param m :
  regex env ("^/" ++ param ++ "/") = Some m ->
  run env (listByPath userId param) db
  = (db, Some (Files (map (populated db)
       (sortDocs (filter (fun f => ownVisible userId f && m (File.path f))%bool
                    (files db)))))).
Proof.
  intros Hre. unfold listByPath. rewrite run_tryCatch, run_bind.
  rewrite (@run_findListing env (cascadeQuery userId ("/" ++ param))
             (fun f => (Query.plain (cascadeQuery userId ("/" ++ param)) f
                        && m (File.path f))%bool) db).
  - simpl. erewrite filter_ext; [reflexivity|].
    intros f. simpl. rewrite cascadeQuery_plain. reflexivity.
  - unfold Query.compile, cascadeQuery. cbn [Query.pathRegex].
    change ("^" ++ ("/" ++ param) ++ "/") with ("^/" ++ param ++ "/").
    rewrite Hre. reflexivity.
Qed.

Lemma run_listByPath_rejected env db userId param :
  regex env ("^/" ++ param ++ "/") = None ->
  run env (listByPath userId param) db
  = (db, Some (ListingError 500 "Server error while fetching files")).
Proof.
  intros Hre. unfold listByPath. rewrite run_tryCatch, run_bind.
  rewrite run_findListing_rejected; [reflexivity|].
  unfold Query.compile, cascadeQuery. cbn [Query.pathRegex].
  change ("^" ++ ("/" ++ param) ++ "/") with ("^/" ++ param ++ "/").
  rewrite Hre. reflexivity.
Qed.

(** X5: for a path without any character that is special in a pattern,
    GET /api/files/path/<param> lists exactly the requester's non-deleted
    entries whose path begins with /<param>/. *)
Theorem listByPath_on_plain_paths env db userId param :
  regex env = Regex.compile ->
  Regex.noMeta param = true ->
  exists l,
    run env (listByPath userId param) db = (db, Some (Files l))
    /\ Permutation (map Listed.doc l)
         (filter (fun f => ownVisible userId f
                           && Str.startsWith ("/" ++ param ++ "/") (File.path f))%bool
                 (files db)).
Proof.
  intros Hengine Hplain.
  destruct (@compile_plain ("/" ++ param ++ "/")) as (m & Hm & Hprefix).
  { change ("/" ++ param ++ "/") with ("/" ++ (param ++ "/")).
    rewrite !noMeta_app, Hplain. reflexivity. }
  assert (Hre : regex env ("^/" ++ param ++ "/") = Some m)
    by (rewrite Hengine; exact Hm).
  rewrite (@run_listByPath env db userId param m Hre).
  eexists. split; [reflexivity|].
  rewrite map_doc_populated.
  rewrite sortDocs_perm.
  erewrite filter_ext; [reflexivity|].
  intros f. cbv beta. rewrite Hprefix. reflexivity.
Qed.

Lemma listByPath_on_plain_paths_witness :
  exists l,
    run env0 (listByPath alice "Docs") db_scenario = (db_scenario, Some (Files l))
    /\ Permutation (map Listed.doc l)
         (filter (fun f => ownVisible alice f
                           && Str.startsWith ("/" ++ "Docs" ++ "/") (File.path f))%bool
                 (files db_scenario)).
Proof.
  apply (@listByPath_on_plain_paths env0 db_scenario alice "Docs");
    reflexivity.
Defined.

(** ** The effect of a request on the collections *)

Lemma perform_log env R (op : Op R) db :
  exists l, log (fst (perform env op db)) = (log db ++ l)%list.
Proof.
  destruct op; cbn [perform];
    try (exists []; rewrite app_nil_r; reflexivity).
  - destruct (Query.compile _ _); exists []; rewrite app_nil_r; reflexivity.
  - destruct (Query.compile _ _); exists []; rewrite app_nil_r; reflexivity.
  - destruct (_ || _)%bool; cbn [fst log]; eauto.
    exists []; rewrite app_nil_r; reflexivity.
  - destruct (Query.compile _ _); cbn [fst log]; eauto.
    exists []; rewrite app_nil_r; reflexivity.
  - cbn [fst log]. eauto.
  - cbn [fst logEvent log]. eauto.
  - destruct s3Key; cbn [fst logEvent log]; eauto.
    exists []; rewrite app_nil_r; reflexivity.
  - cbn [fst logEvent log]. eauto.
Qed.

Lemma run_log env A (p : Prog A) db :
  exists l, log (fst (run env p db)) = (log db ++ l)%list.
Proof.
  revert db. induction p as [a| |R op k IHk e IHe]; intros db; cbn [run].
  - exists []. now rewrite app_nil_r.
  - exists []. now rewrite app_nil_r.
  - destruct (perform_log env op db) as [l1 Hl1].
    destruct (perform env op db) as [db1 [r|]]; cbn [fst] in Hl1.
    + destruct (IHk r db1) as [l2 Hl2]. exists (l1 ++ l2)%list.
      now rewrite Hl2, Hl1, app_assoc.
    + destruct (IHe db1) as [l2 Hl2]. exists (l1 ++ l2)%list.
      now rewrite Hl2, Hl1, app_assoc.
Qed.

Lemma wasPut_app env l ext key : wasPut env l key -> wasPut env (l ++ ext) key.
Proof.
  intros (before & after & -> & Hok).
  exists before, (after ++ ext)%list. split; [|exact Hok].
  now rewrite <- app_assoc.
Qed.

Lemma wasPut_here env l key :
  s3PutOk env l key = true -> wasPut env (l ++ [EvS3Put key]) key.
Proof. intros Hok. exists l, []. split; [reflexivity|exact Hok]. Qed.

Lemma createFolder_Effect env db userId rawName parentFolder :
  idsBelow db = true ->
  Effect env userId db (fst (run env (createFolder userId rawName parentFolder) db)).
Proof.
  intros Hids.
  assert (Hquiet : Effect env userId db db) by (apply Quiet; auto).
  unfold createFolder.
  destruct (Str.isEmpty (Str.trim rawName)); [exact Hquiet|].
  rewrite run_tryCatch, run_bind, run_call, findOne_sibling, trim_idem.
  destruct (find _ (files db)); [exact Hquiet|].
  rewrite run_bind, run_buildPath.
  rewrite run_bind, run_call. cbn [perform]. cbv beta iota.
  rewrite run_bind, run_call. cbn [perform logEvent nextId files users log].
  set (folder := File.construct (nextId db) _).
  assert (Hid : File._id folder = nextId db) by reflexivity.
  rewrite Hid, (@idsBelow_fresh _ Hids). cbn [orb].
  destruct (File.validate folder) eqn:Hv.
  - cbn [run fst]. rewrite (@saveFile_fresh _ _ Hids Hid).
    apply FolderInserted with (doc := folder); reflexivity.
  - cbn [run fst]. apply Quiet; cbn; auto.
Qed.

Lemma uploadFile_Effect env db userId reqFile bodyName parentFolder :
  idsBelow db = true ->
  Effect env userId db
    (fst (run env (uploadFile userId reqFile bodyName parentFolder) db)).
Proof.
  intros Hids.
  assert (Hquiet : Effect env userId db db) by (apply Quiet; auto).
  unfold uploadFile. destruct reqFile as [reqFile|]; [|exact Hquiet].
  rewrite run_tryCatch, run_bind, run_loadUser.
  destruct (find _ (users db)) as [user|] eqn:Huser; [|exact Hquiet].
  destruct (MAX_STORAGE <? _) eqn:Hmax; [exact Hquiet|].
  apply Z.ltb_ge in Hmax.
  rewrite run_bind, run_call, findOne_sibling.
  destruct (find _ (files db)); [exact Hquiet|].
  rewrite run_bind, run_buildPath.
  rewrite run_bind, run_call. cbn [perform].
  destruct (s3PutOk env (log db) _) eqn:Hput; cbv beta iota;
    [|cbn [run fst]; apply Quiet; cbn; auto].
  rewrite run_bind, run_call. cbn [perform]. cbv beta iota.
  rewrite run_bind, run_call. cbn [perform logEvent nextId files users log].
  set (file := File.construct (nextId db) _).
  assert (Hid : File._id file = nextId db) by reflexivity.
  rewrite Hid, (@idsBelow_fresh _ Hids). cbn [orb].
  destruct (File.validate file) eqn:Hv;
    [|cbn [run fst]; apply Quiet; cbn; auto].
  rewrite run_bind, run_call. cbn [perform run fst files users nextId log].
  rewrite (@saveFile_fresh _ _ Hids Hid), orZero_id.
  apply FileInserted with (doc := file) (user := user)
                          (key := s3KeyOf env reqFile userId);
    try reflexivity; auto.
  - now apply validate_size.
  - cbn [log]. do 2 apply wasPut_app. now apply wasPut_here.
Qed.

Lemma getDownloadUrl_Effect env db userId id :
  Effect env userId db (fst (run env (getDownloadUrl userId id) db)).
Proof.
  assert (Hquiet : Effect env userId db db) by (apply Quiet; auto).
  rewrite run_getDownloadUrl.
  destruct (findFile id db) as [file|]; [|exact Hquiet].
  destruct (negb _); [exact Hquiet|].
  destruct (isFolder file); [exact Hquiet|].
  destruct (File.s3Key file); [|exact Hquiet].
  apply Quiet; cbn; auto.
Qed.

Lemma sizesOk_size fs f : sizesOk fs = true -> In f fs -> 0 <= File.size f.
Proof.
  unfold sizesOk. rewrite forallb_forall. intros H Hin.
  specialize (H f Hin). apply andb_true_iff in H as [H _]. lia.
Qed.

Lemma deleteEntry_Effect env db userId id now :
  structured db ->
  Effect env userId db (fst (run env (deleteEntry userId id now) db)).
Proof.
  intros [Hwf Hids].
  assert (Hquiet : Effect env userId db db) by (apply Quiet; auto).
  destruct (findFile id db) as [found|] eqn:Hfound;
    [|now rewrite run_deleteEntry_absent].
  destruct (Nat.eq_dec (File.owner found) userId) as [Hown|Hown];
    [|now rewrite (@run_deleteEntry_foreign env _ _ _ now _ Hfound Hown)].
  unfold wellFormed in Hwf. apply andb_true_iff in Hwf as [Huniq Hsizes].
  pose proof Hfound as Hfound'. unfold findFile in Hfound'.
  destruct (@find_hasFile _ _ _ Hfound') as [Hid Hhas].
  assert (Hin : In found (files db)) by (apply find_some in Hfound'; tauto).
  assert (Hone : forall f, In f (files db) -> File._id f = id -> f = found).
  { intros f Hf Hfid. apply (@uniqueIds_same _ _ _ Huniq Hf Hin). congruence. }
  pose proof (@saveFile_mark_stored now _ _ _ Huniq Hfound') as Hsave.
  set (idsel := fun f : File.t => Nat.eqb (File._id f) id) in *.
  assert (Hidsel : forall f, In f (files db) -> idsel f = true ->
                             File.owner f = userId).
  { intros f Hf Hsel. apply Nat.eqb_eq in Hsel. now rewrite (Hone f Hf Hsel). }
  destruct (isFile found) eqn:Hfile.
  - destruct (find (fun u => Nat.eqb (User._id u) userId) (users db))
      as [user|] eqn:Huser.
    + rewrite (@run_deleteEntry_file env _ _ _ now _ _ Hfound Hown Hfile Huser).
      cbn [fst]. rewrite Hsave.
      apply MarkedReleased with (sel := idsel) (now := now) (user := user)
                                (x := File.size found); auto.
      now apply (@sizesOk_size (files db)).
    + rewrite (@run_deleteEntry_file_nouser env _ _ _ now _ Hfound Hown Hfile Huser).
      cbn [fst]. rewrite Hsave.
      apply Marked with (sel := idsel) (now := now); auto.
  - assert (Hfolder : isFolder found = true) by (now rewrite isFile_isFolder, Hfile).
    destruct (regex env ("^" ++ File.path found ++ "/")) as [m|] eqn:Hre.
    2:{ rewrite (@run_deleteEntry_folder_rejected env _ _ _ now _
                   Hfound Hown Hfolder Hre).
        cbn [fst]. rewrite Hsave.
        apply Marked with (sel := idsel) (now := now); auto. }
    set (q := fun f => (Query.plain (cascadeQuery userId (File.path found)) f
                        && m (File.path f))%bool).
    assert (Htwice : markWhere q now (markWhere idsel now (files db))
                     = markWhere (fun f => idsel f || q f)%bool now (files db)).
    { apply markWhere_twice. intros f. unfold q. rewrite cascadeQuery_plain.
      unfold visible. cbn [File.markDeleted File.isDeleted negb].
      now rewrite andb_false_r. }
    assert (Hsel : forall f, In f (files db) -> (idsel f || q f)%bool = true ->
                             File.owner f = userId).
    { intros f Hf Hs. apply orb_true_iff in Hs as [Hs|Hs]; [now apply Hidsel|].
      unfold q in Hs. rewrite cascadeQuery_plain in Hs.
      apply andb_true_iff in Hs as [Hs _]. apply andb_true_iff in Hs as [Hs _].
      now apply Nat.eqb_eq in Hs. }
    destruct (find (fun u => Nat.eqb (User._id u) userId) (users db))
      as [user|] eqn:Huser.
    + rewrite (@run_deleteEntry_folder env _ _ _ now _ _ m
                 Hfound Hown Hfolder Hre Huser).
      cbn [fst]. rewrite Hsave.
      change (map _ (markWhere idsel now (files db)))
        with (markWhere q now (markWhere idsel now (files db))).
      rewrite Htwice.
      fold q.
      set (total := totalSizeOf (filter q (markWhere idsel now (files db)))).
      destruct (0 <? total) eqn:Htot.
      * apply Z.ltb_lt in Htot.
        apply MarkedReleased with (sel := fun f => (idsel f || q f)%bool)
                                  (now := now) (user := user) (x := total);
          auto. lia.
      * apply Marked with (sel := fun f => (idsel f || q f)%bool) (now := now);
          auto.
    + rewrite (@run_deleteEntry_folder_nouser env _ _ _ now _ m
                 Hfound Hown Hfolder Hre Huser).
      cbn [fst]. rewrite Hsave.
      change (map _ (markWhere idsel now (files db)))
        with (markWhere q now (markWhere idsel now (files db))).
      rewrite Htwice.
      apply Marked with (sel := fun f => (idsel f || q f)%bool) (now := now);
        auto.
Qed.

Lemma serve_Effect env db r :
  structured db -> Effect env (requester r) db (serve env db r).
Proof.
  intros Hs. pose proof Hs as [Hwf Hids].
  destruct r as [u raw p|u reqFile body p|u id now|u id]; cbn [serve requester].
  - now apply createFolder_Effect.
  - unfold uploadRoute. destruct (uploadSingle reqFile) as [code|reqFile'];
      [apply Quiet; auto|].
    pose proof (@uploadFile_Effect env db u reqFile' body p Hids) as H.
    destruct (run env (uploadFile u reqFile' body p) db) as [db' [r|]]; exact H.
  - now apply deleteEntry_Effect.
  - apply getDownloadUrl_Effect.
Qed.

Lemma Effect_structured env userId db db' :
  structured db -> Effect env userId db db' -> structured db'.
Proof.
  intros [Hwf Hids] Heff. pose proof (@idsBelow_fresh _ Hids) as Hfresh.
  unfold structured, wellFormed, idsBelow in *.
  apply andb_true_iff in Hwf as [Huniq Hsizes].
  assert (Hsnoc : forall doc n,
             File._id doc = nextId db -> 0 <= File.size doc ->
             (isFolder doc = true -> File.size doc = 0) ->
             n = S (nextId db) ->
             (uniqueIds (files db ++ [doc]) && sizesOk (files db ++ [doc]))%bool = true
             /\ forallb (fun f => Nat.ltb (File._id f) n) (files db ++ [doc]) = true).
  { intros doc n Hid Hsize Hfold ->. split.
    - apply andb_true_iff. split.
      + apply uniqueIds_snoc; auto. now rewrite Hid.
      + unfold sizesOk in *. rewrite forallb_app, Hsizes. cbn.
        destruct (isFolder doc).
        * rewrite (Hfold eq_refl). reflexivity.
        * rewrite andb_true_r, andb_true_r. now apply Z.leb_le.
    - rewrite forallb_app. apply andb_true_iff. split.
      + rewrite forallb_forall in *. intros f Hf. specialize (Hids f Hf).
        apply Nat.ltb_lt in Hids. apply Nat.ltb_lt. lia.
      + cbn [forallb]. rewrite Hid, andb_true_r. apply Nat.ltb_lt. lia. }
  destruct Heff as [Hf Hu Hn|doc Hf Hu Hn Hid Ho Hd Hfo Hsz Hk
                   |doc user key Hf Hfind Hu Hn Hid Ho Hd Hfi Hsz Hmax Hk Hlog
                   |sel now Hf Hu Hn Hsel|sel now user x Hf Hfind Hu Hn Hsel Hx].
  - rewrite Hf. split; [now rewrite Huniq, Hsizes|].
    rewrite forallb_forall in *. intros f Hin. specialize (Hids f Hin).
    apply Nat.ltb_lt in Hids. apply Nat.ltb_lt. lia.
  - rewrite Hf. apply Hsnoc; auto. lia.
  - rewrite Hf. apply Hsnoc; auto.
    intros Hfo. rewrite isFile_isFolder, Hfi in Hfo. discriminate.
  - rewrite Hf, Hn, uniqueIds_markWhere, sizesOk_markWhere, Huniq, Hsizes.
    split; [reflexivity|]. rewrite forallb_markWhere; auto.
  - rewrite Hf, Hn, uniqueIds_markWhere, sizesOk_markWhere, Huniq, Hsizes.
    split; [reflexivity|]. rewrite forallb_markWhere; auto.
Qed.

Lemma serve_structured env db r : structured db -> structured (serve env db r).
Proof.
  intros Hs. apply (@Effect_structured env (requester r) db); [exact Hs|].
  now apply serve_Effect.
Qed.

Lemma serveAll_structured env rs db :
  structured db -> structured (serveAll env rs db).
Proof.
  revert db. induction rs as [|r rs IH]; intros db Hs; [exact Hs|].
  cbn [serveAll fold_left]. apply IH. now apply serve_structured.
Qed.

Lemma Forall_saveUser (P : User.t -> Prop) u us :
  Forall P us -> P u -> Forall P (saveUser u us).
Proof.
  intros Hus Hu. unfold saveUser. destruct (existsb _ us).
  - induction Hus as [|v us Hv _ IH]; cbn; constructor; auto.
    now destruct (Nat.eqb (User._id v) (User._id u)).
  - apply Forall_app. split; auto.
Qed.

Lemma Effect_withinQuota env userId db db' :
  withinQuota db -> Effect env userId db db' -> withinQuota db'.
Proof.
  unfold withinQuota. intros Hq Heff.
  assert (Huser : forall user,
             find (fun u => Nat.eqb (User._id u) userId) (users db) = Some user ->
             0 <= User.storageUsed user <= MAX_STORAGE).
  { intros user Hfind. apply find_some in Hfind as [Hin _].
    rewrite Forall_forall in Hq. now apply Hq. }
  destruct Heff as [Hf Hu Hn|doc Hf Hu Hn Hid Ho Hd Hfo Hsz Hk
                   |doc user key Hf Hfind Hu Hn Hid Ho Hd Hfi Hsz Hmax Hk Hlog
                   |sel now Hf Hu Hn Hsel|sel now user x Hf Hfind Hu Hn Hsel Hx];
    rewrite Hu; auto.
  - apply Forall_saveUser; auto. cbn [User.withStorageUsed User.storageUsed].
    specialize (Huser _ Hfind). lia.
  - apply Forall_saveUser; auto. cbn [User.withStorageUsed User.storageUsed].
    specialize (Huser _ Hfind). lia.
Qed.

(** X6: whatever the requests, repeated deletes included, every counter
    stays between 0 and the quota of 15 GB, ids stay unique and sizes stay
    non-negative. *)
Theorem counters_stay_within_quota env rs db :
  structured db -> withinQuota db ->
  structured (serveAll env rs db) /\ withinQuota (serveAll env rs db).
Proof.
  revert db. induction rs as [|r rs IH]; intros db Hs Hq; [now split|].
  cbn [serveAll fold_left]. apply IH.
  - now apply serve_structured.
  - apply (@Effect_withinQuota env (requester r) db); [exact Hq|].
    now apply serve_Effect.
Qed.

Lemma counters_stay_within_quota_witness :
  let rs := (two_uploads ++ [ReqDelete alice 100%nat 7; ReqDelete alice 100%nat 8])%list in
  structured (serveAll env0 rs db_start) /\ withinQuota (serveAll env0 rs db_start).
Proof.
  apply counters_stay_within_quota.
  - split; reflexivity.
  - repeat constructor; cbn [User.storageUsed]; unfold MAX_STORAGE; lia.
Defined.

Lemma othersFiles_markWhere userId sel now fs :
  (forall f, In f fs -> sel f = true -> File.owner f = userId) ->
  filter (fun f => negb (Nat.eqb (File.owner f) userId)) (markWhere sel now fs)
  = filter (fun f => negb (Nat.eqb (File.owner f) userId)) fs.
Proof.
  induction fs as [|f fs IH]; intros Hsel; [reflexivity|].
  cbn [markWhere map filter].
  fold (markWhere sel now fs).
  rewrite IH by (intros g Hg; apply Hsel; now right).
  destruct (sel f) eqn:Hf; [|reflexivity].
  cbn [File.markDeleted File.owner].
  rewrite (Hsel f (or_introl eq_refl) Hf), Nat.eqb_refl. reflexivity.
Qed.

Lemma othersFiles_snoc userId fs doc :
  File.owner doc = userId ->
  filter (fun f => negb (Nat.eqb (File.owner f) userId)) (fs ++ [doc])
  = filter (fun f => negb (Nat.eqb (File.owner f) userId)) fs.
Proof.
  intros Ho. rewrite filter_app. cbn [filter]. rewrite Ho, Nat.eqb_refl.
  cbn [negb]. apply app_nil_r.
Qed.

Lemma Effect_others env userId db db' :
  Effect env userId db db' ->
  othersFiles userId db' = othersFiles userId db
  /\ forall v, v <> userId -> usedBytes v db' = usedBytes v db.
Proof.
  assert (Hsave : forall user w v,
             find (fun u => Nat.eqb (User._id u) userId) (users db) = Some user ->
             users db' = saveUser (User.withStorageUsed w user) (users db) ->
             v <> userId -> usedBytes v db' = usedBytes v db).
  { intros user w v Hfind Hu Hv. unfold usedBytes. rewrite Hu.
    rewrite find_saveUser_other; [reflexivity|].
    cbn [User.withStorageUsed User._id].
    rewrite (@find_user_id _ _ _ Hfind). congruence. }
  unfold othersFiles.
  intros [Hf Hu Hn|doc Hf Hu Hn Hid Ho Hd Hfo Hsz Hk
         |doc user key Hf Hfind Hu Hn Hid Ho Hd Hfi Hsz Hmax Hk Hlog
         |sel now Hf Hu Hn Hsel|sel now user x Hf Hfind Hu Hn Hsel Hx];
    rewrite Hf; split;
    try (now apply othersFiles_snoc);
    try (now apply othersFiles_markWhere);
    try reflexivity;
    try (intros v Hv; unfold usedBytes; now rewrite Hu);
    try (intros v Hv; eapply Hsave; eauto).
Qed.

(** X7: a request changes neither the entries nor the counter of any user
    other than the requester. *)
Theorem requests_leave_other_users_alone env db r :
  structured db ->
  othersFiles (requester r) (serve env db r) = othersFiles (requester r) db
  /\ forall v, v <> requester r -> usedBytes v (serve env db r) = usedBytes v db.
Proof. intros Hs. apply (@Effect_others env). now apply serve_Effect. Qed.

Lemma requests_leave_other_users_alone_witness :
  let r := ReqDelete alice 100%nat 7 in
  othersFiles (requester r) (serve env0 db_three r) = othersFiles (requester r) db_three
  /\ forall v, v <> requester r ->
               usedBytes v (serve env0 db_three r) = usedBytes v db_three.
Proof.
  apply (@requests_leave_other_users_alone env0 db_three (ReqDelete alice 100%nat 7)).
  split; reflexivity.
Defined.

Lemma keeps_refl db : keeps db db.
Proof. intros f Hf. exists f. auto. Qed.

Lemma keeps_trans a b c : keeps a b -> keeps b c -> keeps a c.
Proof.
  intros Hab Hbc f Hf.
  destruct (Hab f Hf) as (g & Hg & Hfg & Hdel).
  destruct (Hbc g Hg) as (h & Hh & Hgh & Hdel').
  exists h. repeat split; auto. congruence.
Qed.

Lemma Effect_keeps env userId db db' : Effect env userId db db' -> keeps db db'.
Proof.
  assert (Hmark : forall sel now,
             files db' = markWhere sel now (files db) -> keeps db db').
  { intros sel now Hf f Hin. rewrite Hf.
    exists (if sel f then File.markDeleted now f else f). split.
    - unfold markWhere. apply (in_map (fun f => if sel f then File.markDeleted now f else f)).
      exact Hin.
    - destruct (sel f); auto. }
  assert (Hsnoc : forall doc,
             files db' = (files db ++ [doc])%list -> keeps db db').
  { intros doc Hf f Hin. rewrite Hf. exists f. rewrite in_app_iff. auto. }
  intros [Hf Hu Hn|doc Hf Hu Hn Hid Ho Hd Hfo Hsz Hk
         |doc user key Hf Hfind Hu Hn Hid Ho Hd Hfi Hsz Hmax Hk Hlog
         |sel now Hf Hu Hn Hsel|sel now user x Hf Hfind Hu Hn Hsel Hx];
    eauto.
  intros f Hin. rewrite Hf. exists f. auto.
Qed.

(** X8: no request removes an entry or changes its name, type, size, path,
    key, parent or owner, and no request makes a deleted entry visible
    again. *)
Theorem entries_are_never_removed env rs db :
  structured db -> keeps db (serveAll env rs db).
Proof.
  revert db. induction rs as [|r rs IH]; intros db Hs; [apply keeps_refl|].
  cbn [serveAll fold_left].
  apply keeps_trans with (b := serve env db r).
  - apply (@Effect_keeps env (requester r) db). now apply serve_Effect.
  - apply IH. now apply serve_structured.
Qed.

Lemma entries_are_never_removed_witness :
  keeps db_two
    (serveAll env0 [ReqDelete alice 100%nat 7; ReqDelete alice 100%nat 8;
                    ReqUpload alice (Some report_pdf) None None] db_two).
Proof.
  apply entries_are_never_removed. split; reflexivity.
Defined.

Lemma serve_log env db r : exists l, log (serve env db r) = (log db ++ l)%list.
Proof.
  destruct r as [u raw p|u reqFile body p|u id now|u id]; cbn [serve];
    try apply run_log.
  unfold uploadRoute. destruct (uploadSingle reqFile) as [code|reqFile'].
  - exists []. cbn. now rewrite app_nil_r.
  - pose proof (run_log env (uploadFile u reqFile' body p) db) as H.
    destruct (run env (uploadFile u reqFile' body p) db) as [db' [r|]]; exact H.
Qed.

Lemma Effect_blobBacked env userId db db' :
  (exists l, log db' = (log db ++ l)%list) ->
  blobBacked env db -> Effect env userId db db' -> blobBacked env db'.
Proof.
  intros [l Hl] Hb Heff.
  assert (Hold : forall f key, In f (files db) -> File.s3Key f = Some key ->
                               wasPut env (log db') key).
  { intros f key Hin Hk. rewrite Hl. apply wasPut_app. eapply Hb; eauto. }
  assert (Hmark : forall sel now,
             files db' = markWhere sel now (files db) -> blobBacked env db').
  { intros sel now Hf f key Hin Hk. rewrite Hf in Hin.
    unfold markWhere in Hin. apply in_map_iff in Hin as (g & Hg & Hin).
    apply (Hold g key Hin). subst f. destruct (sel g); auto. }
  destruct Heff as [Hf Hu Hn|doc Hf Hu Hn Hid Ho Hd Hfo Hsz Hk
         |doc user key Hf Hfind Hu Hn Hid Ho Hd Hfi Hsz Hmax Hk Hlog
         |sel now Hf Hu Hn Hsel|sel now user x Hf Hfind Hu Hn Hsel Hx];
    eauto.
  - intros f key Hin Hkey. rewrite Hf in Hin. eauto.
  - intros f key' Hin Hkey. rewrite Hf, in_app_iff in Hin.
    destruct Hin as [Hin|[<-|[]]]; eauto. congruence.
  - intros f key' Hin Hkey. rewrite Hf, in_app_iff in Hin.
    destruct Hin as [Hin|[<-|[]]]; eauto. congruence.
Qed.

(** X9: every key a stored entry refers to was put to the object store and
    the store accepted the put: the entry of an upload is written only after
    [uploadFileToS3] has returned its key. *)
Theorem stored_blobs_were_put env rs db :
  structured db -> blobBacked env db -> blobBacked env (serveAll env rs db).
Proof.
  revert db. induction rs as [|r rs IH]; intros db Hs Hb; [exact Hb|].
  cbn [serveAll fold_left]. apply IH.
  - now apply serve_structured.
  - eapply Effect_blobBacked; [apply serve_log|exact Hb|].
    now apply serve_Effect.
Qed.

Lemma stored_blobs_were_put_witness :
  blobBacked env0 (serveAll env0 two_uploads db_start).
Proof.
  apply stored_blobs_were_put.
  - split; reflexivity.
  - intros f key [].
Defined.

(** ** Successful requests in closed form *)

Lemma find_saveFile doc fs :
  find (fun f => Nat.eqb (File._id f) (File._id doc)) (saveFile doc fs) = Some doc.
Proof.
  unfold saveFile. destruct (hasFile (File._id doc) fs) eqn:Hhas.
  - unfold hasFile in Hhas. induction fs as [|f fs IH]; [discriminate|].
    cbn [existsb] in Hhas. cbn [map find].
    destruct (Nat.eqb (File._id f) (File._id doc)) eqn:Hf.
    + now rewrite Nat.eqb_refl.
    + rewrite Hf. apply IH. exact Hhas.
  - unfold hasFile in Hhas. induction fs as [|f fs IH].
    + cbn. now rewrite Nat.eqb_refl.
    + cbn [existsb] in Hhas. apply orb_false_iff in Hhas as [Hf Hrest].
      cbn [app find]. rewrite Hf. now apply IH.
Qed.

Lemma uploadFile_created env db userId reqFile bodyName parentFolder db' r :
  run env (uploadFile userId reqFile bodyName parentFolder) db = (db', Some r) ->
  status r = 201%nat ->
  exists f user,
    reqFile = Some f
    /\ find (fun u => Nat.eqb (User._id u) userId) (users db) = Some user
    /\ User.storageUsed user + Multer.size f <= MAX_STORAGE
    /\ hasSibling db userId parentFolder (Str.trim (uploadName f bodyName)) type_file
       = false
    /\ s3PutOk env (log db) (s3KeyOf env f userId) = true
    /\ let key := s3KeyOf env f userId in
       let file := File.construct (nextId db)
         (fileFields userId f (uploadName f bodyName)
            (resolvedPath db userId parentFolder (uploadName f bodyName))
            key parentFolder) in
       let user' := User.withStorageUsed (User.storageUsed user + Multer.size f) user in
       db' = mkDb (saveFile file (files db)) (saveUser user' (users db))
                  (S (nextId db))
                  (log db ++ [EvS3Put key; EvFileSave file; EvUserSave user'])
       /\ r = json 201 true "File uploaded successfully"
                (PFile file (User.storageUsed user + Multer.size f)).
Proof.
  unfold uploadFile. destruct reqFile as [reqFile|];
    [|cbn; intros H; injection H as _ <-; discriminate].
  rewrite run_tryCatch, run_bind, run_loadUser.
  destruct (find _ (users db)) as [user|] eqn:Huser;
    [|cbn; intros H; injection H as _ <-; discriminate].
  destruct (MAX_STORAGE <? _) eqn:Hmax;
    [cbn; intros H; injection H as _ <-; discriminate|].
  apply Z.ltb_ge in Hmax.
  rewrite run_bind, run_call, findOne_sibling.
  destruct (find _ (files db)) eqn:Hsib;
    [cbn; intros H; injection H as _ <-; discriminate|].
  rewrite run_bind, run_buildPath.
  rewrite run_bind, run_call. cbn [perform].
  destruct (s3PutOk env (log db) _) eqn:Hput; cbv beta iota;
    [|cbn; intros H; injection H as _ <-; discriminate].
  rewrite run_bind, run_call. cbn [perform]. cbv beta iota.
  rewrite run_bind, run_call. cbn [perform logEvent nextId files users log].
  set (file := File.construct (nextId db) _).
  destruct (_ || _)%bool;
    [|cbn; intros H; injection H as _ <-; discriminate].
  rewrite run_bind, run_call. cbn [perform run fst files users nextId log].
  rewrite orZero_id. intros H _. injection H as <- <-.
  exists reqFile, user. repeat split; auto.
  - unfold hasSibling. apply find_none_existsb. exact Hsib.
  - rewrite <- !app_assoc. reflexivity.
Qed.

Lemma createFolder_created env db userId rawName parentFolder db' r :
  run env (createFolder userId rawName parentFolder) db = (db', Some r) ->
  status r = 201%nat ->
  let name := Str.trim rawName in
  let folder := File.construct (nextId db)
     (folderFields userId name (resolvedPath db userId parentFolder name)
        parentFolder) in
  Str.isEmpty name = false
  /\ hasSibling db userId parentFolder name type_folder = false
  /\ db' = mkDb (saveFile folder (files db)) (users db) (S (nextId db))
                (log db ++ [EvFileSave folder])
  /\ r = json 201 true "Folder created successfully" (PFolder folder).
Proof.
  unfold createFolder.
  destruct (Str.isEmpty (Str.trim rawName)) eqn:Hname;
    [cbn; intros H; injection H as _ <-; discriminate|].
  rewrite run_tryCatch, run_bind, run_call, findOne_sibling, trim_idem.
  destruct (find _ (files db)) eqn:Hsib;
    [cbn; intros H; injection H as _ <-; discriminate|].
  rewrite run_bind, run_buildPath.
  rewrite run_bind, run_call. cbn [perform]. cbv beta iota.
  rewrite run_bind, run_call. cbn [perform logEvent nextId files users log].
  set (folder := File.construct (nextId db) _).
  destruct (_ || _)%bool;
    [|cbn; intros H; injection H as _ <-; discriminate].
  cbn [run]. intros H _. injection H as <- <-.
  repeat split.
  unfold hasSibling. apply find_none_existsb. exact Hsib.
Qed.

Lemma deleteEntry_deleted env db userId id now db' r :
  run env (deleteEntry userId id now) db = (db', Some r) ->
  status r = 200%nat ->
  exists found user,
    findFile id db = Some found
    /\ File.owner found = userId
    /\ find (fun u => Nat.eqb (User._id u) userId) (users db) = Some user
    /\ (isFile found = true \/
        isFolder found = true
        /\ exists m, regex env ("^" ++ File.path found ++ "/") = Some m).
Proof.
  intros Hrun Hstatus.
  destruct (findFile id db) as [found|] eqn:Hfound.
  2:{ rewrite run_deleteEntry_absent in Hrun by exact Hfound.
      injection Hrun as _ <-. discriminate. }
  destruct (Nat.eq_dec (File.owner found) userId) as [Hown|Hown].
  2:{ rewrite (@run_deleteEntry_foreign env _ _ _ now _ Hfound Hown) in Hrun.
      injection Hrun as _ <-. discriminate. }
  destruct (isFile found) eqn:Hfile.
  - destruct (find (fun u => Nat.eqb (User._id u) userId) (users db))
      as [user|] eqn:Huser.
    + exists found, user. auto.
    + rewrite (@run_deleteEntry_file_nouser env _ _ _ now _ Hfound Hown Hfile Huser)
        in Hrun.
      injection Hrun as _ <-. discriminate.
  - assert (Hfolder : isFolder found = true) by (now rewrite isFile_isFolder, Hfile).
    destruct (regex env ("^" ++ File.path found ++ "/")) as [m|] eqn:Hre.
    2:{ rewrite (@run_deleteEntry_folder_rejected env _ _ _ now _
                   Hfound Hown Hfolder Hre) in Hrun.
        injection Hrun as _ <-. discriminate. }
    destruct (find (fun u => Nat.eqb (User._id u) userId) (users db))
      as [user|] eqn:Huser.
    + exists found, user. repeat split; auto. right. split; eauto.
    + rewrite (@run_deleteEntry_folder_nouser env _ _ _ now _ m
                 Hfound Hown Hfolder Hre Huser) in Hrun.
      injection Hrun as _ <-. discriminate.
Qed.

(** ** Round trips *)

(** X10: after a successful upload, the object store has accepted the put of
    the content under the key of the new entry, and the download of that
    entry by the uploader presigns exactly this key (and answers 500 when the
    presigner fails). *)
Theorem upload_then_download env db userId reqFile bodyName parentFolder db' r :
  run env (uploadFile userId reqFile bodyName parentFolder) db = (db', Some r) ->
  status r = 201%nat ->
  exists f file used,
    reqFile = Some f
    /\ payload r = PFile file used
    /\ File.s3Key file = Some (s3KeyOf env f userId)
    /\ s3PutOk env (log db) (s3KeyOf env f userId) = true
    /\ wasPut env (log db') (s3KeyOf env f userId)
    /\ snd (run env (getDownloadUrl userId (File._id file)) db')
       = Some match signedUrl env (s3KeyOf env f userId) with
              | Some url =>
                  json 200 true "" (PDownload url (File.originalName file))
              | None =>
                  json 500 false "Server error while generating download URL"
                       NoPayload
              end.
Proof.
  intros Hrun Hstatus.
  destruct (@uploadFile_created _ _ _ _ _ _ _ _ Hrun Hstatus)
    as (f & user & -> & Huser & Hmax & Hsib & Hput & Hdb & Hr).
  cbv zeta in Hdb, Hr.
  set (file := File.construct (nextId db) _) in *.
  exists f, file, (User.storageUsed user + Multer.size f).
  split; [reflexivity|]. split; [now rewrite Hr|]. split; [reflexivity|].
  split; [exact Hput|]. split.
  { rewrite Hdb. cbn [log].
    exists (log db), [EvFileSave file;
                      EvUserSave (User.withStorageUsed
                                    (User.storageUsed user + Multer.size f) user)].
    split; [reflexivity|exact Hput]. }
  rewrite run_getDownloadUrl.
  assert (Hfind : findFile (File._id file) db' = Some file).
  { rewrite Hdb. unfold findFile. cbn [files]. apply find_saveFile. }
  rewrite Hfind.
  change (File.owner file) with userId. rewrite Nat.eqb_refl. cbn [negb].
  change (isFolder file) with false. cbv iota.
  change (File.s3Key file) with (Some (s3KeyOf env f userId)). cbv iota.
  reflexivity.
Qed.

Lemma upload_then_download_witness :
  let res := run env0 (uploadFile alice (Some report_pdf) None None) db_start in
  exists f file used,
    Some report_pdf = Some f
    /\ payload (json 201 true "File uploaded successfully"
                  (PFile (File.mk 100%nat "report.pdf" (Some "report.pdf") type_file
                            (Some "application/pdf") 1000 "/report.pdf"
                            (Some "1/r-report.pdf") None alice false None) 1000))
       = PFile file used
    /\ File.s3Key file = Some (s3KeyOf env0 f alice)
    /\ s3PutOk env0 (log db_start) (s3KeyOf env0 f alice) = true
    /\ wasPut env0 (log (fst res)) (s3KeyOf env0 f alice)
    /\ snd (run env0 (getDownloadUrl alice (File._id file)) (fst res))
       = Some match signedUrl env0 (s3KeyOf env0 f alice) with
              | Some url =>
                  json 200 true "" (PDownload url (File.originalName file))
              | None =>
                  json 500 false "Server error while generating download URL"
                       NoPayload
              end.
Proof.
  intros res.
  apply (@upload_then_download env0 db_start alice (Some report_pdf) None None
           (fst res) _); reflexivity.
Defined.

(** X11: a successful upload followed by the delete of the new entry: the
    delete answers 200, the entry is no longer visible, and the counter is
    back at the value it had before the upload (when that was not
    negative). *)
Theorem upload_then_delete env db userId reqFile bodyName parentFolder db' r now :
  run env (uploadFile userId reqFile bodyName parentFolder) db = (db', Some r) ->
  status r = 201%nat ->
  exists file used before,
    payload r = PFile file used
    /\ usedBytes userId db = Some before
    /\ used = before + File.size file
    /\ let res := run env (deleteEntry userId (File._id file) now) db' in
       snd res = Some (json 200 true "File/folder deleted successfully"
                         (PStorage (Z.max 0 before)))
       /\ usedBytes userId (fst res) = Some (Z.max 0 before)
       /\ option_map visible (findFile (File._id file) (fst res)) = Some false.
Proof.
  intros Hrun Hstatus.
  destruct (@uploadFile_created _ _ _ _ _ _ _ _ Hrun Hstatus)
    as (f & user & -> & Huser & Hmax & Hsib & Hput & Hdb & Hr).
  cbv zeta in Hdb, Hr.
  set (file := File.construct (nextId db) _) in *.
  set (user' := User.withStorageUsed _ user) in *.
  exists file, (User.storageUsed user + Multer.size f), (User.storageUsed user).
  split; [now rewrite Hr|].
  split; [unfold usedBytes; now rewrite Huser|].
  split; [reflexivity|].
  assert (Hfind : findFile (File._id file) db' = Some file).
  { rewrite Hdb. unfold findFile. cbn [files]. apply find_saveFile. }
  assert (Huser' : find (fun u => Nat.eqb (User._id u) userId) (users db')
                   = Some user').
  { rewrite Hdb. cbn [users]. apply find_saveUser_id.
    apply (@find_user_id _ _ _ Huser). }
  cbv zeta.
  rewrite (@run_deleteEntry_file env db' userId (File._id file) now file user'
             Hfind eq_refl eq_refl Huser').
  cbn [fst snd].
  change (File.size file) with (Multer.size f).
  change (User.storageUsed user') with (User.storageUsed user + Multer.size f).
  replace (User.storageUsed user + Multer.size f - Multer.size f)
    with (User.storageUsed user) by lia.
  split; [reflexivity|]. split.
  - rewrite usedBytes_saveUser; [reflexivity|].
    apply (@find_user_id _ _ _ Huser).
  - unfold findFile. cbn [files].
    change (File._id file) with (File._id (File.markDeleted now file)).
    rewrite find_saveFile. reflexivity.
Qed.

Lemma upload_then_delete_witness :
  let res := run env0 (uploadFile alice (Some report_pdf) None None) db_start in
  exists file used before,
    payload (json 201 true "File uploaded successfully"
               (PFile (File.mk 100%nat "report.pdf" (Some "report.pdf") type_file
                         (Some "application/pdf") 1000 "/report.pdf"
                         (Some "1/r-report.pdf") None alice false None) 1000))
    = PFile file used
    /\ usedBytes alice db_start = Some before
    /\ used = before + File.size file
    /\ let res' := run env0 (deleteEntry alice (File._id file) 7) (fst res) in
       snd res' = Some (json 200 true "File/folder deleted successfully"
                          (PStorage (Z.max 0 before)))
       /\ usedBytes alice (fst res') = Some (Z.max 0 before)
       /\ option_map visible (findFile (File._id file) (fst res')) = Some false.
Proof.
  intros res.
  apply (@upload_then_delete env0 db_start alice (Some report_pdf) None None
           (fst res) _ 7); reflexivity.
Defined.

(** ** Failures half way through a request *)

(** X12: an upload that passes the quota check and the collision check (made
    on the trimmed name) and whose put the object store accepts, but that
    fails the validation of the schema (a trimmed name that is empty or
    longer than 255 characters, an empty original name or MIME type, a
    negative size): the content is in the object store, the request answers
    500, stores no entry, leaves the counter alone and never deletes the
    blob. *)
Theorem invalid_upload_leaves_a_blob env db userId reqFile bodyName parentFolder user :
  find (fun u => Nat.eqb (User._id u) userId) (users db) = Some user ->
  User.storageUsed user + Multer.size reqFile <= MAX_STORAGE ->
  hasSibling db userId parentFolder (Str.trim (uploadName reqFile bodyName)) type_file
  = false ->
  s3PutOk env (log db) (s3KeyOf env reqFile userId) = true ->
  idsBelow db = true ->
  ~ validUpload reqFile bodyName ->
  run env (uploadFile userId (Some reqFile) bodyName parentFolder) db
  = (mkDb (files db) (users db) (S (nextId db))
          (log db ++ [EvS3Put (s3KeyOf env reqFile userId)]),
     Some (json 500 false "Server error during file upload" NoPayload)).
Proof.
  intros Hfind Hmax Hsib Hput Hids Hinvalid.
  unfold uploadFile. rewrite run_tryCatch, run_bind, run_loadUser, Hfind.
  destruct (MAX_STORAGE <? _) eqn:Hlt; [apply Z.ltb_lt in Hlt; lia|].
  rewrite run_bind, run_call, findOne_sibling.
  unfold hasSibling in Hsib. apply find_none_existsb in Hsib. rewrite Hsib.
  rewrite run_bind, run_buildPath.
  rewrite run_bind, run_call. cbn [perform]. rewrite Hput.
  cbv beta iota.
  rewrite run_bind, run_call. cbn [perform]. cbv beta iota.
  rewrite run_bind, run_call. cbn [perform logEvent nextId files users log].
  set (file := File.construct (nextId db) _).
  assert (Hid : File._id file = nextId db) by reflexivity.
  rewrite Hid, (@idsBelow_fresh _ Hids). cbn [orb].
  assert (Hv : File.validate file = false).
  { destruct (File.validate file) eqn:Hv; [|reflexivity].
    exfalso. apply Hinvalid.
    unfold File.validate, file in Hv; simpl in Hv.
    repeat (apply andb_true_iff in Hv as [Hv ?]).
    unfold validUpload. repeat split.
    - now apply negb_true_iff.
    - now apply Nat.leb_le.
    - match goal with H : (_ && _)%bool = true |- _ =>
        apply andb_true_iff in H as [H _]; now apply negb_true_iff in H end.
    - match goal with H : (_ && _)%bool = true |- _ =>
        apply andb_true_iff in H as [_ H]; now apply negb_true_iff in H end.
    - now apply Z.leb_le. }
  rewrite Hv. reflexivity.
Qed.

Lemma invalid_upload_leaves_a_blob_witness :
  run env0 (uploadFile alice (Some report_pdf) (Some " ") None) db_start
  = (mkDb (files db_start) (users db_start) (S (nextId db_start))
          (log db_start ++ [EvS3Put (s3KeyOf env0 report_pdf alice)]),
     Some (json 500 false "Server error during file upload" NoPayload)).
Proof.
  apply (@invalid_upload_leaves_a_blob env0 db_start alice report_pdf (Some " ")
           None (User.mk alice 0)); try reflexivity.
  - unfold MAX_STORAGE. cbn. lia.
  - intros [H _]. vm_compute in H. discriminate.
Defined.

(** X13: the delete of a folder whose path is no valid pattern stops half
    way: the folder itself is marked deleted, every other entry is as it
    was (its children stay visible), no counter changes and the answer is
    500. *)
Theorem delete_stops_at_rejected_pattern env db userId id now found :
  findFile id db = Some found ->
  File.owner found = userId ->
  isFolder found = true ->
  regex env ("^" ++ File.path found ++ "/") = None ->
  uniqueIds (files db) = true ->
  let res := run env (deleteEntry userId id now) db in
  snd res = Some (json 500 false "Server error while deleting file" NoPayload)
  /\ files (fst res) = markWhere (fun f => Nat.eqb (File._id f) id) now (files db)
  /\ users (fst res) = users db
  /\ forall f, In f (files db) -> File._id f <> id -> In f (files (fst res)).
Proof.
  intros Hfound Hown Hfolder Hre Huniq. cbv zeta.
  rewrite (@run_deleteEntry_folder_rejected env _ _ _ now _ Hfound Hown Hfolder Hre).
  cbn [fst snd files users].
  rewrite (@saveFile_mark_stored now _ _ _ Huniq Hfound).
  repeat split.
  intros f Hin Hne. unfold markWhere.
  apply in_map_iff. exists f. split; auto.
  apply Nat.eqb_neq in Hne. now rewrite Hne.
Qed.

Lemma delete_stops_at_rejected_pattern_witness :
  let res := run env0 (deleteEntry alice 100%nat 7) db_paren in
  snd res = Some (json 500 false "Server error while deleting file" NoPayload)
  /\ files (fst res)
     = markWhere (fun f => Nat.eqb (File._id f) 100%nat) 7 (files db_paren)
  /\ users (fst res) = users db_paren
  /\ forall f, In f (files db_paren) -> File._id f <> 100%nat ->
               In f (files (fst res)).
Proof.
  apply (@delete_stops_at_rejected_pattern env0 db_paren alice 100%nat 7
           (File.mk 100%nat "a(b" None type_folder None 0 "/a(b" None None
                    alice false None));
    reflexivity.
Defined.

(** ** The answer of a delete *)

(** X14: the [storageUsed] a successful delete reports is the requester's
    counter as the request leaves it. *)
Theorem delete_reports_the_counter env db userId id now db' r :
  run env (deleteEntry userId id now) db = (db', Some r) ->
  status r = 200%nat ->
  exists v, payload r = PStorage v /\ usedBytes userId db' = Some v.
Proof.
  intros Hrun Hstatus.
  destruct (@deleteEntry_deleted _ _ _ _ _ _ _ Hrun Hstatus)
    as (found & user & Hfound & Hown & Huser & Hkind).
  pose proof (@find_user_id _ _ _ Huser) as Huid.
  destruct Hkind as [Hfile|[Hfolder [m Hre]]].
  - rewrite (@run_deleteEntry_file env _ _ _ now _ _ Hfound Hown Hfile Huser) in Hrun.
    injection Hrun as <- <-. eexists. split; [reflexivity|].
    now rewrite usedBytes_saveUser.
  - rewrite (@run_deleteEntry_folder env _ _ _ now _ _ m
               Hfound Hown Hfolder Hre Huser) in Hrun.
    injection Hrun as <- <-. eexists. split; [reflexivity|].
    destruct (0 <? _).
    + now rewrite usedBytes_saveUser.
    + unfold usedBytes. cbn [users]. now rewrite Huser.
Qed.

Lemma delete_reports_the_counter_witness :
  let res := run env0 (deleteEntry alice 100%nat 7) db_scenario in
  exists v,
    payload (json 200 true "File/folder deleted successfully" (PStorage 500))
    = PStorage v
    /\ usedBytes alice (fst res) = Some v.
Proof.
  intros res.
  apply (@delete_reports_the_counter env0 db_scenario alice 100%nat 7 (fst res) _);
    reflexivity.
Defined.

(** ** What the object store is asked *)

(** X15: a download presigns at most the key of the requested entry, and
    only when that entry is a file of the requester. *)
Theorem download_signs_only_own_keys env db userId id key :
  In (EvS3Sign key) (log (fst (run env (getDownloadUrl userId id) db))) ->
  In (EvS3Sign key) (log db)
  \/ exists f, findFile id db = Some f /\ File.owner f = userId
               /\ isFile f = true /\ File.s3Key f = Some key.
Proof.
  rewrite run_getDownloadUrl.
  destruct (findFile id db) as [file|]; [|now left].
  destruct (Nat.eqb (File.owner file) userId) eqn:Hown; cbn [negb]; [|now left].
  apply Nat.eqb_eq in Hown.
  destruct (isFolder file) eqn:Hfolder; [now left|].
  destruct (File.s3Key file) as [k|] eqn:Hkey; [|now left].
  cbn [fst logEvent log]. rewrite in_app_iff. intros [H|[H|[]]]; [now left|].
  injection H as <-. right. exists file. repeat split; auto.
  rewrite isFile_isFolder in Hfolder. now destruct (isFile file).
Qed.

Lemma download_signs_only_own_keys_witness :
  In (EvS3Sign "1/r-report.pdf") (log db_two)
  \/ exists f, findFile 100%nat db_two = Some f /\ File.owner f = alice
               /\ isFile f = true /\ File.s3Key f = Some "1/r-report.pdf".
Proof.
  apply (@download_signs_only_own_keys env0 db_two alice 100%nat "1/r-report.pdf").
  vm_compute. auto 10.
Defined.

Lemma In_saveFile_inv doc fs f : In f (saveFile doc fs) -> f = doc \/ In f fs.
Proof.
  unfold saveFile. destruct (hasFile (File._id doc) fs).
  - intros H. apply in_map_iff in H as (g & Hg & Hin).
    destruct (Nat.eqb (File._id g) (File._id doc)); subst; auto.
  - rewrite in_app_iff. intros [H|[H|[]]]; auto.
Qed.

Lemma In_blobLog key doc :
  In (EvS3Delete key) (blobLog doc) -> File.s3Key doc = Some key.
Proof.
  unfold blobLog. destruct (isFile doc && truthy (File.s3Key doc))%bool;
    [|intros []].
  destruct (File.s3Key doc); [|intros []].
  intros [H|[]]. now injection H as ->.
Qed.

(** X16: a delete asks the object store to delete only keys of entries of the
    requester. *)
Theorem delete_removes_only_own_blobs env db userId id now key :
  In (EvS3Delete key) (log (fst (run env (deleteEntry userId id now) db))) ->
  In (EvS3Delete key) (log db)
  \/ exists f, In f (files db) /\ File.owner f = userId
               /\ File.s3Key f = Some key.
Proof.
  destruct (findFile id db) as [found|] eqn:Hfound;
    [|rewrite run_deleteEntry_absent by exact Hfound; now left].
  destruct (Nat.eq_dec (File.owner found) userId) as [Hown|Hown];
    [|rewrite (@run_deleteEntry_foreign env _ _ _ now _ Hfound Hown); now left].
  assert (Hin : In found (files db)).
  { unfold findFile in Hfound. apply find_some in Hfound. tauto. }
  assert (Htarget : In (EvS3Delete key) (blobLog (File.markDeleted now found)) ->
                    exists f, In f (files db) /\ File.owner f = userId
                              /\ File.s3Key f = Some key).
  { intros H. apply In_blobLog in H. exists found. auto. }
  assert (Hchildren : forall m,
             In (EvS3Delete key)
                (flat_map blobLog
                   (filter (fun f => (Query.plain (cascadeQuery userId (File.path found)) f
                                      && m (File.path f))%bool)
                           (saveFile (File.markDeleted now found) (files db)))) ->
             exists f, In f (files db) /\ File.owner f = userId
                       /\ File.s3Key f = Some key).
  { intros m H. apply in_flat_map in H as (g & Hg & Hk).
    apply In_blobLog in Hk. apply filter_In in Hg as [Hg Hq].
    rewrite cascadeQuery_plain in Hq.
    apply andb_true_iff in Hq as [Hq _]. apply andb_true_iff in Hq as [Hq _].
    apply Nat.eqb_eq in Hq.
    apply In_saveFile_inv in Hg as [->|Hg]; [exists found|exists g]; auto. }
  destruct (isFile found) eqn:Hfile.
  - destruct (find (fun u => Nat.eqb (User._id u) userId) (users db))
      as [user|] eqn:Huser.
    + rewrite (@run_deleteEntry_file env _ _ _ now _ _ Hfound Hown Hfile Huser).
      cbn [fst log]. rewrite !in_app_iff.
      intros [H|[H|H]]; auto.
      destruct H as [H|[H|[]]]; discriminate.
    + rewrite (@run_deleteEntry_file_nouser env _ _ _ now _ Hfound Hown Hfile Huser).
      cbn [fst log]. rewrite !in_app_iff.
      intros [H|[H|[]]]; auto. discriminate.
  - assert (Hfolder : isFolder found = true) by (now rewrite isFile_isFolder, Hfile).
    destruct (regex env ("^" ++ File.path found ++ "/")) as [m|] eqn:Hre.
    2:{ rewrite (@run_deleteEntry_folder_rejected env _ _ _ now _
                   Hfound Hown Hfolder Hre).
        cbn [fst log]. rewrite !in_app_iff.
        intros [H|[H|[]]]; auto. discriminate. }
    destruct (find (fun u => Nat.eqb (User._id u) userId) (users db))
      as [user|] eqn:Huser.
    + rewrite (@run_deleteEntry_folder env _ _ _ now _ _ m
                 Hfound Hown Hfolder Hre Huser).
      cbn [fst log]. rewrite !in_app_iff.
      intros [H|[H|[H|[H|H]]]]; eauto.
      * destruct H as [H|[]]; discriminate.
      * destruct H as [H|[]]; discriminate.
      * destruct (0 <? _); [destruct H as [H|[]]; discriminate|destruct H].
    + rewrite (@run_deleteEntry_folder_nouser env _ _ _ now _ m
                 Hfound Hown Hfolder Hre Huser).
      cbn [fst log]. rewrite !in_app_iff.
      intros [H|[H|[H|H]]]; eauto.
      * destruct H as [H|[]]; discriminate.
      * destruct H as [H|[]]; discriminate.
Qed.

Lemma delete_removes_only_own_blobs_witness :
  In (EvS3Delete "1/r-report.pdf") (log db_scenario)
  \/ exists f, In f (files db_scenario) /\ File.owner f = alice
               /\ File.s3Key f = Some "1/r-report.pdf".
Proof.
  apply (@delete_removes_only_own_blobs env0 db_scenario alice 100%nat 7
           "1/r-report.pdf").
  vm_compute. auto 10.
Defined.

(** ** Listings after a create or a delete *)

Lemma filter_markWhere_nil (q : File.t -> bool) now fs :
  (forall f, q (File.markDeleted now f) = false) ->
  filter q (markWhere q now fs) = [].
Proof.
  intros Hq. induction fs as [|f fs IH]; [reflexivity|].
  cbn [markWhere map filter]. fold (markWhere q now fs). rewrite IH.
  destruct (q f) eqn:Hf; [now rewrite Hq|now rewrite Hf].
Qed.

(** X17: after the successful delete of a folder, the listing by the
    folder's path is empty, whatever the pattern matches. *)
Theorem deleted_folder_lists_nothing env db userId id now db' r found param :
  run env (deleteEntry userId id now) db = (db', Some r) ->
  status r = 200%nat ->
  findFile id db = Some found ->
  isFolder found = true ->
  File.path found = "/" ++ param ->
  run env (listByPath userId param) db' = (db', Some (Files [])).
Proof.
  intros Hrun Hstatus Hfound Hfolder Hpath.
  destruct (@deleteEntry_deleted _ _ _ _ _ _ _ Hrun Hstatus)
    as (found' & user & Hfound' & Hown & Huser & Hkind).
  rewrite Hfound in Hfound'. injection Hfound' as <-.
  destruct Hkind as [Hfile|[_ [m Hre]]].
  { rewrite isFile_isFolder, Hfile in Hfolder. discriminate. }
  rewrite (@run_deleteEntry_folder env _ _ _ now _ _ m
             Hfound Hown Hfolder Hre Huser) in Hrun.
  injection Hrun as <- _.
  assert (Hre' : regex env ("^/" ++ param ++ "/") = Some m).
  { rewrite <- Hre, Hpath. reflexivity. }
  rewrite (@run_listByPath env _ userId param m Hre').
  cbn [files].
  set (q := fun f => (Query.plain (cascadeQuery userId (File.path found)) f
                      && m (File.path f))%bool).
  rewrite (filter_ext (fun f => (ownVisible userId f && m (File.path f))%bool) q)
    by (intros f; unfold q, ownVisible; now rewrite cascadeQuery_plain).
  match goal with
  | |- context [filter q (map ?g ?fs)] =>
      change (map g fs) with (markWhere q now fs)
  end.
  rewrite filter_markWhere_nil; [reflexivity|].
  intros f. unfold q. rewrite cascadeQuery_plain. unfold visible.
  cbn [File.markDeleted File.isDeleted negb]. now rewrite andb_false_r.
Qed.

Lemma deleted_folder_lists_nothing_witness :
  let res := run env0 (deleteEntry alice 100%nat 7) db_scenario in
  run env0 (listByPath alice "Docs") (fst res) = (fst res, Some (Files [])).
Proof.
  intros res.
  apply (@deleted_folder_lists_nothing env0 db_scenario alice 100%nat 7 (fst res)
           (json 200 true "File/folder deleted successfully" (PStorage 500))
           docs_entry "Docs");
    reflexivity.
Defined.

Lemma deleteEntry_deleted_marks env db userId id now db' r :
  run env (deleteEntry userId id now) db = (db', Some r) ->
  status r = 200%nat ->
  forall f, In f (files db') -> File._id f = id -> File.isDeleted f = true.
Proof.
  intros Hrun Hstatus.
  destruct (@deleteEntry_deleted _ _ _ _ _ _ _ Hrun Hstatus)
    as (found & user & Hfound & Hown & Huser & Hkind).
  pose proof Hfound as Hfound'. unfold findFile in Hfound'.
  destruct (@find_hasFile _ _ _ Hfound') as [Hid _].
  destruct Hkind as [Hfile|[Hfolder [m Hre]]].
  - rewrite (@run_deleteEntry_file env _ _ _ now _ _ Hfound Hown Hfile Huser) in Hrun.
    injection Hrun as <- _. cbn [files]. intros f Hin Hf.
    rewrite (@saveFile_same_id _ _ _ Hin); [reflexivity|].
    cbn [File.markDeleted File._id]. congruence.
  - rewrite (@run_deleteEntry_folder env _ _ _ now _ _ m
               Hfound Hown Hfolder Hre Huser) in Hrun.
    injection Hrun as <- _. cbn [files]. intros f Hin Hf.
    apply in_map_iff in Hin as (g & Hg & Hin).
    assert (Hgid : File._id g = id).
    { subst f. destruct (_ && _)%bool; exact Hf. }
    assert (g = File.markDeleted now found).
    { apply (@saveFile_same_id _ _ _ Hin).
      cbn [File.markDeleted File._id]. congruence. }
    subst g f. destruct (_ && _)%bool; reflexivity.
Qed.

Lemma In_listFiles env db u p f :
  In f (listedDocs (run env (listFiles u p) db)) ->
  In f (files db) /\ visible f = true.
Proof.
  rewrite run_listFiles. unfold listedDocs. cbn [snd].
  destruct (requestedFolder p) as [folder|]; [|intros []].
  rewrite map_doc_populated. intros Hin.
  apply (Permutation_in _ (sortDocs_perm _)) in Hin.
  apply filter_In in Hin as [Hin Hq]. split; [exact Hin|].
  unfold inFolder in Hq. now apply andb_true_iff in Hq as [_ Hq].
Qed.

Lemma listFiles_WellFormed env db u parentFolder :
  listedDocs (run env (listFiles u (option_map WellFormed parentFolder)) db)
  = sortDocs (filter (inFolder u parentFolder) (files db)).
Proof.
  rewrite run_listFiles. unfold listedDocs. cbn [snd].
  destruct parentFolder as [id|]; cbn [option_map requestedFolder isNullText castId];
    now rewrite map_doc_populated.
Qed.

Lemma In_listByPath env db u param f :
  In f (listedDocs (run env (listByPath u param) db)) ->
  In f (files db) /\ ownVisible u f = true.
Proof.
  destruct (regex env ("^/" ++ param ++ "/")) as [m|] eqn:Hre.
  - rewrite (@run_listByPath env db u param m Hre). unfold listedDocs. cbn [snd].
    rewrite map_doc_populated. intros Hin.
    apply (Permutation_in _ (sortDocs_perm _)) in Hin.
    apply filter_In in Hin as [Hin Hq].
    apply andb_true_iff in Hq as [Hq _]. auto.
  - rewrite (@run_listByPath_rejected env db u param Hre). intros [].
Qed.

(** X18: an entry whose delete was answered with 200 appears in no listing
    any more, of no user, by folder or by path. *)
Theorem deleted_entry_is_not_listed env db userId id now db' r u p param :
  run env (deleteEntry userId id now) db = (db', Some r) ->
  status r = 200%nat ->
  ~ In id (map File._id (listedDocs (run env (listFiles u p) db')))
  /\ ~ In id (map File._id (listedDocs (run env (listByPath u param) db'))).
Proof.
  intros Hrun Hstatus.
  pose proof (@deleteEntry_deleted_marks _ _ _ _ _ _ _ Hrun Hstatus) as Hmarked.
  split; intros Hin; apply in_map_iff in Hin as (f & Hid & Hin).
  - apply In_listFiles in Hin as [Hin Hq].
    unfold visible in Hq. rewrite (Hmarked f Hin Hid) in Hq. discriminate.
  - apply In_listByPath in Hin as [Hin Hq].
    unfold ownVisible, visible in Hq. rewrite (Hmarked f Hin Hid) in Hq.
    now rewrite andb_false_r in Hq.
Qed.

Lemma deleted_entry_is_not_listed_witness :
  let res := run env0 (deleteEntry alice 100%nat 7) db_two in
  ~ In 100%nat (map File._id (listedDocs (run env0 (listFiles alice None) (fst res))))
  /\ ~ In 100%nat
         (map File._id (listedDocs (run env0 (listByPath alice "") (fst res)))).
Proof.
  intros res.
  apply (@deleted_entry_is_not_listed env0 db_two alice 100%nat 7 (fst res)
           (json 200 true "File/folder deleted successfully" (PStorage 500))
           alice None "");
    reflexivity.
Defined.

Lemma option_eqb_nat_refl (p : option ObjectId) : option_eqb Nat.eqb p p = true.
Proof. destruct p; cbn; auto using Nat.eqb_refl. Qed.

(** X19: a folder that was created (201) is listed to its creator under the
    parent the request named. *)
Theorem created_folder_is_listed env db userId rawName parentFolder db' r :
  run env (createFolder userId rawName parentFolder) db = (db', Some r) ->
  status r = 201%nat ->
  exists folder,
    payload r = PFolder folder
    /\ In folder
         (listedDocs
            (run env (listFiles userId (option_map WellFormed parentFolder)) db')).
Proof.
  intros Hrun Hstatus.
  destruct (@createFolder_created _ _ _ _ _ _ _ Hrun Hstatus) as (_ & _ & Hdb & Hr).
  cbv zeta in Hdb, Hr.
  set (folder := File.construct (nextId db) _) in *.
  exists folder. split; [now rewrite Hr|].
  rewrite listFiles_WellFormed.
  apply (Permutation_in _ (Permutation_sym (sortDocs_perm _))).
  apply filter_In. split.
  - rewrite Hdb. cbn [files]. apply In_saveFile.
  - unfold inFolder. change (File.owner folder) with userId.
    change (File.parentFolder folder) with parentFolder.
    now rewrite Nat.eqb_refl, option_eqb_nat_refl.
Qed.

Lemma created_folder_is_listed_witness :
  let res := run env0 (createFolder alice "Docs" None) db_start in
  exists folder,
    payload (json 201 true "Folder created successfully" (PFolder docs_entry))
    = PFolder folder
    /\ In folder
         (listedDocs
            (run env0 (listFiles alice (option_map WellFormed None)) (fst res))).
Proof.
  intros res.
  apply (@created_folder_is_listed env0 db_start alice "Docs" None (fst res) _);
    reflexivity.
Defined.

(** X20: a file that was uploaded (201) is listed to its uploader under the
    parent the request named. *)
Theorem uploaded_file_is_listed env db userId reqFile bodyName parentFolder db' r :
  run env (uploadFile userId reqFile bodyName parentFolder) db = (db', Some r) ->
  status r = 201%nat ->
  exists file used,
    payload r = PFile file used
    /\ In file
         (listedDocs
            (run env (listFiles userId (option_map WellFormed parentFolder)) db')).
Proof.
  intros Hrun Hstatus.
  destruct (@uploadFile_created _ _ _ _ _ _ _ _ Hrun Hstatus)
    as (f & user & -> & Huser & Hmax & Hsib & Hput & Hdb & Hr).
  cbv zeta in Hdb, Hr.
  set (file := File.construct (nextId db) _) in *.
  exists file, (User.storageUsed user + Multer.size f).
  split; [now rewrite Hr|].
  rewrite listFiles_WellFormed.
  apply (Permutation_in _ (Permutation_sym (sortDocs_perm _))).
  apply filter_In. split.
  - rewrite Hdb. cbn [files]. apply In_saveFile.
  - unfold inFolder. change (File.owner file) with userId.
    change (File.parentFolder file) with parentFolder.
    now rewrite Nat.eqb_refl, option_eqb_nat_refl.
Qed.

Lemma uploaded_file_is_listed_witness :
  let res := run env0 (uploadFile alice (Some notes_txt) None (Some 100%nat))
               db_scenario in
  exists file used,
    payload (json 201 true "File uploaded successfully"
               (PFile (File.mk 103%nat "notes.txt" (Some "notes.txt") type_file
                         (Some "text/plain") 500 "/Docs/notes.txt"
                         (Some "1/r-notes.txt") (Some 100%nat) alice false None)
                      2000))
    = PFile file used
    /\ In file
         (listedDocs
            (run env0 (listFiles alice (option_map WellFormed (Some 100%nat)))
               (fst res))).
Proof.
  intros res.
  apply (@uploaded_file_is_listed env0 db_scenario alice (Some notes_txt) None
           (Some 100%nat) (fst res) _);
    reflexivity.
Defined.

(** ** Search and the folder structure *)

Lemma ownedQuery_ownVisible userId f :
  Query.plain (ownedQuery userId) f = ownVisible userId f.
Proof.
  unfold Query.plain, ownedQuery, ownVisible, Query.field, visible; simpl.
  rewrite (Nat.eqb_sym userId). now destruct (File.isDeleted f).
Qed.

Lemma run_searchFiles engineI env db userId q :
  run env (searchFiles engineI userId q) db
  = (db,
     Some match q with
          | Some pattern =>
              if Str.isEmpty pattern
              then ListingError 400 "Search query is required"
              else match engineI pattern with
                   | Some m =>
                       Files (map (populated db)
                                (sortDocs
                                   (filter (fun f => m (File.name f))
                                      (filter (ownVisible userId) (files db)))))
                   | None => ListingError 500 "Server error while searching files"
                   end
          | None => ListingError 400 "Search query is required"
          end).
Proof.
  unfold searchFiles. destruct q as [pattern|]; [|reflexivity].
  destruct (Str.isEmpty pattern); [reflexivity|].
  destruct (engineI pattern) as [m|]; [|reflexivity].
  rewrite run_tryCatch, run_bind, run_call. cbn [perform Query.compile ownedQuery Query.pathRegex].
  rewrite run_bind, run_populate.
  rewrite (filter_ext _ _ (ownedQuery_ownVisible userId)).
  reflexivity.
Qed.

(** X21: the search answers 400 without a query, and otherwise lists, sorted
    like the other listings and without changing anything, exactly the
    requester's non-deleted entries whose name the matcher accepts. *)
Theorem search_lists_own_matches engineI env db userId pattern m :
  Str.isEmpty pattern = false ->
  engineI pattern = Some m ->
  run env (searchFiles engineI userId None) db
  = (db, Some (ListingError 400 "Search query is required"))
  /\ run env (searchFiles engineI userId (Some "")) db
     = (db, Some (ListingError 400 "Search query is required"))
  /\ exists l,
       run env (searchFiles engineI userId (Some pattern)) db
       = (db, Some (Files l))
       /\ Permutation (map Listed.doc l)
            (filter (fun f => ownVisible userId f && m (File.name f))%bool
                    (files db))
       /\ StronglySorted listedBefore (map Listed.doc l).
Proof.
  intros Hq Hm. rewrite !run_searchFiles, Hq, Hm.
  split; [reflexivity|]. split; [reflexivity|].
  eexists. split; [reflexivity|].
  rewrite map_doc_populated. split; [|apply sortDocs_sorted].
  rewrite sortDocs_perm.
  assert (Hfilter : forall fs : list File.t,
             filter (fun f => m (File.name f)) (filter (ownVisible userId) fs)
             = filter (fun f => ownVisible userId f && m (File.name f))%bool fs).
  { induction fs as [|f fs IH]; [reflexivity|]. cbn [filter].
    destruct (ownVisible userId f); cbn [filter andb]; now rewrite IH. }
  now rewrite Hfilter.
Qed.

Lemma search_lists_own_matches_witness :
  run env0 (searchFiles Regex.compile alice None) db_scenario
  = (db_scenario, Some (ListingError 400 "Search query is required"))
  /\ run env0 (searchFiles Regex.compile alice (Some "")) db_scenario
     = (db_scenario, Some (ListingError 400 "Search query is required"))
  /\ exists l,
       run env0 (searchFiles Regex.compile alice (Some "^notes")) db_scenario
       = (db_scenario, Some (Files l))
       /\ Permutation (map Listed.doc l)
            (filter (fun f => ownVisible alice f
                              && Regex.matchItems
                                   [(Regex.Lit "n", Regex.One); (Regex.Lit "o", Regex.One);
                                    (Regex.Lit "t", Regex.One); (Regex.Lit "e", Regex.One);
                                    (Regex.Lit "s", Regex.One)] (File.name f))%bool
                    (files db_scenario))
       /\ StronglySorted listedBefore (map Listed.doc l).
Proof.
  apply (@search_lists_own_matches Regex.compile env0 db_scenario alice "^notes");
    reflexivity.
Defined.

(** X22: no listing by path and no search shows an entry of another user or
    a deleted entry, whatever the pattern, and neither changes the
    database. *)
Theorem pattern_listings_show_only_own_visible engineI env db userId param q :
  (fst (run env (listByPath userId param) db) = db
   /\ Forall (fun f => In f (files db) /\ ownVisible userId f = true)
        (listedDocs (run env (listByPath userId param) db)))
  /\ (fst (run env (searchFiles engineI userId q) db) = db
      /\ Forall (fun f => In f (files db) /\ ownVisible userId f = true)
           (listedDocs (run env (searchFiles engineI userId q) db))).
Proof.
  split; split.
  - destruct (regex env ("^/" ++ param ++ "/")) as [m|] eqn:Hre.
    + now rewrite (@run_listByPath env db userId param m Hre).
    + now rewrite (@run_listByPath_rejected env db userId param Hre).
  - apply Forall_forall. intros f. apply In_listByPath.
  - now rewrite run_searchFiles.
  - rewrite run_searchFiles. unfold listedDocs. cbn [snd].
    destruct q as [pattern|]; [|constructor].
    destruct (Str.isEmpty pattern); [constructor|].
    destruct (engineI pattern) as [m|]; [|constructor].
    rewrite map_doc_populated. apply Forall_forall. intros f Hin.
    apply (Permutation_in _ (sortDocs_perm _)) in Hin.
    apply filter_In in Hin as [Hin _]. now apply filter_In in Hin.
Qed.

Lemma run_getFolderStructure env db this :
  run env (getFolderStructure this) db
  = (db, Some (if isFolder this
               then Some (map (populated db)
                            (filter (inFolder (File.owner this) (Some (File._id this)))
                                    (files db)))
               else None)).
Proof.
  unfold getFolderStructure. destruct (isFolder this); [|reflexivity].
  cbn [negb]. rewrite run_bind, run_call.
  cbn [perform Query.compile listQuery Query.pathRegex].
  rewrite run_bind, run_populate.
  rewrite (filter_ext _ _ (listQuery_inFolder (File.owner this) (Some (File._id this)))).
  reflexivity.
Qed.

(** X23: [getFolderStructure] of a folder returns what GET /api/files lists
    to the folder's owner for that folder, up to the order; each child
    carries the stored name of the folder.  Of a file it returns null. *)
Theorem getFolderStructure_is_the_listing env db this :
  findFile (File._id this) db = Some this ->
  (isFolder this = false ->
   run env (getFolderStructure this) db = (db, Some None))
  /\ (isFolder this = true ->
      exists children listed,
        run env (getFolderStructure this) db = (db, Some (Some children))
        /\ run env (listFiles (File.owner this)
                      (Some (WellFormed (File._id this)))) db
           = (db, Some (Files listed))
        /\ Permutation children listed
        /\ Forall (fun c => Listed.parentFolder c
                            = Some (File._id this, File.name this)) children).
Proof.
  intros Hthis. rewrite run_getFolderStructure, run_listFiles.
  cbn [requestedFolder isNullText castId option_map].
  split; intros ->; [reflexivity|].
  eexists _, _. split; [reflexivity|]. split; [reflexivity|]. split.
  - apply Permutation_map. symmetry. apply sortDocs_perm.
  - apply Forall_forall. intros c Hc.
    apply in_map_iff in Hc as (f & <- & Hf).
    apply filter_In in Hf as [_ Hq]. unfold inFolder in Hq.
    apply andb_true_iff in Hq as [Hq _]. apply andb_true_iff in Hq as [_ Hq].
    unfold populated. cbn [Listed.parentFolder].
    destruct (File.parentFolder f) as [pid|]; [|discriminate].
    cbn in Hq. apply Nat.eqb_eq in Hq. subst pid. now rewrite Hthis.
Qed.

Lemma getFolderStructure_is_the_listing_witness :
  (isFolder docs_entry = false ->
   run env0 (getFolderStructure docs_entry) db_scenario = (db_scenario, Some None))
  /\ (isFolder docs_entry = true ->
      exists children listed,
        run env0 (getFolderStructure docs_entry) db_scenario
        = (db_scenario, Some (Some children))
        /\ run env0 (listFiles (File.owner docs_entry)
                       (Some (WellFormed (File._id docs_entry)))) db_scenario
           = (db_scenario, Some (Files listed))
        /\ Permutation children listed
        /\ Forall (fun c => Listed.parentFolder c
                            = Some (File._id docs_entry, File.name docs_entry))
                  children).
Proof.
  apply (@getFolderStructure_is_the_listing env0 db_scenario docs_entry).
  reflexivity.
Defined.

(** ** Interrupted uploads *)

Section StoredBeforeCounted.
Variables (env : Env) (db : Db) (userId : ObjectId) (reqFile : Multer.file)
          (bodyName : option string) (parentFolder : option ObjectId).
Hypothesis Hids : idsBelow db = true.

Let key := s3KeyOf env reqFile userId.
Let Inv := storedBeforeCounted env db key.

Lemma Inv_before s :
  files s = files db -> userSaves (log s) = userSaves (log db) -> Inv s.
Proof.
  intros Hf Hl. split.
  - intros H. exfalso. revert H. rewrite Hl. apply Nat.lt_irrefl.
  - rewrite Hf, (@idsBelow_fresh _ Hids). discriminate.
Qed.

Lemma Inv_stored s :
  hasFile (nextId db) (files s) = true -> wasPut env (log s) key -> Inv s.
Proof. intros Hf Hl. split; auto. Qed.

Lemma always_buildPath name s :
  Inv s -> always env Inv (buildPath userId parentFolder name) s.
Proof.
  intros Hs. unfold buildPath. destruct parentFolder as [pid|]; [|now apply always_ret].
  cbn [bind call always perform]. split; [exact Hs|].
  destruct (find _ (files s)) as [parent|]; [|now apply always_ret].
  destruct (Nat.eqb (File.owner parent) userId); now apply always_ret.
Qed.

Lemma always_uploadFile :
  always env Inv (uploadFile userId (Some reqFile) bodyName parentFolder) db.
Proof.
  assert (H0 : Inv db) by (now apply Inv_before).
  unfold uploadFile. apply always_tryCatch_ret.
  apply always_bind; [now apply always_loadUser|].
  intros s0 user Hrun0. rewrite run_loadUser in Hrun0.
  injection Hrun0 as <- Huser.
  destruct (MAX_STORAGE <? _); [now apply always_ret|].
  apply always_bind.
  { apply always_call; [exact H0|]. now rewrite findOne_sibling. }
  intros s1 existing Hrun1. rewrite run_call, findOne_sibling in Hrun1.
  injection Hrun1 as <- _.
  destruct existing; [now apply always_ret|].
  apply always_bind; [now apply always_buildPath|].
  intros s2 filePath Hrun2. rewrite run_buildPath in Hrun2.
  injection Hrun2 as <- _.
  set (db1 := logEvent (EvS3Put key) db).
  assert (H1 : Inv db1).
  { apply Inv_before; [reflexivity|]. cbn [db1 logEvent log].
    rewrite userSaves_app. cbn. lia. }
  apply always_bind.
  { apply always_call; [exact H0|]. cbn [perform fst]. exact H1. }
  intros s3 s3Key Hrun3. rewrite run_call in Hrun3. cbn [perform] in Hrun3.
  fold key db1 in Hrun3.
  destruct (s3PutOk env (log db) key) eqn:Hput; [|discriminate].
  injection Hrun3 as <- <-.
  set (db2 := mkDb (files db1) (users db1) (S (nextId db1)) (log db1)).
  assert (H2 : Inv db2) by (apply Inv_before; [reflexivity|];
                            cbn [db2 db1 logEvent log]; rewrite userSaves_app;
                            cbn; lia).
  apply always_bind.
  { apply always_call; [exact H1|]. exact H2. }
  intros s4 file Hrun4. rewrite run_call in Hrun4. cbn [perform] in Hrun4.
  injection Hrun4 as <- <-.
  set (file := File.construct (nextId db) _).
  match goal with |- always env Inv ?p _ => change (always env Inv p db2) end.
  assert (Hsaved : forall us l,
             Inv (mkDb (saveFile file (files db2)) us (nextId db2)
                       (log db2 ++ l))).
  { intros us l. apply Inv_stored; cbn [files log].
    - change (nextId db) with (File._id file). unfold hasFile.
      apply existsb_exists. exists file. split; [apply In_saveFile|].
      apply Nat.eqb_refl.
    - cbn [db2 db1 logEvent log]. apply wasPut_app. now apply wasPut_here. }
  apply always_bind.
  { apply always_call; [exact H2|]. cbn [perform].
    destruct (_ || _)%bool; cbn [fst]; [apply Hsaved|exact H2]. }
  intros s5 a5 Hrun5. rewrite run_call in Hrun5. cbn [perform] in Hrun5.
  destruct (_ || _)%bool; [|discriminate]. injection Hrun5 as <- _.
  apply always_bind.
  { apply always_call; [apply Hsaved|]. cbn [perform fst files users nextId log].
    rewrite <- app_assoc. apply Hsaved. }
  intros s6 a6 Hrun6. rewrite run_call in Hrun6. cbn [perform] in Hrun6.
  injection Hrun6 as <- _. apply always_ret.
  cbn [files users nextId log]. rewrite <- app_assoc. apply Hsaved.
Qed.

End StoredBeforeCounted.

(** X24: at every interruption point of an upload (after any number of
    completed operations), the requester's counter has been written only if
    the new entry is stored, and the new entry is stored only if the object
    store has accepted the put of its content. *)
Theorem upload_stores_before_it_counts env db userId reqFile bodyName parentFolder n :
  idsBelow db = true ->
  storedBeforeCounted env db (s3KeyOf env reqFile userId)
    (runN env n (uploadFile userId (Some reqFile) bodyName parentFolder) db).
Proof.
  intros Hids. apply always_runN. now apply always_uploadFile.
Qed.

Lemma upload_stores_before_it_counts_witness :
  storedBeforeCounted env0 db_start (s3KeyOf env0 report_pdf alice)
    (runN env0 5 (uploadFile alice (Some report_pdf) None None) db_start).
Proof.
  apply upload_stores_before_it_counts. reflexivity.
Defined.

(** ** The keys of the object store *)

Lemma noSlash_digits d : noSlash (NilEmpty.string_of_uint d) = true.
Proof. induction d; cbn; auto. Qed.

Lemma noSlash_idString id : noSlash (idString id) = true.
Proof.
  unfold idString, NilZero.string_of_uint.
  destruct (Nat.to_uint id) eqn:H; try reflexivity;
    rewrite <- H; apply noSlash_digits.
Qed.

Lemma idString_inj a b : idString a = idString b -> a = b.
Proof.
  unfold idString. intros H.
  apply DecimalNat.Unsigned.to_uint_inj.
  assert (Hnn : forall n, Nat.to_uint n <> Decimal.Nil).
  { intros n Hn.
    pose proof (DecimalNat.Unsigned.to_of (Nat.to_uint n)) as Hto.
    rewrite DecimalNat.Unsigned.of_to in Hto.
    apply (DecimalFacts.unorm_nonnil (Nat.to_uint n)). congruence. }
  assert (Hs : forall n, NilZero.uint_of_string (NilZero.string_of_uint (Nat.to_uint n))
                         = Some (Nat.to_uint n)).
  { intros n. apply NilZero.usu. apply Hnn. }
  pose proof (Hs a) as Ha. rewrite H, Hs in Ha. congruence.
Qed.

Lemma noSlash_prefix a b r1 r2 :
  noSlash a = true -> noSlash b = true ->
  a ++ "/" ++ r1 = b ++ "/" ++ r2 -> a = b.
Proof.
  revert b. induction a as [|c a IH]; intros [|d b] Ha Hb H; cbn in *; auto.
  - injection H as <- _. cbn in Hb. discriminate.
  - injection H as -> _. cbn in Ha. discriminate.
  - injection H as -> H.
    apply andb_true_iff in Ha as [_ Ha]. apply andb_true_iff in Hb as [_ Hb].
    f_equal. now apply IH.
Qed.

(** X25: the key [uploadFileToS3] builds begins with the uploader's id and a
    slash, so that uploads of two different users never share a key,
    whatever the random part and the file names. *)
Theorem keys_of_different_users_differ env env' f g u v :
  u <> v -> s3KeyOf env f u <> s3KeyOf env' g v.
Proof.
  intros Hne Heq. apply Hne. apply idString_inj.
  unfold s3KeyOf in Heq.
  eapply noSlash_prefix; [apply noSlash_idString|apply noSlash_idString|exact Heq].
Qed.

Lemma keys_of_different_users_differ_witness :
  s3KeyOf env0 report_pdf alice <> s3KeyOf env0 report_pdf bob.
Proof.
  apply keys_of_different_users_differ. discriminate.
Defined.

(** ** The cascade on plain paths *)

Lemma cascade_exact_on_plain_paths_witness :
  files (fst (run env0 (deleteEntry alice 100%nat 7) db_scenario))
  = map (fun f =>
           if (Nat.eqb (File._id f) 100
               || (Nat.eqb (File.owner f) alice && visible f
                   && Str.startsWith (File.path docs_entry ++ "/") (File.path f)))%bool
           then File.markDeleted 7 f else f)
        (files db_scenario).
Proof.
  apply (@cascade_exact_on_plain_paths env0 db_scenario alice 100%nat 7
           docs_entry 1500);
    reflexivity.
Defined.

(** ** Repeated creates *)

Lemma hasSibling_saved db userId parentFolder name ty doc us n l :
  isSibling userId parentFolder name ty doc = true ->
  hasSibling (mkDb (saveFile doc (files db)) us n l) userId parentFolder name ty
  = true.
Proof.
  intros Hsib. unfold hasSibling. cbn [files].
  apply existsb_exists. exists doc. split; [apply In_saveFile|exact Hsib].
Qed.

(** X26: a create of a folder that succeeded, sent again, answers 400 with
    the collision message and changes nothing. *)
Theorem repeated_createFolder_conflicts env db userId rawName parentFolder db' r :
  run env (createFolder userId rawName parentFolder) db = (db', Some r) ->
  status r = 201%nat ->
  run env (createFolder userId rawName parentFolder) db'
  = (db', Some (json 400 false
                  "A folder with this name already exists in this location"
                  NoPayload)).
Proof.
  intros Hrun Hstatus.
  destruct (@createFolder_created _ _ _ _ _ _ _ Hrun Hstatus)
    as (Hname & _ & Hdb & _).
  cbv zeta in Hdb, Hname.
  apply run_createFolder_conflict; [exact Hname|].
  rewrite Hdb. apply hasSibling_saved.
  unfold isSibling, visible.
  cbn [File.construct File.applySetters File.withId folderFields File.name
       File.type File.parentFolder File.owner File.isDeleted].
  now rewrite trim_idem, String.eqb_refl, Nat.eqb_refl, option_eqb_nat_refl.
Qed.

Lemma repeated_createFolder_conflicts_witness :
  let res := run env0 (createFolder alice " Docs " None) db_start in
  run env0 (createFolder alice " Docs " None) (fst res)
  = (fst res, Some (json 400 false
                      "A folder with this name already exists in this location"
                      NoPayload)).
Proof.
  intros res.
  apply (@repeated_createFolder_conflicts env0 db_start alice " Docs " None
           (fst res) (json 201 true "Folder created successfully" (PFolder docs_entry)));
    reflexivity.
Defined.

(** X27: an upload that succeeded, sent again, answers 400 with the
    collision message and changes nothing, when the quota has room for the
    file once more (the collision check is made on the trimmed name, as the
    entry stores it). *)
Theorem repeated_upload_conflicts env db userId reqFile bodyName parentFolder db' r used :
  run env (uploadFile userId (Some reqFile) bodyName parentFolder) db
  = (db', Some r) ->
  status r = 201%nat ->
  usedBytes userId db' = Some used ->
  used + Multer.size reqFile <= MAX_STORAGE ->
  run env (uploadFile userId (Some reqFile) bodyName parentFolder) db'
  = (db', Some (json 400 false
                  "A file with this name already exists in this location"
                  NoPayload)).
Proof.
  intros Hrun Hstatus Hused Hroom.
  destruct (@uploadFile_created _ _ _ _ _ _ _ _ Hrun Hstatus)
    as (f & user & Hf & Huser & Hmax & Hsib & Hput & Hdb & _).
  injection Hf as <-. cbv zeta in Hdb.
  destruct (@usedBytes_find _ _ _ Hused) as (user' & Huser' & Hused').
  apply (@run_uploadFile_conflict env db' userId reqFile bodyName parentFolder user');
    [exact Huser'|lia|].
  rewrite Hdb. apply hasSibling_saved.
  unfold isSibling, visible.
  cbn [File.construct File.applySetters File.withId fileFields File.name
       File.type File.parentFolder File.owner File.isDeleted].
  now rewrite String.eqb_refl, Nat.eqb_refl, option_eqb_nat_refl.
Qed.

Lemma repeated_upload_conflicts_witness :
  let res := run env0 (uploadFile alice (Some report_pdf) (Some " a.pdf ") None)
               db_start in
  run env0 (uploadFile alice (Some report_pdf) (Some " a.pdf ") None) (fst res)
  = (fst res, Some (json 400 false
                      "A file with this name already exists in this location"
                      NoPayload)).
Proof.
  intros res.
  apply (@repeated_upload_conflicts env0 db_start alice report_pdf (Some " a.pdf ")
           None (fst res)
           (json 201 true "File uploaded successfully"
              (PFile (File.mk 100%nat "a.pdf" (Some "report.pdf") type_file
                        (Some "application/pdf") 1000 "/ a.pdf"
                        (Some "1/r-report.pdf") None alice false None) 1000))
           1000);
    try reflexivity.
  unfold MAX_STORAGE. cbn. lia.
Defined.

(** ** White space in names *)

(** The no-break space is trimmed like the space: a folder name padded with
    it collides with the stored name, and the path of a new folder is built
    from the trimmed name. *)
Example padded_folder_names :
  Str.trim (nbsp ++ " Docs" ++ nbsp) = "Docs"
  /\ option_map status
       (snd (run env0 (createFolder alice (nbsp ++ "Docs" ++ nbsp) None) db_three))
     = Some 400%nat
  /\ createdPath
       (run env0 (createFolder alice (nbsp ++ "x" ++ nbsp) (Some 100%nat)) db_scenario)
     = Some (201%nat, Some "/Docs/x").
Proof. repeat split. Qed.

(** The collision check of an upload is made on the trimmed name: with
    /a.pdf stored, the upload of "a.pdf " answers 400 before any call of the
    object store. *)
Example padded_upload_name_collides :
  run env0 (uploadFile alice (Some report_pdf) (Some "a.pdf ") None) db_pdf
  = (db_pdf,
     Some (json 400 false
             "A file with this name already exists in this location" NoPayload)).
Proof. reflexivity. Qed.
